(** * ResearchDashboard: the analytics engine of [useAdvancedAnalytics.js]
      and the cohort chart of [StatisticalCharts]

    A shallow embedding of the statistics kernel, the temporal aggregator,
    the distribution analyzer, the correlation analyzer, the cohort
    retention chart and the insight engine, followed by the properties the
    specification states about them.

    Conventions of the embedding.
    - A JavaScript number is a value of [num]: a real number, or one of the
      three special values [PInf], [NInf], [NaN].  Arithmetic on finite
      values is exact; the special values arise and propagate as in
      IEEE 754 (division by zero, [Infinity - Infinity], square root of a
      negative number, a read past the end of an array).  Rounding,
      overflow of doubles and the sign of zero are outside the model.
    - Array lengths, bucket counts and set sizes are [nat]; [of_nat] embeds
      them where they enter number arithmetic.
    - A timestamp ([new Date(s).getTime()]) is an integer number of
      milliseconds since the epoch; a [created_at] that is [null] is
      [None], and strings that [new Date] cannot parse are not modelled.
      Local time is UTC shifted by a fixed offset [tz] (no daylight saving
      changes).
    - A JavaScript object used as a dictionary is an association list in
      insertion order, which is the order [Object.entries] enumerates
      string keys that are not array indices.  Where participant numbers
      are the keys, [own_property_order] lists array indices first, in
      ascending order, as [Object.values] does.  Keys that name a member
      of [Object.prototype] are not modelled.
    - [new Date()] reads a clock that the hook receives as the sequence of
      its readings (the monad [Clock]).
    - The renderings [String(n)] and [n.toFixed(1)] of a number are
      parameters of the functions that print numbers.
    - The hook wraps its body in [useMemo]; the embedding is the body.
      The helper [getPeriodData], which the hook defines and never calls,
      is embedded beside it.
    - The module [Binary64] repeats the statistics kernel on doubles.
      Properties of numbers are stated for the inputs on which exact
      arithmetic and doubles agree (whole numbers, moderate magnitudes);
      where they do not, the module gives the value the code computes. *)

From Stdlib Require Import String Ascii DecimalString.
From Stdlib Require Import Reals Lra Lia ZArith List Bool.
From Stdlib Require Import Permutation Sorted.
From Stdlib Require PrimFloat Uint63.
Import ListNotations.

Local Open Scope R_scope.

(* ================================================================== *)
(** * JavaScript numbers *)
(* ================================================================== *)

Inductive num : Type :=
| Fin (r : R)
| PInf
| NInf
| NaN.

Definition is_finite (x : num) : Prop :=
  match x with Fin _ => True | _ => False end.

(** [r * Infinity] for a finite [r]. *)
Definition inf_of_sign (r : R) : num :=
  if Rlt_dec 0 r then PInf else if Rlt_dec r 0 then NInf else NaN.

Definition nneg (x : num) : num :=
  match x with
  | Fin r => Fin (- r)
  | PInf => NInf
  | NInf => PInf
  | NaN => NaN
  end.

Definition nadd (x y : num) : num :=
  match x, y with
  | Fin a, Fin b => Fin (a + b)
  | NaN, _ | _, NaN => NaN
  | PInf, NInf | NInf, PInf => NaN
  | PInf, _ | _, PInf => PInf
  | NInf, _ | _, NInf => NInf
  end.

Definition nsub (x y : num) : num := nadd x (nneg y).

Definition nmul (x y : num) : num :=
  match x, y with
  | Fin a, Fin b => Fin (a * b)
  | NaN, _ | _, NaN => NaN
  | Fin a, PInf | PInf, Fin a => inf_of_sign a
  | Fin a, NInf | NInf, Fin a => inf_of_sign (- a)
  | PInf, PInf | NInf, NInf => PInf
  | PInf, NInf | NInf, PInf => NInf
  end.

Definition ndiv (x y : num) : num :=
  match x, y with
  | Fin a, Fin b => if Req_dec_T b 0 then inf_of_sign a else Fin (a / b)
  | NaN, _ | _, NaN => NaN
  | Fin _, PInf | Fin _, NInf => Fin 0
  | PInf, Fin b => if Rlt_dec b 0 then NInf else PInf
  | NInf, Fin b => if Rlt_dec b 0 then PInf else NInf
  | _, _ => NaN
  end.

(** [Math.sqrt] *)
Definition nsqrt (x : num) : num :=
  match x with
  | Fin r => if Rlt_dec r 0 then NaN else Fin (sqrt r)
  | PInf => PInf
  | NInf | NaN => NaN
  end.

(** [Math.pow(v, 2)] *)
Definition npow2 (x : num) : num := nmul x x.

(** [Math.abs] *)
Definition nabs (x : num) : num :=
  match x with
  | Fin r => Fin (Rabs r)
  | PInf | NInf => PInf
  | NaN => NaN
  end.

(** [Math.floor] and [Math.ceil] *)
Definition nfloor (x : num) : num :=
  match x with Fin r => Fin (IZR (Zfloor r)) | _ => x end.

Definition nceil (x : num) : num :=
  match x with Fin r => Fin (IZR (Zceil r)) | _ => x end.

(** [x < y]; every comparison with [NaN] is false. *)
Definition nlt (x y : num) : bool :=
  match x, y with
  | Fin a, Fin b => if Rlt_dec a b then true else false
  | NaN, _ | _, NaN => false
  | NInf, Fin _ | NInf, PInf | Fin _, PInf => true
  | _, _ => false
  end.

Definition ngt (x y : num) : bool := nlt y x.

(** [x === y] on numbers. *)
Definition neqb (x y : num) : bool :=
  match x, y with
  | Fin a, Fin b => if Req_dec_T a b then true else false
  | PInf, PInf | NInf, NInf => true
  | _, _ => false
  end.

(** Truthiness of a number: [0] and [NaN] are falsy. *)
Definition truthy (x : num) : bool :=
  match x with
  | Fin r => if Req_dec_T r 0 then false else true
  | NaN => false
  | PInf | NInf => true
  end.

Definition of_nat (n : nat) : num := Fin (INR n).

(** [Math.max(a, b)] and [Math.min(a, b)] *)
Definition nmax2 (a b : num) : num :=
  match a, b with
  | NaN, _ | _, NaN => NaN
  | _, _ => if nlt a b then b else a
  end.

Definition nmin2 (a b : num) : num :=
  match a, b with
  | NaN, _ | _, NaN => NaN
  | _, _ => if nlt b a then b else a
  end.

(** [Math.max(...arr)] and [Math.min(...arr)] *)
Definition Math_max (arr : list num) : num := fold_left nmax2 arr NInf.
Definition Math_min (arr : list num) : num := fold_left nmin2 arr PInf.

(** [arr[k]] for a number [k]: the element when [k] is an index of the
    array, [undefined] (which every arithmetic operation turns into [NaN])
    otherwise. *)
Definition at_index (arr : list num) (k : num) : num :=
  match k with
  | Fin r =>
      if Req_dec_T r (IZR (Zfloor r)) then
        if Z_lt_dec (Zfloor r) 0 then NaN
        else nth (Z.to_nat (Zfloor r)) arr NaN
      else NaN
  | _ => NaN
  end.

(* ================================================================== *)
(** * [Array.prototype.sort] *)
(* ================================================================== *)

(** The sort is stable.  [gt a b] tells whether the comparator returns a
    positive number on [(a, b)]; a comparator result that is zero, negative
    or [NaN] leaves [a] before [b]. *)
Section Sort.
Context {A : Type} (gt : A -> A -> bool).

Fixpoint insert_sorted (x : A) (l : list A) : list A :=
  match l with
  | [] => [x]
  | y :: l' => if gt x y then y :: insert_sorted x l' else x :: l
  end.

Fixpoint js_sort (l : list A) : list A :=
  match l with
  | [] => []
  | x :: l' => insert_sorted x (js_sort l')
  end.
End Sort.

(* ================================================================== *)
(** * StatisticsKernel *)
(* ================================================================== *)

(** [arr.reduce((a, b) => a + b, 0)] *)
Definition sum (arr : list num) : num := fold_left nadd arr (Fin 0).

Definition len {A : Type} (arr : list A) : num := of_nat (length arr).

Definition mean (arr : list num) : num :=
  match arr with
  | [] => Fin 0
  | _ => ndiv (sum arr) (len arr)
  end.

(** [[...arr].sort((a, b) => a - b)] *)
Definition sort_numbers (arr : list num) : list num :=
  js_sort (fun a b => ngt (nsub a b) (Fin 0)) arr.

Definition median (arr : list num) : num :=
  match arr with
  | [] => Fin 0
  | _ =>
      let sorted := sort_numbers arr in
      let mid := (length sorted / 2)%nat in
      if Nat.odd (length sorted) then nth mid sorted NaN
      else ndiv (nadd (nth (mid - 1) sorted NaN) (nth mid sorted NaN)) (Fin 2)
  end.

Definition standardDeviation (arr : list num) : num :=
  match arr with
  | [] => Fin 0
  | _ =>
      let avg := mean arr in
      let squareDiffs := map (fun value => npow2 (nsub value avg)) arr in
      nsqrt (mean squareDiffs)
  end.

Definition percentile (arr : list num) (p : num) : num :=
  match arr with
  | [] => Fin 0
  | _ =>
      let sorted := sort_numbers arr in
      let index := nmul (ndiv p (Fin 100)) (nsub (len sorted) (Fin 1)) in
      let lower := nfloor index in
      let upper := nceil index in
      if neqb lower upper then at_index sorted lower
      else nadd (nmul (at_index sorted lower) (nsub upper index))
                (nmul (at_index sorted upper) (nsub index lower))
  end.

(** [arr.map((v, i) => [i, v])]: the elements with their indices, as the
    callbacks of [reduce] receive them. *)
Definition indexed {A : Type} (arr : list A) : list (nat * A) :=
  combine (seq 0 (length arr)) arr.

Definition correlation (x y : list num) : num :=
  if (length x =? 0)%nat || (length y =? 0)%nat
     || negb (length x =? length y)%nat
  then Fin 0
  else
    let meanX := mean x in
    let meanY := mean y in
    let numerator :=
      fold_left
        (fun acc '(i, xi) =>
           nadd acc (nmul (nsub xi meanX) (nsub (nth i y NaN) meanY)))
        (indexed x) (Fin 0) in
    let denominator :=
      nsqrt (nmul
               (fold_left (fun acc xi => nadd acc (npow2 (nsub xi meanX)))
                          x (Fin 0))
               (fold_left (fun acc yi => nadd acc (npow2 (nsub yi meanY)))
                          y (Fin 0))) in
    if truthy denominator then ndiv numerator denominator else Fin 0.

(* ================================================================== *)
(** * The statistics kernel on doubles *)
(* ================================================================== *)

(** The helpers of the kernel once more, on IEEE 754 binary64 with
    rounding to nearest even, which is the arithmetic of a JavaScript
    number.  [Math.pow(v, 2)] is taken as the correctly rounded square
    [v * v].  The module evaluates the kernel where rounding or overflow
    decide the result; the properties that follow say for which inputs the
    exact arithmetic of [num] and this one agree. *)
Module Binary64.
Import PrimFloat.
Local Open Scope float_scope.

(** A number as a condition: [0], [-0] and [NaN] are falsy. *)
Definition truthy (x : float) : bool := negb (x =? 0) && negb (is_nan x).

(** [arr.length] as a number. *)
Definition len {A : Type} (arr : list A) : float :=
  of_uint63 (Uint63.of_Z (Z.of_nat (length arr))).

Definition sum (arr : list float) : float := fold_left add arr 0.

Definition mean (arr : list float) : float :=
  match arr with
  | [] => 0
  | _ => sum arr / len arr
  end.

Definition sort_numbers (arr : list float) : list float :=
  js_sort (fun a b => 0 <? a - b) arr.

Definition median (arr : list float) : float :=
  match arr with
  | [] => 0
  | _ =>
      let sorted := sort_numbers arr in
      let mid := Nat.div (length sorted) 2 in
      if Nat.odd (length sorted) then nth mid sorted nan
      else (nth (mid - 1) sorted nan + nth mid sorted nan) / 2
  end.

Definition standardDeviation (arr : list float) : float :=
  match arr with
  | [] => 0
  | _ =>
      let avg := mean arr in
      let squareDiffs := map (fun value => (value - avg) * (value - avg)) arr in
      sqrt (mean squareDiffs)
  end.

Definition correlation (x y : list float) : float :=
  if (length x =? 0)%nat || (length y =? 0)%nat
     || negb (length x =? length y)%nat
  then 0
  else
    let meanX := mean x in
    let meanY := mean y in
    let numerator :=
      fold_left
        (fun acc '(i, xi) => acc + (xi - meanX) * (nth i y nan - meanY))
        (indexed x) 0 in
    let denominator :=
      sqrt (fold_left (fun acc xi => acc + (xi - meanX) * (xi - meanX)) x 0
            * fold_left (fun acc yi => acc + (yi - meanY) * (yi - meanY)) y 0)
    in
    if truthy denominator then numerator / denominator else 0.

(** [durations.filter(d => d != null && d > 0)] *)
Definition sessionDurations (durations : list (option float)) : list float :=
  flat_map (fun duration =>
              match duration with
              | Some d => if 0 <? d then [d] else []
              | None => []
              end)
           durations.

(** The doubles nearest to 0.1, 1e200, 2e200, 4e200 and 1e308. *)
Definition d0_1 : float := 0x1.999999999999ap-4.
Definition d1e200 : float := 0x1.4e718d7d7625ap+664.
Definition d2e200 : float := 0x1.4e718d7d7625ap+665.
Definition d4e200 : float := 0x1.4e718d7d7625ap+666.
Definition d1e308 : float := 0x1.1ccf385ebc8ap+1023.
End Binary64.

(* ================================================================== *)
(** * Dates *)
(* ================================================================== *)

Local Open Scope Z_scope.

Definition msPerDay : Z := 24 * 60 * 60 * 1000.

(** The proleptic Gregorian calendar: the civil date [(year, month, day)],
    months counted from 1, of a day number counted from 1970-01-01. *)
Definition civil_from_days (z : Z) : Z * Z * Z :=
  let z := z + 719468 in
  let era := z / 146097 in
  let doe := z - era * 146097 in
  let yoe := (doe - doe / 1460 + doe / 36524 - doe / 146096) / 365 in
  let doy := doe - (365 * yoe + yoe / 4 - yoe / 100) in
  let mp := (5 * doy + 2) / 153 in
  let d := doy - (153 * mp + 2) / 5 + 1 in
  let m := if mp <? 10 then mp + 3 else mp - 9 in
  let y := yoe + era * 400 in
  (if m <=? 2 then y + 1 else y, m, d).

Definition days_from_civil (y m d : Z) : Z :=
  let y := if m <=? 2 then y - 1 else y in
  let era := y / 400 in
  let yoe := y - era * 400 in
  let doy := (153 * (if 2 <? m then m - 3 else m + 9) + 2) / 5 + d - 1 in
  let doe := yoe * 365 + yoe / 4 - yoe / 100 + doy in
  era * 146097 + doe - 719468.

(** [String(z)] for an integer. *)
Definition string_of_Z (z : Z) : string := NilZero.string_of_int (Z.to_int z).

(** Two decimal digits, as [padStart(2, '0')] gives them. *)
Definition pad2 (z : Z) : string :=
  if z <? 10 then ("0" ++ string_of_Z z)%string else string_of_Z z.

(** Four decimal digits for the year of an ISO date (years 0 to 9999). *)
Definition pad4 (z : Z) : string :=
  if z <? 10 then ("000" ++ string_of_Z z)%string
  else if z <? 100 then ("00" ++ string_of_Z z)%string
  else if z <? 1000 then ("0" ++ string_of_Z z)%string
  else string_of_Z z.

Section LocalTime.
(** Offset of local time from UTC, in milliseconds. *)
Variable tz : Z.

(** Number of the local calendar day of a timestamp. *)
Definition local_day (date : Z) : Z := (date + tz) / msPerDay.

Definition getFullYear (date : Z) : Z :=
  let '(y, _, _) := civil_from_days (local_day date) in y.

(** Months are counted from 0. *)
Definition getMonth (date : Z) : Z :=
  let '(_, m, _) := civil_from_days (local_day date) in m - 1.

Definition getDate (date : Z) : Z :=
  let '(_, _, d) := civil_from_days (local_day date) in d.

(** Day of the week, 0 for Sunday; 1970-01-01 was a Thursday. *)
Definition getDay (date : Z) : Z := (local_day date + 4) mod 7.

Definition getHours (date : Z) : Z :=
  ((date + tz) mod msPerDay) / (60 * 60 * 1000).

(** [d.setDate(n)]: the day of the month becomes [n], days outside the
    month carry over, the time of day is kept. *)
Definition setDate (date n : Z) : Z := date + (n - getDate date) * msPerDay.

(** Local midnight of a local day, which is what [new Date(s)] gives for
    the string [s] that [toDateString()] printed for that day. *)
Definition local_midnight (day : Z) : Z := day * msPerDay - tz.
End LocalTime.

(** [d.toISOString().split('T')[0]]: the UTC date as [YYYY-MM-DD]. *)
Definition iso_date (date : Z) : string :=
  let '(y, m, d) := civil_from_days (date / msPerDay) in
  (pad4 y ++ "-" ++ pad2 m ++ "-" ++ pad2 d)%string.

Definition parse_digits (s : string) : Z :=
  match NilZero.uint_of_string s with
  | Some u => Z.of_uint u
  | None => 0
  end.

(** [new Date(s)] for a date-only ISO string: midnight UTC of that date. *)
Definition parse_iso_date (s : string) : Z :=
  days_from_civil (parse_digits (substring 0 4 s))
                  (parse_digits (substring 5 2 s))
                  (parse_digits (substring 8 2 s)) * msPerDay.

(** [a.localeCompare(b)] on strings made of digits and hyphens, where the
    collation order is the order of the character codes: negative, zero or
    positive. *)
Definition localeCompare (a b : string) : Z :=
  match String.compare a b with
  | Lt => -1
  | Eq => 0
  | Gt => 1
  end.

(* ================================================================== *)
(** * Data model *)
(* ================================================================== *)

(** A record of [app_usage_sessions].  A field that is [null] or absent is
    [None]. *)
Record Session : Type := {
  participant_number : option string;
  duration_minutes : option num;
  created_at : option Z
}.

(** A value of a flat record as the backend delivers it. *)
Inductive jsval : Type :=
| JNull
| JBool (b : bool)
| JNum (n : num)
| JStr (s : string).

(** A demographic record: its entries in the order of [Object.entries]. *)
Definition Demographic : Type := list (string * jsval).

(** A pretest response: its entries, and the timestamp its [created_at]
    entry parses to. *)
Record Response : Type := {
  response_created_at : option Z;
  response_fields : list (string * jsval)
}.

Inductive DateRange : Type := today | d7 | d30 | d90 | all.

(** A value of the table [periodDays]: a number of days or ['all']. *)
Inductive Days : Type :=
| DaysN (n : Z)
| DaysAll.

Definition periodDays (dateRange : DateRange) : Days :=
  match dateRange with
  | today => DaysN 1
  | d7 => DaysN 7
  | d30 => DaysN 30
  | d90 => DaysN 90
  | all => DaysAll
  end.

(** Truthiness of a string or [null]: [null] and the empty string are
    falsy. *)
Definition truthy_string (s : option string) : bool :=
  match s with
  | Some s => negb (String.eqb s "")
  | None => false
  end.

(* ================================================================== *)
(** * The clock *)
(* ================================================================== *)

(** [new Date()] reads the system clock.  A computation that reads it is a
    function of the successive readings [clock 0, clock 1, ...] and of the
    number of readings already consumed. *)
Definition Clock (A : Type) : Type := (nat -> Z) -> nat -> A * nat.

Definition ret {A : Type} (a : A) : Clock A := fun _ t => (a, t).

Definition bind {A B : Type} (m : Clock A) (k : A -> Clock B) : Clock B :=
  fun clock t => let '(a, t') := m clock t in k a clock t'.

Definition new_Date : Clock Z := fun clock t => (clock t, S t).

Notation "x <- m ;; k" := (bind m (fun x => k))
  (at level 61, m at next level, right associativity).

(** The result of a computation started with no reading consumed. *)
Definition run {A : Type} (m : Clock A) (clock : nat -> Z) : A :=
  fst (m clock 0%nat).

(* ================================================================== *)
(** * TemporalAggregator: the previous period *)
(* ================================================================== *)

Definition getPreviousPeriodData {A : Type} (created : A -> option Z)
    (data : list A) (days : Days) : Clock (list A) :=
  match days with
  | DaysAll => ret []
  | DaysN days =>
      now <- new_Date ;;
      let periodStart := now - days * 24 * 60 * 60 * 1000 in
      let previousStart := now - (days * 2) * 24 * 60 * 60 * 1000 in
      ret (filter
             (fun item =>
                match created item with
                | None => false
                | Some itemDate =>
                    (previousStart <=? itemDate) && (itemDate <? periodStart)
                end)
             data)
  end.

(** The helper for the current period.  The hook defines it, under the
    comment [// Period comparison helper], and never calls it: the
    current arrays are the arrays the hook is given. *)
Definition getPeriodData {A : Type} (tz : Z) (created : A -> option Z)
    (data : list A) (days : Days) : Clock (list A) :=
  match days with
  | DaysAll => ret data
  | DaysN days =>
      now <- new_Date ;;
      let cutoffDate := setDate tz now (getDate tz now - days) in
      ret (filter
             (fun item =>
                match created item with
                | None => false
                | Some itemDate => cutoffDate <=? itemDate
                end)
             data)
  end.

Local Open Scope R_scope.

(** [sessions.map(s => s.duration_minutes)
             .filter(d => d != null && d > 0)] *)
Definition sessionDurations (sessions : list Session) : list num :=
  flat_map (fun duration => match duration with Some d => [d] | None => [] end)
    (filter
       (fun duration =>
          match duration with
          | Some d => ngt d (Fin 0)
          | None => false
          end)
       (map duration_minutes sessions)).

Record Percentiles : Type := {
  p25 : num; p75 : num; p90 : num; p95 : num
}.

Record Change : Type := { change_count : num; change_mean : num }.

Record PreviousPeriod : Type := {
  previous_count : nat;
  previous_mean : num;
  previous_median : num;
  change : Change
}.

Record SessionAnalytics : Type := {
  sa_count : nat;
  sa_mean : num;
  sa_median : num;
  sa_standardDeviation : num;
  sa_min : num;
  sa_max : num;
  percentiles : Percentiles;
  previousPeriod : PreviousPeriod
}.

Definition sessionAnalytics_of (sessionDurations previousSessionDurations
                                : list num) : SessionAnalytics :=
  {| sa_count := length sessionDurations;
     sa_mean := mean sessionDurations;
     sa_median := median sessionDurations;
     sa_standardDeviation := standardDeviation sessionDurations;
     sa_min := match sessionDurations with
               | [] => Fin 0
               | _ => Math_min sessionDurations
               end;
     sa_max := match sessionDurations with
               | [] => Fin 0
               | _ => Math_max sessionDurations
               end;
     percentiles :=
       {| p25 := percentile sessionDurations (Fin 25);
          p75 := percentile sessionDurations (Fin 75);
          p90 := percentile sessionDurations (Fin 90);
          p95 := percentile sessionDurations (Fin 95) |};
     previousPeriod :=
       {| previous_count := length previousSessionDurations;
          previous_mean := mean previousSessionDurations;
          previous_median := median previousSessionDurations;
          change :=
            {| change_count :=
                 match previousSessionDurations with
                 | [] => Fin 0
                 | _ =>
                     nmul (ndiv (nsub (len sessionDurations)
                                      (len previousSessionDurations))
                                (len previousSessionDurations))
                          (Fin 100)
                 end;
               change_mean :=
                 match previousSessionDurations with
                 | [] => Fin 0
                 | _ =>
                     nmul (ndiv (nsub (mean sessionDurations)
                                      (mean previousSessionDurations))
                                (mean previousSessionDurations))
                          (Fin 100)
                 end |} |} |}.

(* ================================================================== *)
(** * Dictionaries *)
(* ================================================================== *)

(** [acc[key] = f(acc[key] || init)]: the entry of [key] is updated where it
    stands, a new key is added at the end. *)
Fixpoint upsert {K V : Type} (eqb : K -> K -> bool) (key : K) (init : V)
    (f : V -> V) (acc : list (K * V)) : list (K * V) :=
  match acc with
  | [] => [(key, f init)]
  | (k, v) :: rest =>
      if eqb k key then (k, f v) :: rest
      else (k, v) :: upsert eqb key init f rest
  end.

(** [acc[key] = (acc[key] || 0) + 1] *)
Definition bump {K : Type} (eqb : K -> K -> bool) (key : K)
    (acc : list (K * nat)) : list (K * nat) :=
  upsert eqb key 0%nat S acc.

(** [acc[key]] *)
Fixpoint lookup {K V : Type} (eqb : K -> K -> bool) (key : K)
    (acc : list (K * V)) : option V :=
  match acc with
  | [] => None
  | (k, v) :: rest => if eqb k key then Some v else lookup eqb key rest
  end.

(** The names every object inherits from [Object.prototype].  Under such
    a name a read [acc[key]] of a dictionary that has no entry of its own
    finds the inherited member instead of [undefined]; the association
    lists do not model that, and the properties of dictionaries keyed by
    data exclude these names. *)
Definition Object_prototype_names : list string :=
  ["constructor"; "hasOwnProperty"; "isPrototypeOf"; "propertyIsEnumerable";
   "toLocaleString"; "toString"; "valueOf"; "__proto__";
   "__defineGetter__"; "__defineSetter__"; "__lookupGetter__";
   "__lookupSetter__"]%string.

Definition plain_name (s : string) : Prop := ~ In s Object_prototype_names.

(** The number a string of decimal digits writes, after the digits
    already read as [acc]; [None] when a character is not a digit. *)
Fixpoint digits_value (s : string) (acc : N) : option N :=
  match s with
  | EmptyString => Some acc
  | String c rest =>
      let code := N_of_ascii c in
      if ((48 <=? code) && (code <=? 57))%N
      then digits_value rest (10 * acc + (code - 48))%N
      else None
  end.

(** A property name is an array index when it is the canonical decimal
    writing of an integer from 0 to 2^32 - 2. *)
Definition array_index (s : string) : option N :=
  match s with
  | EmptyString => None
  | String "0" EmptyString => Some 0%N
  | String "0" _ => None
  | _ =>
      match digits_value s 0 with
      | Some n => if (n <? 2 ^ 32 - 1)%N then Some n else None
      | None => None
      end
  end.

Definition is_array_index (s : string) : bool :=
  match array_index s with Some _ => true | None => false end.

(** The order in which [Object.keys], [Object.values] and
    [Object.entries] list the properties of a dictionary: the array
    indices in ascending numeric order, then the other names in insertion
    order. *)
Definition own_property_order {V : Type} (obj : list (string * V))
  : list (string * V) :=
  js_sort (fun a b =>
             match array_index (fst a), array_index (fst b) with
             | Some i, Some j => (j <? i)%N
             | _, _ => false
             end)
          (filter (fun e => is_array_index (fst e)) obj)
  ++ filter (fun e => negb (is_array_index (fst e))) obj.

(** [s.includes(sub)] *)
Definition includes (s sub : string) : bool :=
  match index 0 sub s with
  | Some _ => true
  | None => false
  end.

(* ================================================================== *)
(** * TemporalAggregator: the time series and its trend *)
(* ================================================================== *)

Inductive Grouping : Type := daily | weekly | monthly.

Definition getTimeSeriesGrouping (days : Z) : Grouping :=
  if (days <=? 7)%Z then daily
  else if (days <=? 30)%Z then daily
  else if (days <=? 90)%Z then weekly
  else monthly.

(** A key of [sessionsByPeriod].  Under daily and weekly grouping the key
    is the string [toDateString()] prints, which names one local calendar
    day: it is kept as the number of that day.  Under monthly grouping the
    key is the string [year-month]. *)
Inductive BucketKey : Type :=
| DateKey (day : Z)
| MonthKey (label : string).

Definition BucketKey_eqb (a b : BucketKey) : bool :=
  match a, b with
  | DateKey x, DateKey y => (x =? y)%Z
  | MonthKey x, MonthKey y => String.eqb x y
  | _, _ => false
  end.

(** The [period] of a point of the series: a [Date] under daily and weekly
    grouping, the key string under monthly grouping. *)
Inductive Period : Type :=
| PeriodDate (date : Z)
| PeriodMonth (label : string).

Record TimePoint : Type := {
  period : Period;
  count : nat;
  point_grouping : Grouping
}.

Inductive Direction : Type := increasing | decreasing | stable.

Record Trend : Type := { slope : num; direction : Direction }.

Definition calculateTrend (data : list TimePoint) : Trend :=
  if (length data <? 2)%nat then {| slope := Fin 0; direction := stable |}
  else
    let n := len data in
    let sumX :=
      fold_left (fun acc '(i, _) => nadd acc (of_nat i))
                (indexed data) (Fin 0) in
    let sumY :=
      fold_left (fun acc item => nadd acc (of_nat (count item)))
                data (Fin 0) in
    let sumXY :=
      fold_left (fun acc '(i, item) =>
                   nadd acc (nmul (of_nat i) (of_nat (count item))))
                (indexed data) (Fin 0) in
    let sumXX :=
      fold_left (fun acc '(i, _) => nadd acc (nmul (of_nat i) (of_nat i)))
                (indexed data) (Fin 0) in
    let slope :=
      ndiv (nsub (nmul n sumXY) (nmul sumX sumY))
           (nsub (nmul n sumXX) (nmul sumX sumX)) in
    let direction :=
      if ngt slope (Fin (1 / 10)) then increasing
      else if nlt slope (Fin (- (1 / 10))) then decreasing
      else stable in
    {| slope := slope; direction := direction |}.

Section TimeSeries.
Variable tz : Z.

Definition bucket_key (grouping : Grouping) (date : Z) : BucketKey :=
  match grouping with
  | daily => DateKey (local_day tz date)
  | weekly =>
      let weekStart := setDate tz date (getDate tz date - getDay tz date) in
      DateKey (local_day tz weekStart)
  | monthly =>
      MonthKey (string_of_Z (getFullYear tz date) ++ "-"
                ++ string_of_Z (getMonth tz date + 1))%string
  end.

Definition sessionsByPeriod (grouping : Grouping)
    (currentAppUsage : list Session) : list (BucketKey * nat) :=
  fold_left
    (fun acc session =>
       match created_at session with
       | Some date => bump BucketKey_eqb (bucket_key grouping date) acc
       | None => acc
       end)
    currentAppUsage [].

Definition period_of_key (key : BucketKey) : Period :=
  match key with
  | DateKey day => PeriodDate (local_midnight tz day)
  | MonthKey label => PeriodMonth label
  end.

(** Whether the comparator of the series returns a positive number. *)
Definition period_after (grouping : Grouping) (a b : TimePoint) : bool :=
  match grouping, period a, period b with
  | monthly, PeriodMonth x, PeriodMonth y => (0 <? localeCompare x y)%Z
  | daily, PeriodDate x, PeriodDate y
  | weekly, PeriodDate x, PeriodDate y => (0 <? x - y)%Z
  | _, _, _ => false
  end.

Definition timeSeriesData (grouping : Grouping)
    (currentAppUsage : list Session) : list TimePoint :=
  js_sort (period_after grouping)
    (map (fun '(key, n) =>
            {| period := period_of_key key;
               count := n;
               point_grouping := grouping |})
         (sessionsByPeriod grouping currentAppUsage)).
End TimeSeries.

(* ================================================================== *)
(** * Period-over-period comparison *)
(* ================================================================== *)

Record Comparison : Type := {
  current : num;
  previous : num;
  comparison_change : num;
  trend : Direction
}.

Record ParticipantComparison : Type := {
  participants_current : nat;
  participants_previous : nat;
  participants_change : num
}.

Record PeriodComparison : Type := {
  pc_sessions : Comparison;
  pc_duration : Comparison;
  pc_participants : ParticipantComparison
}.

Definition comparison_trend (change : num) : Direction :=
  if ngt change (Fin 5) then increasing
  else if nlt change (Fin (- 5)) then decreasing
  else stable.

(** [new Set(sessions.map(s => s.participant_number).filter(Boolean)).size] *)
Definition participantCount (sessions : list Session) : nat :=
  length
    (nodup string_dec
       (flat_map (fun p => match p with Some s => [s] | None => [] end)
          (filter truthy_string (map participant_number sessions)))).

Definition periodComparison_of (sessionAnalytics : SessionAnalytics)
    (currentAppUsage previousAppUsage : list Session) : PeriodComparison :=
  let previous_period := previousPeriod sessionAnalytics in
  let participants_cur := participantCount currentAppUsage in
  let participants_prev := participantCount previousAppUsage in
  {| pc_sessions :=
       {| current := of_nat (sa_count sessionAnalytics);
          previous := of_nat (previous_count previous_period);
          comparison_change := change_count (change previous_period);
          trend := comparison_trend (change_count (change previous_period)) |};
     pc_duration :=
       {| current := sa_mean sessionAnalytics;
          previous := previous_mean previous_period;
          comparison_change := change_mean (change previous_period);
          trend := comparison_trend (change_mean (change previous_period)) |};
     pc_participants :=
       {| participants_current := participants_cur;
          participants_previous := participants_prev;
          participants_change :=
            match participants_prev with
            | O => Fin 0
            | _ =>
                nmul (ndiv (nsub (of_nat participants_cur)
                                 (of_nat participants_prev))
                           (of_nat participants_prev))
                     (Fin 100)
            end |} |}.

(* ================================================================== *)
(** * DistributionAnalyzer *)
(* ================================================================== *)

Section Distribution.
(** [String(n)] for a number. *)
Variable String_of_num : num -> string.

(** [String(value)] *)
Definition String_of (value : jsval) : string :=
  match value with
  | JNull => "null"
  | JBool true => "true"
  | JBool false => "false"
  | JNum n => String_of_num n
  | JStr s => s
  end.

Definition is_null (value : jsval) : bool :=
  match value with JNull => true | _ => false end.

Definition demographicDistribution (currentDemographics : list Demographic)
  : list (string * list (string * nat)) :=
  fold_left
    (fun acc person =>
       fold_left
         (fun acc '(key, value) =>
            if negb (is_null value) && negb (String.eqb key "id")
               && negb (String.eqb key "created_at")
            then upsert String.eqb key []
                   (bump String.eqb (String_of value)) acc
            else acc)
         person acc)
    currentDemographics [].

(** The charts of the dashboard: the distribution without the fields
    [participant_id] and [sample_code]. *)
Definition demographicCharts
    (distribution : list (string * list (string * nat)))
  : list (string * list (string * nat)) :=
  filter (fun '(field, _) =>
            negb (String.eqb field "participant_id")
            && negb (String.eqb field "sample_code"))
         distribution.
End Distribution.

Record BooleanCount : Type := { count_true : nat; count_false : nat }.

Record NumericStats : Type := {
  values : list num;
  ns_mean : num;
  ns_median : num;
  ns_standardDeviation : num;
  ns_min : num;
  ns_max : num
}.

(** The accumulator of the pretest analysis; a field is [None] until the
    first boolean (numeric) value creates it. *)
Record PretestAcc : Type := {
  acc_booleanFields : option (list (string * BooleanCount));
  acc_numericFields : option (list (string * list num))
}.

Record PretestAnalysis : Type := {
  booleanFields : option (list (string * BooleanCount));
  numericFields : option (list (string * NumericStats))
}.

Definition or_empty {A : Type} (o : option (list A)) : list A :=
  match o with Some l => l | None => [] end.

Definition pretest_entry (acc : PretestAcc) (entry : string * jsval)
  : PretestAcc :=
  let '(key, value) := entry in
  match value with
  | JBool b =>
      {| acc_booleanFields :=
           Some (upsert String.eqb key
                   {| count_true := 0; count_false := 0 |}
                   (fun c =>
                      if b then {| count_true := S (count_true c);
                                   count_false := count_false c |}
                      else {| count_true := count_true c;
                              count_false := S (count_false c) |})
                   (or_empty (acc_booleanFields acc)));
         acc_numericFields := acc_numericFields acc |}
  | JNum n =>
      if negb (includes key "id") then
        {| acc_booleanFields := acc_booleanFields acc;
           acc_numericFields :=
             Some (upsert String.eqb key [] (fun vs => vs ++ [n])
                     (or_empty (acc_numericFields acc))) |}
      else acc
  | _ => acc
  end.

Definition numericStats_of (vs : list num) : NumericStats :=
  {| values := vs;
     ns_mean := mean vs;
     ns_median := median vs;
     ns_standardDeviation := standardDeviation vs;
     ns_min := Math_min vs;
     ns_max := Math_max vs |}.

Definition pretestAnalysis_of (currentPretest : list Response)
  : PretestAnalysis :=
  let acc :=
    fold_left
      (fun acc response => fold_left pretest_entry (response_fields response) acc)
      currentPretest
      {| acc_booleanFields := None; acc_numericFields := None |} in
  {| booleanFields := acc_booleanFields acc;
     numericFields :=
       option_map (map (fun '(field, vs) => (field, numericStats_of vs)))
                  (acc_numericFields acc) |}.

(* ================================================================== *)
(** * CorrelationAnalyzer *)
(* ================================================================== *)

Record ParticipantStats : Type := {
  ps_sessions : nat;
  ps_totalDuration : num;
  ps_avgDuration : num
}.

Definition add_session (d : num) (p : ParticipantStats) : ParticipantStats :=
  let sessions := S (ps_sessions p) in
  let totalDuration := nadd (ps_totalDuration p) d in
  {| ps_sessions := sessions;
     ps_totalDuration := totalDuration;
     ps_avgDuration := ndiv totalDuration (of_nat sessions) |}.

Definition participantData (currentAppUsage : list Session)
  : list (string * ParticipantStats) :=
  fold_left
    (fun acc session =>
       match participant_number session, duration_minutes session with
       | Some p, Some d =>
           if truthy_string (Some p) && truthy d then
             upsert String.eqb p
               {| ps_sessions := 0;
                  ps_totalDuration := Fin 0;
                  ps_avgDuration := Fin 0 |}
               (add_session d) acc
           else acc
       | _, _ => acc
       end)
    currentAppUsage [].

Inductive Strength : Type := strong | moderate | weak.

Record SessionsVsDuration : Type := {
  coefficient : num;
  strength : Strength
}.

(** The object [correlations]: its property [sessionsVsDuration], absent
    when there are at most 5 sessions. *)
Definition correlations_of (currentAppUsage : list Session)
  : option SessionsVsDuration :=
  if (5 <? length currentAppUsage)%nat then
    let data := own_property_order (participantData currentAppUsage) in
    let sessionCounts := map (fun '(_, p) => of_nat (ps_sessions p)) data in
    let avgDurations := map (fun '(_, p) => ps_avgDuration p) data in
    Some {| coefficient := correlation sessionCounts avgDurations;
            strength :=
              if ngt (nabs (correlation sessionCounts avgDurations))
                     (Fin (7 / 10)) then strong
              else if ngt (nabs (correlation sessionCounts avgDurations))
                          (Fin (3 / 10)) then moderate
              else weak |}
  else None.

(* ================================================================== *)
(** * Usage patterns *)
(* ================================================================== *)

Record Engagement : Type := {
  eng_sessions : nat;
  eng_totalDuration : num;
  lastActivity : option Z
}.

Record UsagePatterns : Type := {
  hourlyDistribution : list (Z * nat);
  dailyDistribution : list (Z * nat);
  participantEngagement : list (string * Engagement)
}.

(** [duration || 0] *)
Definition duration_or_0 (d : option num) : num :=
  match d with
  | Some d => if truthy d then d else Fin 0
  | None => Fin 0
  end.

Definition usage_step (tz : Z) (u : UsagePatterns) (session : Session)
  : UsagePatterns :=
  let u1 :=
    match created_at session with
    | Some date =>
        {| hourlyDistribution :=
             bump Z.eqb (getHours tz date) (hourlyDistribution u);
           dailyDistribution :=
             bump Z.eqb (getDay tz date) (dailyDistribution u);
           participantEngagement := participantEngagement u |}
    | None => u
    end in
  match participant_number session with
  | Some participant =>
      if truthy_string (Some participant) then
        {| hourlyDistribution := hourlyDistribution u1;
           dailyDistribution := dailyDistribution u1;
           participantEngagement :=
             upsert String.eqb participant
               {| eng_sessions := 0;
                  eng_totalDuration := Fin 0;
                  lastActivity := None |}
               (fun e =>
                  {| eng_sessions := S (eng_sessions e);
                     eng_totalDuration :=
                       nadd (eng_totalDuration e)
                            (duration_or_0 (duration_minutes session));
                     lastActivity :=
                       match created_at session with
                       | Some activityDate =>
                           match lastActivity e with
                           | None => Some activityDate
                           | Some last =>
                               if (last <? activityDate)%Z
                               then Some activityDate else Some last
                           end
                       | None => lastActivity e
                       end |})
               (participantEngagement u1) |}
      else u1
  | None => u1
  end.

Definition usagePatterns_of (tz : Z) (currentAppUsage : list Session)
  : UsagePatterns :=
  fold_left (usage_step tz) currentAppUsage
    {| hourlyDistribution := [];
       dailyDistribution := [];
       participantEngagement := [] |}.

(* ================================================================== *)
(** * InsightEngine *)
(* ================================================================== *)

Inductive InsightType : Type := type_positive | type_warning | type_info.

Inductive Impact : Type := high | medium | low.

Record Insight : Type := {
  insight_type : InsightType;
  category : string;
  title : string;
  description : string;
  metric : num;
  impact : Impact
}.

(** The table [impactOrder]. *)
Definition impactOrder (i : Impact) : Z :=
  match i with
  | high => 3
  | medium => 2
  | low => 1
  end.

(** ['week'], ['month'], ['quarter'] or ['period'] *)
Definition periodLabel_of (dateRange : DateRange) : string :=
  match dateRange with
  | d7 => "week"
  | d30 => "month"
  | d90 => "quarter"
  | _ => "period"
  end.

Definition is_all (dateRange : DateRange) : bool :=
  match dateRange with all => true | _ => false end.

Section Insights.
(** [n.toFixed(1)] *)
Variable toFixed1 : num -> string.

Local Open Scope string_scope.

Definition raw_insights (sessionAnalytics : SessionAnalytics)
    (sessionTrend : Trend) (periodComparison : PeriodComparison)
    (correlations : option SessionsVsDuration)
    (currentAppUsage : list Session) (dateRange : DateRange)
  : list Insight :=
  let mean_ := sa_mean sessionAnalytics in
  let uniqueParticipants := participantCount currentAppUsage in
  let totalSessions := len currentAppUsage in
  let sessionsPerParticipant :=
    ndiv totalSessions (nmax2 (of_nat uniqueParticipants) (Fin 1)) in
  let sessions_change := comparison_change (pc_sessions periodComparison) in
  let duration_change := comparison_change (pc_duration periodComparison) in
  (if ngt mean_ (Fin 0) then
     if ngt mean_ (Fin 30) then
       [{| insight_type := type_positive;
           category := "engagement";
           title := "High Engagement Sessions";
           description :=
             "Average session duration of " ++ toFixed1 mean_
             ++ " minutes indicates strong user engagement.";
           metric := mean_;
           impact := high |}]
     else if nlt mean_ (Fin 10) then
       [{| insight_type := type_warning;
           category := "engagement";
           title := "Short Session Duration";
           description :=
             "Average session duration of " ++ toFixed1 mean_
             ++ " minutes may indicate user experience issues.";
           metric := mean_;
           impact := medium |}]
     else []
   else [])
  ++
  (match direction sessionTrend with
   | increasing =>
       [{| insight_type := type_positive;
           category := "growth";
           title := "Growing User Activity";
           description :=
             "Session activity is trending upward, indicating growing user adoption.";
           metric := slope sessionTrend;
           impact := high |}]
   | decreasing =>
       [{| insight_type := type_warning;
           category := "retention";
           title := "Declining Activity";
           description :=
             "Session activity is trending downward. Consider user retention strategies.";
           metric := slope sessionTrend;
           impact := high |}]
   | stable => []
   end)%list
  ++
  (if ngt (sa_standardDeviation sessionAnalytics)
          (nmul mean_ (Fin (8 / 10))) then
     [{| insight_type := type_info;
         category := "behavior";
         title := "High Usage Variability";
         description :=
           "Large variation in session durations suggests diverse user behaviors.";
         metric := sa_standardDeviation sessionAnalytics;
         impact := medium |}]
   else [])%list
  ++
  (if ngt sessionsPerParticipant (Fin 5) then
     [{| insight_type := type_positive;
         category := "retention";
         title := "Strong User Retention";
         description :=
           "Average of " ++ toFixed1 sessionsPerParticipant
           ++ " sessions per participant shows good retention.";
         metric := sessionsPerParticipant;
         impact := high |}]
   else [])%list
  ++
  (if negb (is_all dateRange)
      && ngt (previous (pc_sessions periodComparison)) (Fin 0) then
     let changePercent := nabs sessions_change in
     let changeDirection :=
       if ngt sessions_change (Fin 0) then "increased" else "decreased" in
     (if ngt changePercent (Fin 20) then
        [{| insight_type :=
              if ngt sessions_change (Fin 0) then type_positive
              else type_warning;
            category := "growth";
            title := "Sessions " ++ changeDirection ++ " by "
                     ++ toFixed1 changePercent ++ "%";
            description :=
              "Compared to previous " ++ periodLabel_of dateRange
              ++ ", session activity has " ++ changeDirection
              ++ " significantly.";
            metric := sessions_change;
            impact := high |}]
      else [])
     ++
     (if ngt (nabs duration_change) (Fin 15) then
        let durationDirection :=
          if ngt duration_change (Fin 0) then "increased" else "decreased" in
        [{| insight_type :=
              if ngt duration_change (Fin 0) then type_positive
              else type_warning;
            category := "engagement";
            title := "Session Duration " ++ durationDirection;
            description :=
              "Average session duration has " ++ durationDirection ++ " by "
              ++ toFixed1 (nabs duration_change)
              ++ "% compared to the previous period.";
            metric := duration_change;
            impact := medium |}]
      else [])%list
   else [])%list
  ++
  (match dateRange with
   | d30 =>
       let weeklyAverage := ndiv totalSessions (Fin (43 / 10)) in
       if ngt weeklyAverage (Fin 10) then
         [{| insight_type := type_positive;
             category := "activity";
             title := "High Monthly Activity";
             description :=
               "Averaging " ++ toFixed1 weeklyAverage
               ++ " sessions per week this month shows strong engagement.";
             metric := weeklyAverage;
             impact := high |}]
       else []
   | _ => []
   end)%list
  ++
  (match dateRange with
   | d90 =>
       let monthlyAverage := ndiv totalSessions (Fin 3) in
       let participantGrowth :=
         participants_change (pc_participants periodComparison) in
       (if ngt participantGrowth (Fin 10) then
          [{| insight_type := type_positive;
              category := "growth";
              title := "Participant Base Growing";
              description :=
                toFixed1 participantGrowth
                ++ "% increase in active participants over the quarter.";
              metric := participantGrowth;
              impact := high |}]
        else [])
       ++
       (if ngt monthlyAverage (Fin 30) then
          [{| insight_type := type_positive;
              category := "volume";
              title := "High Quarterly Volume";
              description :=
                "Averaging " ++ toFixed1 monthlyAverage
                ++ " sessions per month indicates sustained usage.";
              metric := monthlyAverage;
              impact := medium |}]
        else [])%list
   | _ => []
   end)%list
  ++
  (match correlations with
   | Some c =>
       match strength c with
       | strong =>
           let positive_direction := ngt (coefficient c) (Fin 0) in
           [{| insight_type := type_info;
               category := "correlation";
               title :=
                 (if positive_direction then "Positive" else "Negative")
                 ++ " Session-Duration Correlation";
               description :=
                 "Strong "
                 ++ (if positive_direction then "positive" else "negative")
                 ++ " correlation between number of sessions and duration.";
               metric := coefficient c;
               impact := medium |}]
       | _ => []
       end
   | None => []
   end)%list.

(** [insights.sort((a, b) => impactOrder[b.impact] - impactOrder[a.impact])] *)
Definition sort_insights (insights : list Insight) : list Insight :=
  js_sort
    (fun a b => (0 <? impactOrder (impact b) - impactOrder (impact a))%Z)
    insights.

Definition generateInsights (sessionAnalytics : SessionAnalytics)
    (sessionTrend : Trend) (periodComparison : PeriodComparison)
    (correlations : option SessionsVsDuration)
    (currentAppUsage : list Session) (dateRange : DateRange)
  : list Insight :=
  sort_insights
    (raw_insights sessionAnalytics sessionTrend periodComparison
                  correlations currentAppUsage dateRange).
End Insights.

(* ================================================================== *)
(** * The analytics snapshot *)
(* ================================================================== *)

Record DataQuality : Type := {
  sessionCompleteness : num;
  responseRate : num
}.

Record ComparisonMetrics : Type := {
  sessionChange : num;
  durationChange : num;
  participantChange : num;
  periodLabel : string
}.

Record Summary : Type := {
  totalSessions : nat;
  totalParticipants : nat;
  totalResponses : nat;
  totalDemographics : nat;
  averageSessionDuration : num;
  engagementTrend : Direction;
  periodRange : DateRange;
  dataQuality : DataQuality;
  comparisonMetrics : ComparisonMetrics
}.

Record Snapshot : Type := {
  sessionAnalytics : SessionAnalytics;
  timeSeries : list TimePoint;
  sessionTrend : Trend;
  periodComparison : PeriodComparison;
  demographics : list (string * list (string * nat));
  pretestAnalysis : PretestAnalysis;
  correlations : option SessionsVsDuration;
  usagePatterns : UsagePatterns;
  insights : list Insight;
  summary : Summary
}.

Section Hook.
Variable tz : Z.
Variable String_of_num : num -> string.
Variable toFixed1 : num -> string.

(** Everything the hook computes once the two previous-period arrays are
    known. *)
Definition snapshot_of (currentAppUsage previousAppUsage : list Session)
    (currentPretest : list Response)
    (currentDemographics : list Demographic) (dateRange : DateRange)
  : Snapshot :=
  let currentPeriodDays := periodDays dateRange in
  let sessionDurations_ := sessionDurations currentAppUsage in
  let previousSessionDurations := sessionDurations previousAppUsage in
  let sessionAnalytics_ :=
    sessionAnalytics_of sessionDurations_ previousSessionDurations in
  let grouping :=
    getTimeSeriesGrouping
      (match currentPeriodDays with DaysAll => 365 | DaysN n => n end)%Z in
  let timeSeriesData_ := timeSeriesData tz grouping currentAppUsage in
  let sessionTrend_ := calculateTrend timeSeriesData_ in
  let periodComparison_ :=
    periodComparison_of sessionAnalytics_ currentAppUsage previousAppUsage in
  let correlations_ := correlations_of currentAppUsage in
  {| sessionAnalytics := sessionAnalytics_;
     timeSeries := timeSeriesData_;
     sessionTrend := sessionTrend_;
     periodComparison := periodComparison_;
     demographics := demographicDistribution String_of_num currentDemographics;
     pretestAnalysis := pretestAnalysis_of currentPretest;
     correlations := correlations_;
     usagePatterns := usagePatterns_of tz currentAppUsage;
     insights :=
       generateInsights toFixed1 sessionAnalytics_ sessionTrend_
         periodComparison_ correlations_ currentAppUsage dateRange;
     summary :=
       {| totalSessions := length currentAppUsage;
          totalParticipants := participantCount currentAppUsage;
          totalResponses := length currentPretest;
          totalDemographics := length currentDemographics;
          averageSessionDuration := sa_mean sessionAnalytics_;
          engagementTrend := direction sessionTrend_;
          periodRange := dateRange;
          dataQuality :=
            {| sessionCompleteness :=
                 ndiv (len sessionDurations_)
                      (nmax2 (len currentAppUsage) (Fin 1));
               responseRate :=
                 ndiv (len currentPretest)
                      (nmax2 (of_nat (participantCount currentAppUsage))
                             (Fin 1)) |};
          comparisonMetrics :=
            {| sessionChange :=
                 comparison_change (pc_sessions periodComparison_);
               durationChange :=
                 comparison_change (pc_duration periodComparison_);
               participantChange :=
                 participants_change (pc_participants periodComparison_);
               periodLabel := periodLabel_of dateRange |} |} |}.

(** The body of the hook.  An array argument that is [null] or
    [undefined] is [None] and counts as empty.  The clock is read once
    for the previous sessions and once for the previous responses, unless
    the range is ['all']. *)
Definition useAdvancedAnalytics (appUsageData : option (list Session))
    (pretestData : option (list Response))
    (demographicsData : option (list Demographic)) (dateRange : DateRange)
  : Clock Snapshot :=
  let currentAppUsage := or_empty appUsageData in
  let currentPretest := or_empty pretestData in
  let currentDemographics := or_empty demographicsData in
  let currentPeriodDays := periodDays dateRange in
  previousAppUsage <-
    getPreviousPeriodData created_at currentAppUsage currentPeriodDays ;;
  previousPretest <-
    getPreviousPeriodData response_created_at currentPretest
                          currentPeriodDays ;;
  ret (snapshot_of currentAppUsage previousAppUsage currentPretest
                   currentDemographics dateRange).
End Hook.

(* ================================================================== *)
(** * CohortRetentionAnalyzer ([cohortData] of [StatisticalCharts]) *)
(* ================================================================== *)

(** [new Date(session.created_at)]: [new Date(null)] is the epoch. *)
Definition new_Date_of (created : option Z) : Z :=
  match created with Some t => t | None => 0%Z end.

Section Cohorts.
Variable tz : Z.

(** The earliest session of each participant. *)
Definition participantFirstSession (appUsageData : list Session)
  : list (string * Z) :=
  fold_left
    (fun acc session =>
       match participant_number session, created_at session with
       | Some p, Some sessionDate =>
           if truthy_string (Some p) then
             upsert String.eqb p sessionDate
               (fun first =>
                  if (sessionDate <? first)%Z then sessionDate else first)
               acc
           else acc
       | _, _ => acc
       end)
    appUsageData [].

Definition cohortKey_of (firstDate : Z) : string :=
  let weekStart :=
    setDate tz firstDate (getDate tz firstDate - getDay tz firstDate) in
  iso_date weekStart.

(** The cohorts: for each week key the participants who started then. *)
Definition cohorts_of (appUsageData : list Session)
  : list (string * list string) :=
  fold_left
    (fun acc '(participant, firstDate) =>
       upsert String.eqb (cohortKey_of firstDate) []
              (fun ps => ps ++ [participant]) acc)
    (participantFirstSession appUsageData) [].

(** [array.slice(0, 8)] *)
Definition slice_0_8 {A : Type} (l : list A) : list A := firstn 8 l.

(** [Object.keys(cohorts).sort().slice(0, 8)], commented
    [// Last 8 weeks] in the source. *)
Definition cohortLabels (appUsageData : list Session) : list string :=
  slice_0_8
    (js_sort (fun a b => String.ltb b a)
             (map fst (cohorts_of appUsageData))).

(** Whether the participant has a session in the 7 days from [weekDate]. *)
Definition active_in_week (appUsageData : list Session)
    (weekDate : Z) (participant : string) : bool :=
  existsb
    (fun session =>
       match participant_number session with
       | Some p => String.eqb p participant
       | None => false
       end
       && (weekDate <=? new_Date_of (created_at session))%Z
       && (new_Date_of (created_at session)
             <? weekDate + 7 * 24 * 60 * 60 * 1000)%Z)
    appUsageData.

Definition retention_week (appUsageData : list Session)
    (cohortParticipants : list string) (cohortStartDate : Z) (week : Z)
  : num :=
  let weekDate :=
    setDate tz cohortStartDate (getDate tz cohortStartDate + week * 7) in
  let activeCount :=
    length (filter (active_in_week appUsageData weekDate)
                   cohortParticipants) in
  nmul (ndiv (of_nat activeCount) (len cohortParticipants)) (Fin 100).

(** The retention curve of one cohort, weeks 0 to 4. *)
Definition retention_of (appUsageData : list Session) (cohortKey : string)
  : list num :=
  let cohortParticipants :=
    or_empty (lookup String.eqb cohortKey (cohorts_of appUsageData)) in
  let cohortStartDate := parse_iso_date cohortKey in
  Fin 100
  :: map (retention_week appUsageData cohortParticipants cohortStartDate)
         [1; 2; 3; 4]%Z.

(** The chart data: for each cohort label its curve; [None] below 20
    sessions. *)
Definition cohortData (appUsageData : option (list Session))
  : option (list (string * list num)) :=
  match appUsageData with
  | None => None
  | Some appUsageData =>
      if (length appUsageData <? 20)%nat then None
      else
        Some (map (fun cohortKey =>
                     (cohortKey, retention_of appUsageData cohortKey))
                  (cohortLabels appUsageData))
  end.
End Cohorts.

(* ================================================================== *)
(** * The duration histogram ([histogramData] of [StatisticalCharts]) *)
(* ================================================================== *)

(** The result of a function that may throw a [TypeError]. *)
Inductive Outcome (A : Type) : Type :=
| Returned (a : A)
| Thrown.

Arguments Returned {A} a.
Arguments Thrown {A}.

(** [x <= y]; false when either is [NaN]. *)
Definition nle (x y : num) : bool :=
  match x, y with
  | Fin a, Fin b => if Rle_dec a b then true else false
  | NaN, _ | _, NaN => false
  | NInf, _ | _, PInf => true
  | _, _ => false
  end.

(** [Math.round] *)
Definition nround (x : num) : num :=
  match x with
  | Fin r => Fin (IZR (Zfloor (r + 1 / 2)))
  | _ => x
  end.

(** The length [Array.from({ length: x })] gives the array, for a number
    between 0 and 15. *)
Definition to_length (x : num) : nat :=
  match x with
  | Fin r => Z.to_nat (Zfloor r)
  | _ => 0
  end.

Record Bin : Type := {
  bin_start : num;
  bin_end : num;
  bin_count : nat;
  bin_label : string
}.

(** [bins[k].count++]: a [TypeError] when [bins[k]] is [undefined], that
    is when [k] is not an index of the array. *)
Definition increment_bin (bins : list Bin) (k : num) : Outcome (list Bin) :=
  match k with
  | Fin r =>
      if Req_dec_T r (IZR (Zfloor r)) then
        if Z_lt_dec (Zfloor r) 0 then Thrown
        else
          let i := Z.to_nat (Zfloor r) in
          match nth_error bins i with
          | Some b =>
              Returned
                (firstn i bins
                 ++ {| bin_start := bin_start b;
                       bin_end := bin_end b;
                       bin_count := S (bin_count b);
                       bin_label := bin_label b |}
                 :: skipn (S i) bins)
          | None => Thrown
          end
      else Thrown
  | _ => Thrown
  end.

Section Histogram.
Variable String_of_num : num -> string.

Definition make_bins (min binSize : num) (binCount : nat) : list Bin :=
  map (fun i =>
         let start := nadd min (nmul (of_nat i) binSize) in
         let end_ := nadd min (nmul (nadd (of_nat i) (Fin 1)) binSize) in
         {| bin_start := start;
            bin_end := end_;
            bin_count := 0;
            bin_label :=
              (String_of_num (nround start) ++ "-"
               ++ String_of_num (nround end_))%string |})
      (seq 0 binCount).

(** The loop that fills the bins; it stops at the first [TypeError]. *)
Definition fill_bins (min binSize binCount : num) (durations : list num)
    (bins : list Bin) : Outcome (list Bin) :=
  fold_left
    (fun acc duration =>
       match acc with
       | Thrown => Thrown
       | Returned bins =>
           let binIndex :=
             nmin2 (nfloor (ndiv (nsub duration min) binSize))
                   (nsub binCount (Fin 1)) in
           increment_bin bins binIndex
       end)
    durations (Returned bins).

(** The bins of the chart: [None] stands for [null]. *)
Definition histogramData (appUsageData : option (list Session))
  : Outcome (option (list Bin)) :=
  match appUsageData with
  | None => Returned None
  | Some appUsageData =>
      let durations := sessionDurations appUsageData in
      match durations with
      | [] => Returned None
      | _ =>
          let min := Math_min durations in
          let max := Math_max durations in
          let binCount :=
            nmin2 (Fin 15) (nceil (nsqrt (len durations))) in
          let binSize := ndiv (nsub max min) binCount in
          match fill_bins min binSize binCount durations
                          (make_bins min binSize (to_length binCount)) with
          | Thrown => Thrown
          | Returned bins => Returned (Some bins)
          end
      end
  end.
End Histogram.

(* ================================================================== *)
(** * The box plot and the scatter plot of [StatisticalCharts] *)
(* ================================================================== *)

(** [boxPlotData]: the five bars with their labels, [None] for [null]. *)
Definition boxPlotData (analytics : Snapshot) : option (list (string * num)) :=
  let stats := sessionAnalytics analytics in
  if (sa_count stats =? 0)%nat then None
  else
    Some [("Min"%string, sa_min stats);
          ("25th Percentile"%string, p25 (percentiles stats));
          ("Median"%string, sa_median stats);
          ("75th Percentile"%string, p75 (percentiles stats));
          ("Max"%string, sa_max stats)].

(** The per-participant record of [correlationData]. *)
Record ChartStats : Type := {
  cs_sessionCount : nat;
  cs_totalDuration : num;
  cs_avgDuration : num;
  cs_sessions : list Session
}.

Record ScatterPoint : Type := { point_x : num; point_y : num }.

Definition chart_step (acc : list (string * ChartStats)) (session : Session)
  : list (string * ChartStats) :=
  match participant_number session, duration_minutes session with
  | Some p, Some d =>
      if truthy_string (Some p) then
        upsert String.eqb p
          {| cs_sessionCount := 0; cs_totalDuration := Fin 0;
             cs_avgDuration := Fin 0; cs_sessions := [] |}
          (fun c =>
             {| cs_sessionCount := S (cs_sessionCount c);
                cs_totalDuration := nadd (cs_totalDuration c) d;
                cs_avgDuration := cs_avgDuration c;
                cs_sessions := cs_sessions c ++ [session] |})
          acc
      else acc
  | _, _ => acc
  end.

(** [correlationData]: the points of the scatter plot, [None] below 10
    sessions. *)
Definition correlationData (appUsageData : option (list Session))
  : option (list ScatterPoint) :=
  match appUsageData with
  | None => None
  | Some appUsageData =>
      if (length appUsageData <? 10)%nat then None
      else
        let participantData := fold_left chart_step appUsageData [] in
        let averaged :=
          map (fun '(participant, data) =>
                 (participant,
                  {| cs_sessionCount := cs_sessionCount data;
                     cs_totalDuration := cs_totalDuration data;
                     cs_avgDuration :=
                       ndiv (cs_totalDuration data)
                            (of_nat (cs_sessionCount data));
                     cs_sessions := cs_sessions data |}))
              participantData in
        Some (map (fun '(_, data) =>
                     {| point_x := of_nat (cs_sessionCount data);
                        point_y := cs_avgDuration data |})
                  (own_property_order averaged))
  end.

(* ================================================================== *)
(** * The charts of [AnalyticsDashboard] *)
(* ================================================================== *)

Local Open Scope nat_scope.

(** The data of [sessionDurationChart]: the sessions of the five duration
    ranges, counted over the sessions the dashboard passes on. *)
Definition sessionDurationChart (appUsage : list Session) : list nat :=
  let d := fun s => duration_or_0 (duration_minutes s) in
  [length (filter (fun s => nle (d s) (Fin 5)) appUsage);
   length (filter (fun s => ngt (d s) (Fin 5) && nle (d s) (Fin 15))
                  appUsage);
   length (filter (fun s => ngt (d s) (Fin 15) && nle (d s) (Fin 30))
                  appUsage);
   length (filter (fun s => ngt (d s) (Fin 30) && nle (d s) (Fin 60))
                  appUsage);
   length (filter (fun s => ngt (d s) (Fin 60)) appUsage)].

(** [x || 0] for a count that may be absent. *)
Definition count_or_0 (x : option nat) : nat :=
  match x with
  | Some n => if n =? 0 then 0 else n
  | None => 0
  end.

(** [Array.from({ length: 24 }, (_, hour) => ...)]: the sessions of the
    hours 0 to 23. *)
Definition hourlyPattern (analytics : Snapshot) : list nat :=
  map (fun hour =>
         count_or_0 (lookup Z.eqb (Z.of_nat hour)
                       (hourlyDistribution (usagePatterns analytics))))
      (seq 0 24).

Local Close Scope nat_scope.

(* ================================================================== *)
(** * The filters of [AnalyticsDashboard] *)
(* ================================================================== *)

(** A row of the usage table as the dashboard reads it: the fields the
    hook reads, and those only the filters read. *)
Record UsageRow : Type := {
  row_session : Session;
  session_duration : option num;
  device_type : option string;
  session_type : option string
}.

(** A demographic record and the timestamp its [created_at] entry parses
    to. *)
Record DemographicRow : Type := {
  demographic_created_at : option Z;
  demographic_fields : Demographic
}.

Record NumberRange : Type := {
  range_min : option num;
  range_max : option num
}.

Record CustomDateRange : Type := {
  range_start : option string;
  range_end : option string
}.

Record Filters : Type := {
  sessionDuration : NumberRange;
  ageRange : NumberRange;
  gender : list string;
  deviceType : list string;
  sessionType : list string;
  engagement : string;
  customDateRange : CustomDateRange
}.

Record FilteredData : Type := {
  fd_appUsage : list UsageRow;
  fd_pretest : list Response;
  fd_demographics : list DemographicRow
}.

(** [item[name]]: [None] is [undefined]. *)
Definition item_field (fields : list (string * jsval)) (name : string)
  : option jsval :=
  lookup String.eqb name fields.

Definition truthy_value (v : option jsval) : bool :=
  match v with
  | Some (JBool b) => b
  | Some (JNum n) => truthy n
  | Some (JStr s) => negb (String.eqb s "")
  | Some JNull | None => false
  end.

(** [v === s] for a string [s]. *)
Definition is_string (v : option jsval) (s : string) : bool :=
  match v with
  | Some (JStr s') => String.eqb s' s
  | _ => false
  end.

(** [list.includes(v)] for a list of strings. *)
Definition includes_value (list : list string) (v : option jsval) : bool :=
  existsb (is_string v) list.

Definition includes_string (list : list string) (v : option string) : bool :=
  match v with
  | Some s => existsb (String.eqb s) list
  | None => false
  end.

(** [new Set(rows.map(item => item.participant_number).filter(Boolean))] *)
Definition eligibleParticipants (rows : list Response) : list jsval :=
  flat_map (fun v => match v with Some v => [v] | None => [] end)
    (filter truthy_value
       (map (fun item =>
               item_field (response_fields item) "participant_number")
            rows)).

(** [set.has(p)] for the participant number of a usage row. *)
Definition has (set : list jsval) (p : option string) : bool :=
  match p with
  | Some s => existsb (fun v => is_string (Some v) s) set
  | None => false
  end.

(** [x >= y] *)
Definition nge (x y : num) : bool := nle y x.

(** [(min === null || x >= min) && (max === null || x <= max)] *)
Definition in_range (range : NumberRange) (x : num) : bool :=
  match range_min range with None => true | Some m => nge x m end
  && match range_max range with None => true | Some m => nle x m end.

(** [range.min !== null || range.max !== null] *)
Definition range_set (range : NumberRange) : bool :=
  match range_min range, range_max range with
  | None, None => false
  | _, _ => true
  end.

(** [s.split(':')] *)
Fixpoint split_colon (s : string) : list string :=
  match s with
  | EmptyString => [EmptyString]
  | String c rest =>
      if Ascii.eqb c ":" then EmptyString :: split_colon rest
      else
        match split_colon rest with
        | first :: others => String c first :: others
        | [] => [String c EmptyString]
        end
  end.

(** The rows created at [cutoffDate] or later. *)
Definition since {A : Type} (created : A -> option Z) (cutoffDate : Z)
    (rows : list A) : list A :=
  filter (fun item =>
            match created item with
            | Some itemDate => (cutoffDate <=? itemDate)%Z
            | None => false
            end)
         rows.

(** The rows between [startDate] and [endDate], each bound optional. *)
Definition between {A : Type} (created : A -> option Z)
    (startDate endDate : option Z) (rows : list A) : list A :=
  filter (fun item =>
            match created item with
            | None => false
            | Some itemDate =>
                match startDate with
                | None => true
                | Some s => (s <=? itemDate)%Z
                end
                && match endDate with
                   | None => true
                   | Some e => (itemDate <=? e)%Z
                   end
            end)
         rows.

Definition row_created (item : UsageRow) : option Z :=
  created_at (row_session item).

Definition row_participant (item : UsageRow) : option string :=
  participant_number (row_session item).

Section Dashboard.
Variable tz : Z.
(** [String(n)] for a number and [Number(s)] for a string. *)
Variable String_of_num : num -> string.
Variable Number_of_string : string -> num.

(** [String(v)] for a property that may be absent. *)
Definition String_of_value (v : option jsval) : string :=
  match v with
  | Some v => String_of String_of_num v
  | None => "undefined"
  end.

(** The number a value is compared as. *)
Definition to_number (v : jsval) : num :=
  match v with
  | JNull => Fin 0
  | JBool true => Fin 1
  | JBool false => Fin 0
  | JNum n => n
  | JStr s => Number_of_string s
  end.

(** [item.age || 0] as a number. *)
Definition age_or_0 (item : Response) : num :=
  match item_field (response_fields item) "age" with
  | Some v => if truthy_value (Some v) then to_number v else Fin 0
  | None => Fin 0
  end.

(** The [switch] on the range; [new Date(y, m, d)] is local midnight. *)
Definition cutoffDate (dateRange : DateRange) (now : Z) : option Z :=
  match dateRange with
  | today =>
      Some (local_midnight tz
              (days_from_civil (getFullYear tz now) (getMonth tz now + 1)
                               (getDate tz now)))
  | d7 => Some (now - 7 * 24 * 60 * 60 * 1000)%Z
  | d30 => Some (now - 30 * 24 * 60 * 60 * 1000)%Z
  | d90 => Some (now - 90 * 24 * 60 * 60 * 1000)%Z
  | all => None
  end.

(** Date filtering. *)
Definition dateFiltering (dateRange : DateRange) (data : FilteredData)
  : Clock FilteredData :=
  match dateRange with
  | all => ret data
  | _ =>
      now <- new_Date ;;
      match cutoffDate dateRange now with
      | Some cutoffDate =>
          ret {| fd_appUsage := since row_created cutoffDate (fd_appUsage data);
                 fd_pretest :=
                   since response_created_at cutoffDate (fd_pretest data);
                 fd_demographics :=
                   since demographic_created_at cutoffDate
                         (fd_demographics data) |}
      | None => ret data
      end
  end.

(** The usage rows of the participants of the given pretest rows. *)
Definition of_participants (rows : list Response) (usage : list UsageRow)
  : list UsageRow :=
  filter (fun item => has (eligibleParticipants rows) (row_participant item))
         usage.

(** Demographic filtering. *)
Definition demographicFiltering (demographicFilter : string)
    (data : FilteredData) : FilteredData :=
  if negb (String.eqb demographicFilter "all")
     && (0 <? length (fd_pretest data))%nat
  then
    match split_colon demographicFilter with
    | field :: value :: _ =>
        if truthy_string (Some field) && truthy_string (Some value) then
          {| fd_appUsage :=
               of_participants
                 (filter (fun item =>
                            String.eqb
                              (String_of_value
                                 (item_field (response_fields item) field))
                              value)
                         (fd_pretest data))
                 (fd_appUsage data);
             fd_pretest := fd_pretest data;
             fd_demographics := fd_demographics data |}
        else data
    | _ => data
    end
  else data.

(** Participant filtering. *)
Definition participantFiltering (participantFilter : string)
    (data : FilteredData) : FilteredData :=
  if negb (String.eqb participantFilter "all") then
    {| fd_appUsage :=
         filter (fun item =>
                   match row_participant item with
                   | Some p => String.eqb p participantFilter
                   | None => false
                   end)
                (fd_appUsage data);
       fd_pretest :=
         filter (fun item =>
                   is_string (item_field (response_fields item)
                                         "participant_number")
                             participantFilter)
                (fd_pretest data);
       fd_demographics :=
         filter (fun item =>
                   is_string (item_field (demographic_fields item)
                                         "participant_number")
                             participantFilter)
                (fd_demographics data) |}
  else data.

(** Custom date range filtering. *)
Definition customDateRangeFiltering (filters : Filters)
    (data : FilteredData) : FilteredData :=
  let range := customDateRange filters in
  if truthy_string (range_start range) || truthy_string (range_end range)
  then
    let startDate :=
      match range_start range with
      | Some s => if truthy_string (Some s) then Some (parse_iso_date s)
                  else None
      | None => None
      end in
    let endDate :=
      match range_end range with
      | Some s => if truthy_string (Some s) then Some (parse_iso_date s)
                  else None
      | None => None
      end in
    {| fd_appUsage := between row_created startDate endDate (fd_appUsage data);
       fd_pretest :=
         between response_created_at startDate endDate (fd_pretest data);
       fd_demographics := fd_demographics data |}
  else data.

(** Session duration filtering. *)
Definition sessionDurationFiltering (filters : Filters)
    (data : FilteredData) : FilteredData :=
  if range_set (sessionDuration filters) then
    {| fd_appUsage :=
         filter (fun item =>
                   in_range (sessionDuration filters)
                            (duration_or_0 (session_duration item)))
                (fd_appUsage data);
       fd_pretest := fd_pretest data;
       fd_demographics := fd_demographics data |}
  else data.

(** Age range filtering. *)
Definition ageRangeFiltering (filters : Filters) (data : FilteredData)
  : FilteredData :=
  if range_set (ageRange filters) then
    {| fd_appUsage :=
         of_participants
           (filter (fun item => in_range (ageRange filters) (age_or_0 item))
                   (fd_pretest data))
           (fd_appUsage data);
       fd_pretest := fd_pretest data;
       fd_demographics := fd_demographics data |}
  else data.

(** Gender filtering. *)
Definition genderFiltering (filters : Filters) (data : FilteredData)
  : FilteredData :=
  if (0 <? length (gender filters))%nat then
    {| fd_appUsage :=
         of_participants
           (filter (fun item =>
                      includes_value (gender filters)
                        (item_field (response_fields item) "gender"))
                   (fd_pretest data))
           (fd_appUsage data);
       fd_pretest := fd_pretest data;
       fd_demographics := fd_demographics data |}
  else data.

(** Device type filtering. *)
Definition deviceTypeFiltering (filters : Filters) (data : FilteredData)
  : FilteredData :=
  if (0 <? length (deviceType filters))%nat then
    {| fd_appUsage :=
         filter (fun item =>
                   includes_string (deviceType filters) (device_type item))
                (fd_appUsage data);
       fd_pretest := fd_pretest data;
       fd_demographics := fd_demographics data |}
  else data.

(** Session type filtering. *)
Definition sessionTypeFiltering (filters : Filters) (data : FilteredData)
  : FilteredData :=
  if (0 <? length (sessionType filters))%nat then
    {| fd_appUsage :=
         filter (fun item =>
                   includes_string (sessionType filters) (session_type item))
                (fd_appUsage data);
       fd_pretest := fd_pretest data;
       fd_demographics := fd_demographics data |}
  else data.

(** Engagement level filtering. *)
Definition engagementFiltering (filters : Filters) (data : FilteredData)
  : FilteredData :=
  if negb (String.eqb (engagement filters) "all") then
    {| fd_appUsage :=
         filter (fun item =>
                   let duration := duration_or_0 (session_duration item) in
                   if String.eqb (engagement filters) "high"
                   then nge duration (Fin 30)
                   else if String.eqb (engagement filters) "medium"
                   then nge duration (Fin 10) && nlt duration (Fin 30)
                   else if String.eqb (engagement filters) "low"
                   then nlt duration (Fin 10)
                   else true)
                (fd_appUsage data);
       fd_pretest := fd_pretest data;
       fd_demographics := fd_demographics data |}
  else data.

(** The memo [filteredData]: the three arrays after all filters, in the
    order of the source. *)
Definition filteredData (appUsageData : option (list UsageRow))
    (pretestData : option (list Response))
    (demographicsData : option (list DemographicRow))
    (dateRange : DateRange) (demographicFilter participantFilter : string)
    (filters : Filters) : Clock FilteredData :=
  dated <-
    dateFiltering dateRange
      {| fd_appUsage := or_empty appUsageData;
         fd_pretest := or_empty pretestData;
         fd_demographics := or_empty demographicsData |} ;;
  ret (engagementFiltering filters
         (sessionTypeFiltering filters
            (deviceTypeFiltering filters
               (genderFiltering filters
                  (ageRangeFiltering filters
                     (sessionDurationFiltering filters
                        (customDateRangeFiltering filters
                           (participantFiltering participantFilter
                              (demographicFiltering demographicFilter
                                 dated))))))))).

(** The dashboard: the hook on the filtered arrays, under the same range
    label. *)
Definition dashboard_analytics (toFixed1 : num -> string)
    (appUsageData : option (list UsageRow))
    (pretestData : option (list Response))
    (demographicsData : option (list DemographicRow))
    (dateRange : DateRange) (demographicFilter participantFilter : string)
    (filters : Filters) : Clock Snapshot :=
  filtered <-
    filteredData appUsageData pretestData demographicsData dateRange
                 demographicFilter participantFilter filters ;;
  useAdvancedAnalytics tz String_of_num toFixed1
    (Some (map row_session (fd_appUsage filtered)))
    (Some (fd_pretest filtered))
    (Some (map demographic_fields (fd_demographics filtered)))
    dateRange.
End Dashboard.


(* ================================================================== *)
(** * Properties: numbers and sums *)
(* ================================================================== *)

(** Sum of a list of reals. *)
Definition Rsum (rs : list R) : R := fold_right Rplus 0 rs.

(** Mean of a list of reals, 0 for the empty list. *)
Definition Rmean (rs : list R) : R :=
  match rs with
  | [] => 0
  | _ => Rsum rs / INR (length rs)
  end.

(** Sum of the squared deviations from [m]. *)
Definition Rsq_dev (m : R) (rs : list R) : R :=
  Rsum (map (fun r => (r - m) * (r - m)) rs).

(** Sum of the products of the deviations of paired elements. *)
Definition Rcross (mx my : R) (xs ys : list R) : R :=
  Rsum (map (fun p => (fst p - mx) * (snd p - my)) (combine xs ys)).

Ltac case_dec :=
  match goal with
  | |- context [Rlt_dec ?a ?b] => destruct (Rlt_dec a b)
  | |- context [Req_dec_T ?a ?b] => destruct (Req_dec_T a b)
  | H : context [Rlt_dec ?a ?b] |- _ => destruct (Rlt_dec a b)
  | H : context [Req_dec_T ?a ?b] |- _ => destruct (Req_dec_T a b)
  end.

Lemma finite_inv (x : num) : is_finite x -> exists r, x = Fin r.
Proof. destruct x; simpl; intros H; try contradiction; eauto. Qed.

Lemma finite_list_inv (l : list num) :
  Forall is_finite l -> exists rs, l = map Fin rs.
Proof.
  induction 1 as [|x l Hx _ [rs ->]].
  - exists []; reflexivity.
  - destruct (finite_inv x Hx) as [r ->]. exists (r :: rs); reflexivity.
Qed.

Lemma Forall_finite_map_Fin (rs : list R) : Forall is_finite (map Fin rs).
Proof. induction rs; simpl; constructor; simpl; auto. Qed.

(** Where the exact arithmetic of [num] and the arithmetic of doubles
    agree.  A number of moderate magnitude is 0 or lies between 2^-100
    and 2^100 in absolute value: sums, products and quotients of such
    numbers stay far from the range limits of binary64.  A whole number
    of magnitude at most 2^20 is a double, and so is every sum of fewer
    than 2^32 of them. *)
Definition moderate_number (v : num) : Prop :=
  exists r, v = Fin r
            /\ (r = 0 \/ / 2 ^ 100 <= Rabs r) /\ Rabs r <= 2 ^ 100.

Definition whole_number (v : num) : Prop :=
  exists z : Z, v = Fin (IZR z) /\ (Z.abs z <= 2 ^ 20)%Z.

Lemma moderate_finite (v : num) : moderate_number v -> is_finite v.
Proof. intros [r [-> _]]. exact I. Qed.

Lemma whole_finite (v : num) : whole_number v -> is_finite v.
Proof. intros [z [-> _]]. exact I. Qed.

Lemma Forall_moderate_finite (l : list num) :
  Forall moderate_number l -> Forall is_finite l.
Proof. apply Forall_impl, moderate_finite. Qed.

Lemma Forall_whole_finite (l : list num) :
  Forall whole_number l -> Forall is_finite l.
Proof. apply Forall_impl, whole_finite. Qed.

Lemma ndiv_Fin (a b : R) : b <> 0 -> ndiv (Fin a) (Fin b) = Fin (a / b).
Proof. intros Hb; simpl. case_dec; [contradiction | reflexivity]. Qed.

Lemma ngt_Fin (a b : R) : ngt (Fin a) (Fin b) = true <-> b < a.
Proof. unfold ngt; simpl. case_dec; split; intros; try lra; try discriminate; auto. Qed.

Lemma nlt_Fin (a b : R) : nlt (Fin a) (Fin b) = true <-> a < b.
Proof. simpl. case_dec; split; intros; try lra; try discriminate; auto. Qed.

Lemma ngt_Fin_false (a b : R) : ngt (Fin a) (Fin b) = false <-> a <= b.
Proof. unfold ngt; simpl. case_dec; split; intros; try lra; try discriminate; auto. Qed.

Lemma Rsum_app (l1 l2 : list R) : Rsum (l1 ++ l2) = Rsum l1 + Rsum l2.
Proof. induction l1; simpl; lra. Qed.

Lemma Rsum_nonneg (rs : list R) : Forall (fun r => 0 <= r) rs -> 0 <= Rsum rs.
Proof. induction 1; simpl; lra. Qed.

Lemma Rsum_pos (rs : list R) :
  rs <> [] -> Forall (fun r => 0 < r) rs -> 0 < Rsum rs.
Proof.
  intros Hne H. destruct H as [|r rs Hr Hrs]; [congruence|].
  simpl. assert (0 <= Rsum rs).
  { apply Rsum_nonneg. eapply Forall_impl; [|exact Hrs]. simpl; intros; lra. }
  lra.
Qed.

(** A [reduce] that adds a finite term per element computes a finite sum. *)
Lemma fold_nadd_Fin {A : Type} (g : A -> num) (g' : A -> R) (l : list A) :
  (forall x, In x l -> g x = Fin (g' x)) ->
  forall a,
    fold_left (fun acc x => nadd acc (g x)) l (Fin a)
    = Fin (a + Rsum (map g' l)).
Proof.
  induction l as [|x l IH]; intros Hg a; simpl.
  - f_equal; lra.
  - rewrite (Hg x (or_introl eq_refl)). simpl.
    rewrite IH by (intros; apply Hg; right; assumption).
    f_equal; lra.
Qed.

Lemma fold_left_nadd_Fin (rs : list R) (a : R) :
  fold_left nadd (map Fin rs) (Fin a) = Fin (a + Rsum rs).
Proof.
  revert a. induction rs as [|r rs IH]; intros a; simpl.
  - f_equal; lra.
  - rewrite IH. f_equal; lra.
Qed.

Lemma sum_Fin (rs : list R) : sum (map Fin rs) = Fin (Rsum rs).
Proof. unfold sum. rewrite fold_left_nadd_Fin. f_equal; lra. Qed.

Lemma INR_length_nonzero {A : Type} (l : list A) : l <> [] -> INR (length l) <> 0.
Proof.
  destruct l; [congruence|]. intros _. apply not_0_INR. simpl; lia.
Qed.

Lemma mean_Fin (rs : list R) : mean (map Fin rs) = Fin (Rmean rs).
Proof.
  destruct rs as [|r rs]; [reflexivity|].
  unfold mean, Rmean, len, of_nat.
  change (map Fin (r :: rs)) with (Fin r :: map Fin rs) at 1.
  cbv iota. rewrite sum_Fin, length_map.
  apply ndiv_Fin. apply INR_length_nonzero; discriminate.
Qed.

Lemma mean_finite (l : list num) : Forall is_finite l -> is_finite (mean l).
Proof.
  intros H. destruct (finite_list_inv l H) as [rs ->].
  rewrite mean_Fin. exact I.
Qed.

(* ================================================================== *)
(** * Properties: correlation *)
(* ================================================================== *)

(** Pearson's coefficient on reals, with the fallback 0 of the source. *)
Definition Rcorrelation (xs ys : list R) : R :=
  let mx := Rmean xs in
  let my := Rmean ys in
  let d := sqrt (Rsq_dev mx xs * Rsq_dev my ys) in
  if Req_dec_T d 0 then 0 else Rcross mx my xs ys / d.

(** All the elements are equal. *)
Definition constant (x : list num) : Prop :=
  forall a b, In a x -> In b x -> a = b.

Lemma Rsq_dev_nonneg (m : R) (rs : list R) : 0 <= Rsq_dev m rs.
Proof.
  unfold Rsq_dev. apply Rsum_nonneg. apply Forall_forall.
  intros r Hr. apply in_map_iff in Hr as [x [<- _]].
  apply Rle_0_sqr.
Qed.

Lemma Rsq_dev_zero_inv (m : R) (rs : list R) :
  Rsq_dev m rs = 0 -> forall r, In r rs -> r = m.
Proof.
  unfold Rsq_dev. induction rs as [|x rs IH]; simpl; intros H r Hr.
  - contradiction.
  - pose proof (Rle_0_sqr (x - m)) as Hx. unfold Rsqr in Hx.
    pose proof (Rsq_dev_nonneg m rs) as Hrs. unfold Rsq_dev in Hrs.
    destruct Hr as [<- | Hr].
    + assert (Hz : (x - m) * (x - m) = 0) by lra.
      apply Rmult_integral in Hz. lra.
    + apply IH; [lra | assumption].
Qed.

Lemma Rsq_dev_all_equal (m : R) (rs : list R) :
  (forall r, In r rs -> r = m) -> Rsq_dev m rs = 0.
Proof.
  unfold Rsq_dev. induction rs as [|x rs IH]; simpl; intros H.
  - reflexivity.
  - rewrite IH by (intros; apply H; right; assumption).
    rewrite (H x (or_introl eq_refl)). lra.
Qed.

Lemma Rsum_all_equal (c : R) (rs : list R) :
  (forall r, In r rs -> r = c) -> Rsum rs = INR (length rs) * c.
Proof.
  induction rs as [|x rs IH]; intros H.
  - simpl; lra.
  - change (Rsum (x :: rs)) with (x + Rsum rs).
    change (length (x :: rs)) with (S (length rs)). rewrite S_INR.
    rewrite IH by (intros; apply H; right; assumption).
    rewrite (H x (or_introl eq_refl)). lra.
Qed.

Lemma Rmean_all_equal (c : R) (rs : list R) :
  rs <> [] -> (forall r, In r rs -> r = c) -> Rmean rs = c.
Proof.
  intros Hne H. unfold Rmean. destruct rs as [|x rs]; [congruence|].
  rewrite (Rsum_all_equal c) by assumption.
  field. apply INR_length_nonzero; discriminate.
Qed.

Lemma Rcross_diag (m : R) (rs : list R) : Rcross m m rs rs = Rsq_dev m rs.
Proof.
  unfold Rcross, Rsq_dev. induction rs as [|x rs IH]; simpl.
  - reflexivity.
  - simpl in IH. rewrite IH. reflexivity.
Qed.

Lemma skipn_cons_nth {A : Type} (d : A) (l : list A) (k : nat) :
  (k < length l)%nat -> skipn k l = nth k l d :: skipn (S k) l.
Proof.
  revert k. induction l as [|x l IH]; intros k Hk; simpl in Hk.
  - lia.
  - destruct k as [|k]; [reflexivity|].
    simpl. apply IH. lia.
Qed.

Lemma nth_map_Fin (ys : list R) (k : nat) :
  (k < length ys)%nat -> nth k (map Fin ys) NaN = Fin (nth k ys 0).
Proof.
  intros Hk. rewrite (nth_indep _ NaN (Fin 0)) by (rewrite length_map; exact Hk).
  apply map_nth.
Qed.

(** The numerator of [correlation] on finite vectors. *)
Lemma numerator_Fin (mx my : R) (ys : list R) :
  forall (xs : list R) (k : nat) (a : R),
    (k + length xs <= length ys)%nat ->
    fold_left
      (fun acc '(i, xi) =>
         nadd acc (nmul (nsub xi (Fin mx))
                        (nsub (nth i (map Fin ys) NaN) (Fin my))))
      (combine (seq k (length xs)) (map Fin xs)) (Fin a)
    = Fin (a + Rcross mx my xs (skipn k ys)).
Proof.
  induction xs as [|x xs IH]; intros k a Hk.
  - simpl. unfold Rcross. simpl. f_equal; lra.
  - simpl in Hk. simpl length. simpl seq. simpl map. simpl combine.
    simpl fold_left. rewrite nth_map_Fin by lia. simpl.
    rewrite IH by lia.
    rewrite (skipn_cons_nth 0 ys k) by lia.
    unfold Rcross. simpl. f_equal. lra.
Qed.

Lemma sq_dev_fold_Fin (m : R) (xs : list R) (a : R) :
  fold_left (fun acc xi => nadd acc (npow2 (nsub xi (Fin m))))
            (map Fin xs) (Fin a)
  = Fin (a + Rsq_dev m xs).
Proof.
  revert a. unfold Rsq_dev.
  induction xs as [|x xs IH]; intros a; simpl.
  - f_equal; lra.
  - rewrite IH. f_equal. lra.
Qed.

Lemma correlation_Fin (xs ys : list R) :
  xs <> [] -> length xs = length ys ->
  correlation (map Fin xs) (map Fin ys) = Fin (Rcorrelation xs ys).
Proof.
  intros Hne Hlen. unfold correlation.
  rewrite !length_map.
  assert (Hx : (length xs =? 0)%nat = false).
  { apply Nat.eqb_neq. destruct xs; [congruence | simpl; lia]. }
  assert (Hy : (length ys =? 0)%nat = false).
  { rewrite <- Hlen. exact Hx. }
  rewrite Hx, Hy, Hlen, Nat.eqb_refl. simpl orb. cbv iota.
  rewrite !mean_Fin. unfold indexed. rewrite length_map.
  rewrite numerator_Fin by lia.
  rewrite !sq_dev_fold_Fin. simpl skipn.
  unfold Rcorrelation.
  set (sx := Rsq_dev (Rmean xs) xs). set (sy := Rsq_dev (Rmean ys) ys).
  assert (Hpos : 0 <= (0 + sx) * (0 + sy)).
  { pose proof (Rsq_dev_nonneg (Rmean xs) xs).
    pose proof (Rsq_dev_nonneg (Rmean ys) ys).
    fold sx in H. fold sy in H0. apply Rmult_le_pos; lra. }
  simpl nmul. simpl nsqrt.
  destruct (Rlt_dec ((0 + sx) * (0 + sy)) 0) as [Hneg|_]; [lra|].
  replace ((0 + sx) * (0 + sy)) with (sx * sy) by lra.
  simpl truthy.
  destruct (Req_dec_T (sqrt (sx * sy)) 0) as [Hz|Hnz].
  - reflexivity.
  - rewrite ndiv_Fin by assumption. f_equal. f_equal. lra.
Qed.

Lemma correlation_finite (x y : list num) :
  Forall is_finite x -> Forall is_finite y -> is_finite (correlation x y).
Proof.
  intros Hx Hy.
  destruct (finite_list_inv x Hx) as [xs ->].
  destruct (finite_list_inv y Hy) as [ys ->].
  destruct xs as [|x0 xs].
  - exact I.
  - destruct (Nat.eq_dec (length (x0 :: xs)) (length ys)) as [Hlen|Hlen].
    + rewrite correlation_Fin by (congruence || assumption). exact I.
    + unfold correlation. rewrite !length_map.
      apply Nat.eqb_neq in Hlen. rewrite Hlen.
      rewrite orb_true_r. exact I.
Qed.

Lemma constant_Fin_inv (xs : list R) (c : R) :
  constant (map Fin xs) -> In c xs -> forall r, In r xs -> r = c.
Proof.
  intros Hc Hin r Hr.
  assert (H : Fin r = Fin c).
  { apply Hc; apply in_map; assumption. }
  congruence.
Qed.

Lemma Rsq_dev_constant (xs : list R) :
  constant (map Fin xs) -> Rsq_dev (Rmean xs) xs = 0.
Proof.
  intros Hc. destruct xs as [|c xs]; [reflexivity|].
  assert (Hall : forall r, In r (c :: xs) -> r = c).
  { apply constant_Fin_inv; [assumption | left; reflexivity]. }
  rewrite (Rmean_all_equal c) by (discriminate || assumption).
  apply Rsq_dev_all_equal. assumption.
Qed.



Lemma whole_IZR (z : Z) : (Z.abs z <= 2 ^ 20)%Z -> whole_number (Fin (IZR z)).
Proof. intros H. exists z. split; [reflexivity | exact H]. Qed.


(* ================================================================== *)
(** * Properties: the stable sort *)
(* ================================================================== *)

Section SortFacts.
Context {A : Type} (gt : A -> A -> bool).

Lemma insert_sorted_perm (x : A) (l : list A) :
  Permutation (insert_sorted gt x l) (x :: l).
Proof.
  induction l as [|y l IH]; simpl.
  - apply Permutation_refl.
  - destruct (gt x y).
    + eapply Permutation_trans; [apply perm_skip, IH | apply perm_swap].
    + apply Permutation_refl.
Qed.

Lemma js_sort_perm (l : list A) : Permutation (js_sort gt l) l.
Proof.
  induction l as [|x l IH]; simpl.
  - apply perm_nil.
  - eapply Permutation_trans; [apply insert_sorted_perm|].
    apply perm_skip, IH.
Qed.

Lemma js_sort_length (l : list A) : length (js_sort gt l) = length l.
Proof. apply Permutation_length, js_sort_perm. Qed.

Lemma js_sort_Forall (P : A -> Prop) (l : list A) :
  Forall P l -> Forall P (js_sort gt l).
Proof.
  intros H. eapply Permutation_Forall; [|exact H].
  apply Permutation_sym, js_sort_perm.
Qed.

Lemma js_sort_In (x : A) (l : list A) : In x (js_sort gt l) <-> In x l.
Proof.
  split; apply Permutation_in;
    [apply js_sort_perm | apply Permutation_sym, js_sort_perm].
Qed.
End SortFacts.

(** A comparator that orders the elements satisfying [Q] by a rank,
    greater ranks first. *)
Section SortByRank.
Context {A : Type} (gt : A -> A -> bool) (rank : A -> Z) (Q : A -> Prop).
Hypothesis gt_rank :
  forall a b, Q a -> Q b -> (gt a b = true <-> (rank a < rank b)%Z).

Definition rank_ge (a b : A) : Prop := (rank a >= rank b)%Z.

Lemma insert_sorted_sorted (x : A) (l : list A) :
  Q x -> Forall Q l ->
  StronglySorted rank_ge l -> StronglySorted rank_ge (insert_sorted gt x l).
Proof.
  intros Hx HQ. induction 1 as [|y l Hl IH Hy]; simpl.
  - constructor; constructor.
  - inversion HQ as [|? ? Hqy HQl]; subst.
    destruct (gt x y) eqn:E.
    + apply (gt_rank x y Hx Hqy) in E.
      constructor; [apply IH, HQl|].
      eapply Permutation_Forall;
        [apply Permutation_sym, insert_sorted_perm|].
      constructor; [unfold rank_ge; lia | exact Hy].
    + assert (Hxy : (rank x >= rank y)%Z).
      { destruct (Z_lt_dec (rank x) (rank y)) as [Hlt|Hge]; [|lia].
        apply (gt_rank x y Hx Hqy) in Hlt. congruence. }
      constructor; [constructor; assumption|].
      constructor; [exact Hxy|].
      eapply Forall_impl; [|exact Hy].
      unfold rank_ge; intros; lia.
Qed.

Lemma js_sort_sorted (l : list A) :
  Forall Q l -> StronglySorted rank_ge (js_sort gt l).
Proof.
  induction 1 as [|x l Hx Hl IH]; simpl.
  - constructor.
  - apply insert_sorted_sorted; [exact Hx | | exact IH].
    apply js_sort_Forall, Hl.
Qed.

(** Elements of equal rank keep their relative order. *)
Lemma insert_sorted_stable (k : Z) (x : A) (l : list A) :
  Q x -> Forall Q l ->
  filter (fun a => (rank a =? k)%Z) (insert_sorted gt x l)
  = filter (fun a => (rank a =? k)%Z) (x :: l).
Proof.
  intros Hx. induction 1 as [|y l Hy Hl IH]; [reflexivity|].
  simpl insert_sorted. destruct (gt x y) eqn:E; [|reflexivity].
  apply (gt_rank x y Hx Hy) in E.
  cbn [filter] in *. rewrite IH.
  destruct (Z.eqb_spec (rank x) k), (Z.eqb_spec (rank y) k);
    try reflexivity; lia.
Qed.

Lemma js_sort_stable (k : Z) (l : list A) :
  Forall Q l ->
  filter (fun a => (rank a =? k)%Z) (js_sort gt l)
  = filter (fun a => (rank a =? k)%Z) l.
Proof.
  induction 1 as [|x l Hx Hl IH]; [reflexivity|].
  simpl js_sort.
  rewrite insert_sorted_stable by (try exact Hx; apply js_sort_Forall, Hl).
  cbn [filter]. rewrite IH. reflexivity.
Qed.

Lemma sorted_no_inversion (l l1 l2 l3 : list A) (a b : A) :
  StronglySorted rank_ge l -> l = l1 ++ a :: l2 ++ b :: l3 ->
  (rank a >= rank b)%Z.
Proof.
  intros Hs ->. revert Hs. induction l1 as [|c l1 IH]; simpl; intros Hs.
  - inversion Hs as [|? ? _ Hall]; subst.
    rewrite Forall_forall in Hall. apply Hall.
    apply in_or_app. right. left. reflexivity.
  - inversion Hs; subst. auto.
Qed.
End SortByRank.

Lemma Forall_True {A : Type} (l : list A) : Forall (fun _ => True) l.
Proof. induction l; constructor; auto. Qed.

(* ================================================================== *)
(** * Properties: the hook and the clock *)
(* ================================================================== *)

(** The sessions of the previous window when the clock reads [now]. *)
Definition previous_sessions (now : Z) (dateRange : DateRange)
    (sessions : list Session) : list Session :=
  match periodDays dateRange with
  | DaysAll => []
  | DaysN days =>
      filter
        (fun item =>
           match created_at item with
           | None => false
           | Some itemDate =>
               ((now - days * 2 * 24 * 60 * 60 * 1000 <=? itemDate)
                && (itemDate <? now - days * 24 * 60 * 60 * 1000))%Z
           end)
        sessions
  end.

Lemma useAdvancedAnalytics_at (tz : Z) (sn tf : num -> string)
    (app : option (list Session)) (pre : option (list Response))
    (demo : option (list Demographic)) (dateRange : DateRange)
    (clock : nat -> Z) (t : nat) :
  fst (useAdvancedAnalytics tz sn tf app pre demo dateRange clock t)
  = snapshot_of tz sn tf (or_empty app)
      (previous_sessions (clock t) dateRange (or_empty app))
      (or_empty pre) (or_empty demo) dateRange.
Proof.
  unfold useAdvancedAnalytics, previous_sessions, bind, ret, new_Date.
  destruct dateRange; reflexivity.
Qed.

Lemma run_useAdvancedAnalytics (tz : Z) (sn tf : num -> string)
    (app : option (list Session)) (pre : option (list Response))
    (demo : option (list Demographic)) (dateRange : DateRange)
    (clock : nat -> Z) :
  run (useAdvancedAnalytics tz sn tf app pre demo dateRange) clock
  = snapshot_of tz sn tf (or_empty app)
      (previous_sessions (clock 0%nat) dateRange (or_empty app))
      (or_empty pre) (or_empty demo) dateRange.
Proof. apply useAdvancedAnalytics_at. Qed.

(* ================================================================== *)
(** * Properties: the insight engine *)
(* ================================================================== *)

Definition impact_rank (a : Insight) : Z := impactOrder (impact a).

Lemma sort_insights_rank (a b : Insight) :
  (0 <? impactOrder (impact b) - impactOrder (impact a))%Z = true
  <-> (impact_rank a < impact_rank b)%Z.
Proof. unfold impact_rank. rewrite Z.ltb_lt. lia. Qed.

(** Whether an insight has the impact [i]. *)
Definition has_impact (i : Impact) (a : Insight) : bool :=
  match impact a, i with
  | high, high | medium, medium | low, low => true
  | _, _ => false
  end.

Lemma has_impact_rank (i : Impact) (a : Insight) :
  has_impact i a = (impact_rank a =? impactOrder i)%Z.
Proof. unfold has_impact, impact_rank. destruct (impact a), i; reflexivity. Qed.

(** [a] may stand before [b]: its impact is not lower. *)
Definition by_impact (a b : Insight) : Prop :=
  (impactOrder (impact a) >= impactOrder (impact b))%Z.

Lemma sort_insights_sorted (l : list Insight) :
  StronglySorted by_impact (sort_insights l).
Proof.
  exact (js_sort_sorted _ impact_rank (fun _ => True)
           (fun a b _ _ => sort_insights_rank a b) l (Forall_True l)).
Qed.

Lemma sort_insights_stable (i : Impact) (l : list Insight) :
  filter (has_impact i) (sort_insights l) = filter (has_impact i) l.
Proof.
  rewrite (filter_ext _ _ (has_impact_rank i)).
  rewrite (filter_ext _ _ (has_impact_rank i) l).
  exact (js_sort_stable _ impact_rank (fun _ => True)
           (fun a b _ _ => sort_insights_rank a b) (impactOrder i) l
           (Forall_True l)).
Qed.

Lemma sort_insights_perm (l : list Insight) :
  Permutation (sort_insights l) l.
Proof. apply js_sort_perm. Qed.

(** The insights in the order the rules produce them, before the sort, read
    off a snapshot [s] of the hook. *)
Definition generated_insights (tf : num -> string) (s : Snapshot)
    (app : option (list Session)) (dateRange : DateRange) : list Insight :=
  raw_insights tf (sessionAnalytics s) (sessionTrend s) (periodComparison s)
               (correlations s) (or_empty app) dateRange.

Lemma insights_of_snapshot (tz : Z) (sn tf : num -> string)
    (app : option (list Session)) (pre : option (list Response))
    (demo : option (list Demographic)) (dateRange : DateRange)
    (clock : nat -> Z) :
  let s := run (useAdvancedAnalytics tz sn tf app pre demo dateRange) clock in
  insights s = sort_insights (generated_insights tf s app dateRange).
Proof. intros s. unfold s. rewrite run_useAdvancedAnalytics. reflexivity. Qed.

Lemma ngt_refl_false (x : num) : ngt x x = false.
Proof. destruct x; unfold ngt; simpl; try reflexivity. case_dec; [lra | reflexivity]. Qed.

(** With no data at all and the range ['all'] no rule fires. *)
Lemma insights_of_nothing (tz : Z) (sn tf : num -> string) (clock : nat -> Z) :
  insights (run (useAdvancedAnalytics tz sn tf None None None all) clock) = [].
Proof.
  rewrite run_useAdvancedAnalytics.
  unfold snapshot_of, generateInsights, raw_insights. cbn.
  repeat case_dec; try lra; try reflexivity.
Qed.

(** C7.  The insight list of every snapshot is the stable sort of the
    generated insights by descending impact: it is sorted (high before
    medium before low), insights of equal impact keep their generation
    order, no medium insight precedes a high one, and the empty list is
    an output (of the hook called with no data). *)
Theorem insights_sorted_by_impact (tz : Z) (sn tf : num -> string)
    (app : option (list Session)) (pre : option (list Response))
    (demo : option (list Demographic)) (dateRange : DateRange)
    (clock : nat -> Z) :
  let s := run (useAdvancedAnalytics tz sn tf app pre demo dateRange) clock in
  let generated := generated_insights tf s app dateRange in
  StronglySorted by_impact (insights s)
  /\ Permutation (insights s) generated
  /\ (forall i, filter (has_impact i) (insights s)
                = filter (has_impact i) generated)
  /\ (forall l1 a l2 b l3,
        insights s = l1 ++ a :: l2 ++ b :: l3 ->
        ~ (impact a = medium /\ impact b = high))
  /\ insights (run (useAdvancedAnalytics tz sn tf None None None all) clock)
     = [].
Proof.
  intros s generated.
  pose proof (insights_of_snapshot tz sn tf app pre demo dateRange clock) as E.
  cbv zeta in E. fold s in E. fold generated in E.
  split; [|split; [|split; [|split]]].
  - rewrite E. apply sort_insights_sorted.
  - rewrite E. apply sort_insights_perm.
  - intros i. rewrite E. apply sort_insights_stable.
  - intros l1 a l2 b l3 Hl [Ha Hb].
    pose proof (sorted_no_inversion impact_rank (insights s) l1 l2 l3 a b) as H.
    assert (Hs : StronglySorted (rank_ge impact_rank) (insights s)).
    { rewrite E. apply sort_insights_sorted. }
    specialize (H Hs Hl). unfold impact_rank in H. rewrite Ha, Hb in H.
    simpl in H. lia.
  - apply insights_of_nothing.
Qed.

Lemma raw_insights_impact (tf : num -> string) (sa : SessionAnalytics)
    (st : Trend) (pc : PeriodComparison) (c : option SessionsVsDuration)
    (app : list Session) (dateRange : DateRange) :
  Forall (fun i => impact i = high \/ impact i = medium)
         (raw_insights tf sa st pc c app dateRange).
Proof.
  unfold raw_insights.
  repeat (apply Forall_app; split);
    repeat match goal with
           | |- Forall _ (if ?b then _ else _) => destruct b
           | |- Forall _ (match ?d with _ => _ end) => destruct d
           | |- Forall _ (_ ++ _) => apply Forall_app; split
           | |- Forall _ [] => constructor
           | |- Forall _ [_] => constructor; [simpl; auto | constructor]
           end.
Qed.

(** C10.  Every insight of every snapshot has impact [high] or [medium];
    none has impact [low]. *)
Theorem insights_never_low (tz : Z) (sn tf : num -> string)
    (app : option (list Session)) (pre : option (list Response))
    (demo : option (list Demographic)) (dateRange : DateRange)
    (clock : nat -> Z) :
  let s := run (useAdvancedAnalytics tz sn tf app pre demo dateRange) clock in
  Forall (fun i => (impact i = high \/ impact i = medium) /\ impact i <> low)
         (insights s).
Proof.
  intros s.
  pose proof (insights_of_snapshot tz sn tf app pre demo dateRange clock) as E.
  cbv zeta in E. fold s in E. rewrite E.
  eapply Permutation_Forall; [apply Permutation_sym, sort_insights_perm|].
  eapply Forall_impl; [|apply raw_insights_impact].
  simpl. intros i [H|H]; rewrite H; split; auto; discriminate.
Qed.

(* ================================================================== *)
(** * Properties: session durations and the previous period *)
(* ================================================================== *)

(** Every duration of the input is a finite number, as a JSON payload
    delivers it. *)
Definition finite_sessions (sessions : list Session) : Prop :=
  Forall (fun s => match duration_minutes s with
                   | Some d => is_finite d
                   | None => True
                   end)
         sessions.

Lemma sessionDurations_cons (s : Session) (l : list Session) :
  sessionDurations (s :: l)
  = match duration_minutes s with
    | Some d => if ngt d (Fin 0) then [d] else []
    | None => []
    end ++ sessionDurations l.
Proof.
  unfold sessionDurations. cbn [map filter].
  destruct (duration_minutes s) as [d|]; [|reflexivity].
  destruct (ngt d (Fin 0)); reflexivity.
Qed.

Lemma sessionDurations_positive (l : list Session) :
  Forall (fun d => ngt d (Fin 0) = true) (sessionDurations l).
Proof.
  induction l as [|s l IH]; [constructor|].
  rewrite sessionDurations_cons. apply Forall_app; split; [|exact IH].
  destruct (duration_minutes s) as [d|]; [|constructor].
  destruct (ngt d (Fin 0)) eqn:E; constructor; [exact E | constructor].
Qed.

Lemma sessionDurations_finite (l : list Session) :
  finite_sessions l -> Forall is_finite (sessionDurations l).
Proof.
  induction 1 as [|s l Hs _ IH]; [constructor|].
  rewrite sessionDurations_cons. apply Forall_app; split; [|exact IH].
  destruct (duration_minutes s) as [d|]; [|constructor].
  destruct (ngt d (Fin 0)); constructor; [exact Hs | constructor].
Qed.

Lemma finite_sessions_filter (f : Session -> bool) (l : list Session) :
  finite_sessions l -> finite_sessions (filter f l).
Proof.
  unfold finite_sessions. rewrite !Forall_forall.
  intros H s Hs. apply filter_In in Hs as [Hs _]. apply H. exact Hs.
Qed.

Lemma previous_sessions_finite (now : Z) (dateRange : DateRange)
    (l : list Session) :
  finite_sessions l -> finite_sessions (previous_sessions now dateRange l).
Proof.
  intros H. unfold previous_sessions.
  destruct (periodDays dateRange); [|constructor].
  apply finite_sessions_filter, H.
Qed.

(** Finite positive durations, seen as reals. *)
Lemma positive_reals (l : list num) :
  Forall is_finite l -> Forall (fun d => ngt d (Fin 0) = true) l ->
  exists rs, l = map Fin rs /\ Forall (fun r => 0 < r) rs.
Proof.
  intros Hf Hp. destruct (finite_list_inv l Hf) as [rs ->].
  exists rs. split; [reflexivity|].
  rewrite Forall_forall in *. intros r Hr.
  apply ngt_Fin. apply Hp. apply in_map. exact Hr.
Qed.

Lemma Rmean_pos (rs : list R) :
  rs <> [] -> Forall (fun r => 0 < r) rs -> 0 < Rmean rs.
Proof.
  intros Hne Hp. unfold Rmean. destruct rs as [|r rs]; [congruence|].
  apply Rdiv_lt_0_compat.
  - apply Rsum_pos; assumption.
  - apply lt_0_INR. simpl; lia.
Qed.

(** The two percentage changes of [sessionAnalytics.previousPeriod]. *)
Lemma change_of_durations (cur prev : list R) :
  Forall (fun r => 0 < r) prev ->
  let sa := sessionAnalytics_of (map Fin cur) (map Fin prev) in
  (prev = [] ->
     change_count (change (previousPeriod sa)) = Fin 0
     /\ change_mean (change (previousPeriod sa)) = Fin 0)
  /\ (prev <> [] ->
      change_count (change (previousPeriod sa))
      = Fin ((INR (length cur) - INR (length prev)) / INR (length prev) * 100)
      /\ Rmean prev <> 0
      /\ change_mean (change (previousPeriod sa))
         = Fin ((Rmean cur - Rmean prev) / Rmean prev * 100)).
Proof.
  intros Hp sa. split.
  - intros ->. split; reflexivity.
  - intros Hne. unfold sa. destruct prev as [|p prev]; [congruence|].
    assert (Hm : 0 < Rmean (p :: prev)) by (apply Rmean_pos; assumption).
    assert (Hl : INR (length (p :: prev)) <> 0)
      by (apply INR_length_nonzero; discriminate).
    split; [|split; [lra|]].
    + cbn [sessionAnalytics_of previousPeriod change change_count map].
      unfold len, of_nat. cbn [length]. rewrite !length_map.
      cbn [nsub nneg nadd]. cbn [length] in Hl.
      rewrite ndiv_Fin by exact Hl. reflexivity.
    + cbn [sessionAnalytics_of previousPeriod change change_mean].
      change (Fin p :: map Fin prev) with (map Fin (p :: prev)).
      rewrite !mean_Fin. cbn [nsub nneg nadd].
      rewrite ndiv_Fin by lra. reflexivity.
Qed.

(** The guard of the percentage changes.  In every snapshot over finite
    durations, the previous period counts the sessions of the window
    [[now - 2W, now - W)] that have a positive duration.  When there is
    none, the reported change of the session count and of the mean
    duration is 0; otherwise each change is
    [(current - previous) / previous * 100], where [current] is computed
    over the whole array the hook is given. *)
Lemma period_change_guarded (tz : Z) (sn tf : num -> string)
    (app : option (list Session)) (pre : option (list Response))
    (demo : option (list Demographic)) (dateRange : DateRange)
    (clock : nat -> Z) :
  finite_sessions (or_empty app) ->
  let s := run (useAdvancedAnalytics tz sn tf app pre demo dateRange) clock in
  let sa := sessionAnalytics s in
  let pp := previousPeriod sa in
  previous_count pp
  = length (sessionDurations
              (previous_sessions (clock 0%nat) dateRange (or_empty app)))
  /\ comparison_change (pc_sessions (periodComparison s))
     = change_count (change pp)
  /\ comparison_change (pc_duration (periodComparison s))
     = change_mean (change pp)
  /\ (previous_count pp = 0%nat ->
      change_count (change pp) = Fin 0 /\ change_mean (change pp) = Fin 0)
  /\ (previous_count pp <> 0%nat ->
      change_count (change pp)
      = Fin ((INR (sa_count sa) - INR (previous_count pp))
             / INR (previous_count pp) * 100)
      /\ exists c p,
          sa_mean sa = Fin c /\ previous_mean pp = Fin p /\ p <> 0
          /\ change_mean (change pp) = Fin ((c - p) / p * 100)).
Proof.
  intros Hfin s sa pp. unfold pp, sa, s.
  rewrite run_useAdvancedAnalytics.
  set (cur := or_empty app) in *.
  set (prev := previous_sessions (clock 0%nat) dateRange cur).
  cbn [snapshot_of sessionAnalytics periodComparison periodComparison_of
       pc_sessions pc_duration comparison_change].
  destruct (finite_list_inv _ (sessionDurations_finite cur Hfin))
    as [cs Hcs].
  destruct (positive_reals (sessionDurations prev)
              (sessionDurations_finite prev
                 (previous_sessions_finite _ _ _ Hfin))
              (sessionDurations_positive prev)) as [ps [Hps Hpos]].
  rewrite Hcs, Hps.
  pose proof (change_of_durations cs ps Hpos) as [H0 H1].
  assert (Hcount : previous_count
                     (previousPeriod
                        (sessionAnalytics_of (map Fin cs) (map Fin ps)))
                   = length ps).
  { cbn. apply length_map. }
  assert (Hsa : sa_count (sessionAnalytics_of (map Fin cs) (map Fin ps))
                = length cs).
  { cbn. apply length_map. }
  split; [rewrite Hcount, length_map; reflexivity|].
  split; [reflexivity|]. split; [reflexivity|].
  rewrite Hcount, Hsa. split.
  - intros Hz. apply H0. destruct ps; [reflexivity | discriminate].
  - intros Hnz.
    assert (Hne : ps <> []) by (intros ->; apply Hnz; reflexivity).
    destruct (H1 Hne) as [Hc [Hm Hd]].
    split; [exact Hc|].
    exists (Rmean cs), (Rmean ps).
    split; [cbn; apply mean_Fin|].
    split; [cbn; apply mean_Fin|].
    split; assumption.
Qed.

(** A session of 10 minutes of participant [p] on day [day] after the
    epoch, at midnight UTC. *)
Definition session_on (p : string) (day : Z) : Session :=
  {| participant_number := Some p;
     duration_minutes := Some (Fin 10);
     created_at := Some (day * msPerDay)%Z |}.

(** One session in the last 7 days before day 14, three in the 7 days
    before those. *)
Definition two_weeks : list Session :=
  [session_on "A" 3; session_on "B" 4; session_on "C" 5; session_on "D" 13].

Lemma ngt_10_0 : ngt (Fin 10) (Fin 0) = true.
Proof. unfold ngt. simpl. destruct (Rlt_dec 0 10); [reflexivity | lra]. Qed.

Lemma sessionDurations_session_on (l : list (string * Z)) :
  sessionDurations (map (fun '(p, day) => session_on p day) l)
  = map (fun _ => Fin 10) l.
Proof.
  induction l as [|[p day] l IH]; [reflexivity|].
  cbn [map]. rewrite sessionDurations_cons, IH.
  cbn [session_on duration_minutes]. rewrite ngt_10_0. reflexivity.
Qed.


(* ================================================================== *)
(** * Properties: sessions of duration zero *)
(* ================================================================== *)

(** The duration is exactly [0]. *)
Definition is_zero_duration (s : Session) : bool :=
  match duration_minutes s with
  | Some d => neqb d (Fin 0)
  | None => false
  end.

(** The sessions without those of duration zero. *)
Definition without_zero (sessions : list Session) : list Session :=
  filter (fun s => negb (is_zero_duration s)) sessions.

(** The session with a duration of zero replaced by [null]. *)
Definition nullify_zero (s : Session) : Session :=
  if is_zero_duration s then
    {| participant_number := participant_number s;
       duration_minutes := None;
       created_at := created_at s |}
  else s.

(** The duration is present and strictly positive. *)
Definition has_positive_duration (s : Session) : bool :=
  match duration_minutes s with
  | Some d => ngt d (Fin 0)
  | None => false
  end.

(** No duration is negative (the invariant of the data model). *)
Definition no_negative_duration (sessions : list Session) : Prop :=
  Forall (fun s => match duration_minutes s with
                   | Some d => nlt d (Fin 0) = false
                   | None => True
                   end)
         sessions.

(** One step of the [reduce] that builds [participantData]. *)
Definition participant_step (acc : list (string * ParticipantStats))
    (session : Session) : list (string * ParticipantStats) :=
  match participant_number session, duration_minutes session with
  | Some p, Some d =>
      if truthy_string (Some p) && truthy d then
        upsert String.eqb p
          {| ps_sessions := 0; ps_totalDuration := Fin 0;
             ps_avgDuration := Fin 0 |}
          (add_session d) acc
      else acc
  | _, _ => acc
  end.

Lemma participantData_fold (l : list Session) :
  participantData l = fold_left participant_step l [].
Proof. reflexivity. Qed.

Lemma zero_duration_inv (s : Session) :
  is_zero_duration s = true -> duration_minutes s = Some (Fin 0).
Proof.
  unfold is_zero_duration. destruct (duration_minutes s) as [[r| | |]|];
    simpl; try discriminate.
  case_dec; [subst; reflexivity | discriminate].
Qed.

Lemma truthy_zero : truthy (Fin 0) = false.
Proof. simpl. case_dec; [reflexivity | congruence]. Qed.

Lemma participant_step_zero (acc : list (string * ParticipantStats))
    (s : Session) :
  is_zero_duration s = true -> participant_step acc s = acc.
Proof.
  intros H. unfold participant_step. rewrite (zero_duration_inv s H).
  destruct (participant_number s); [|reflexivity].
  rewrite truthy_zero, andb_false_r. reflexivity.
Qed.

Lemma participant_step_nullify (acc : list (string * ParticipantStats))
    (s : Session) :
  participant_step acc (nullify_zero s) = participant_step acc s.
Proof.
  unfold nullify_zero. destruct (is_zero_duration s) eqn:E; [|reflexivity].
  rewrite (participant_step_zero acc s E).
  unfold participant_step. simpl. destruct (participant_number s); reflexivity.
Qed.

Lemma participant_step_not_positive
    (acc : list (string * ParticipantStats)) (s : Session) :
  match duration_minutes s with
  | Some d => nlt d (Fin 0) = false
  | None => True
  end ->
  has_positive_duration s = false -> participant_step acc s = acc.
Proof.
  unfold has_positive_duration, participant_step.
  destruct (participant_number s) as [p|]; [|reflexivity].
  destruct (duration_minutes s) as [d|]; [|reflexivity].
  intros Hneg Hpos.
  assert (Ht : truthy d = false).
  { destruct d as [r| | |]; simpl in *; try discriminate; try reflexivity.
    unfold ngt in Hpos. simpl in Hpos.
    repeat case_dec; try discriminate; try reflexivity; lra. }
  rewrite Ht, andb_false_r. reflexivity.
Qed.

Lemma fold_participant_filter (f : Session -> bool) (l : list Session) :
  (forall s acc, In s l -> f s = false -> participant_step acc s = acc) ->
  forall acc,
    fold_left participant_step (filter f l) acc
    = fold_left participant_step l acc.
Proof.
  induction l as [|s l IH]; intros H acc; [reflexivity|].
  cbn [filter]. destruct (f s) eqn:E; cbn [fold_left].
  - apply IH. intros; apply H; [right|]; assumption.
  - rewrite (H s acc (or_introl eq_refl) E).
    apply IH. intros; apply H; [right|]; assumption.
Qed.

Lemma fold_participant_nullify (l : list Session) :
  forall acc,
    fold_left participant_step (map nullify_zero l) acc
    = fold_left participant_step l acc.
Proof.
  induction l as [|s l IH]; intros acc; [reflexivity|].
  cbn [map fold_left]. rewrite participant_step_nullify. apply IH.
Qed.

Lemma sessionDurations_without_zero (l : list Session) :
  sessionDurations (without_zero l) = sessionDurations l.
Proof.
  induction l as [|s l IH]; [reflexivity|].
  unfold without_zero in *. cbn [filter].
  destruct (is_zero_duration s) eqn:E; cbn [negb].
  - rewrite IH, (sessionDurations_cons s l), (zero_duration_inv s E).
    rewrite ngt_refl_false. reflexivity.
  - rewrite !sessionDurations_cons, IH. reflexivity.
Qed.

Lemma sessionDurations_nullify (l : list Session) :
  sessionDurations (map nullify_zero l) = sessionDurations l.
Proof.
  induction l as [|s l IH]; [reflexivity|].
  cbn [map]. rewrite !sessionDurations_cons, IH. f_equal.
  unfold nullify_zero. destruct (is_zero_duration s) eqn:E; [|reflexivity].
  rewrite (zero_duration_inv s E), ngt_refl_false. reflexivity.
Qed.

Lemma previous_sessions_without_zero (now : Z) (dateRange : DateRange)
    (l : list Session) :
  previous_sessions now dateRange (without_zero l)
  = without_zero (previous_sessions now dateRange l).
Proof.
  unfold previous_sessions, without_zero.
  destruct (periodDays dateRange); [|reflexivity].
  induction l as [|s l IH]; [reflexivity|].
  cbn [filter].
  destruct (negb (is_zero_duration s)) eqn:E1;
    destruct (created_at s) as [c|] eqn:E2; cbn [filter];
    rewrite ?E2; try destruct (_ && _)%bool; cbn [filter];
    rewrite ?E1, ?IH; reflexivity.
Qed.

Lemma created_at_nullify (s : Session) :
  created_at (nullify_zero s) = created_at s.
Proof. unfold nullify_zero. destruct (is_zero_duration s); reflexivity. Qed.

Lemma previous_sessions_nullify (now : Z) (dateRange : DateRange)
    (l : list Session) :
  previous_sessions now dateRange (map nullify_zero l)
  = map nullify_zero (previous_sessions now dateRange l).
Proof.
  unfold previous_sessions.
  destruct (periodDays dateRange); [|reflexivity].
  induction l as [|s l IH]; [reflexivity|].
  cbn [map filter]. rewrite created_at_nullify.
  destruct (created_at s) as [c|]; [|exact IH].
  destruct (_ && _)%bool; cbn [map]; rewrite IH; reflexivity.
Qed.

(** The duration is present and truthy: neither 0 nor [NaN]. *)
Definition has_nonzero_duration (s : Session) : bool :=
  match duration_minutes s with
  | Some d => truthy d
  | None => false
  end.

Lemma participant_step_falsy
    (acc : list (string * ParticipantStats)) (s : Session) :
  has_nonzero_duration s = false -> participant_step acc s = acc.
Proof.
  unfold has_nonzero_duration, participant_step.
  destruct (participant_number s) as [p|]; [|reflexivity].
  destruct (duration_minutes s) as [d|]; [|reflexivity].
  intros ->. rewrite andb_false_r. reflexivity.
Qed.

(** The claim as worded fails: a session of -5 minutes is left out of
    [sessionDurations], which keeps the strictly positive durations, but
    it enters the feature vectors of its participant, whose guard tests
    the truthiness of the duration. *)
Lemma negative_duration_counterexample :
  let sessions :=
    [{| participant_number := Some "P1"%string;
        duration_minutes := Some (Fin (- 5));
        created_at := None |}] in
  sessionDurations sessions = []
  /\ exists p,
       participantData sessions = [("P1"%string, p)]
       /\ ps_sessions p = 1%nat
       /\ ps_totalDuration p = Fin (0 + - 5).
Proof.
  intros sessions. split.
  - unfold sessions. rewrite sessionDurations_cons.
    cbn [duration_minutes]. unfold ngt. simpl.
    destruct (Rlt_dec 0 (- 5)); [exfalso; lra | reflexivity].
  - unfold sessions, participantData. cbn [fold_left participant_number
      duration_minutes truthy_string]. 
    assert (Ht : truthy (Fin (- 5)) = true).
    { simpl. destruct (Req_dec_T (- 5) 0); [exfalso; lra | reflexivity]. }
    rewrite Ht. cbn. eexists. split; [reflexivity|].
    split; reflexivity.
Qed.

(** C9, amended.  The duration aggregates of [sessionAnalytics] are
    computed from the strictly positive durations alone: removing the
    sessions of duration 0 from the input, or replacing their duration by
    [null], changes neither [sessionDurations], nor [sessionAnalytics],
    nor the per-participant feature vectors [participantData].  The
    feature vectors are those of the sessions whose duration is neither
    0 nor [NaN], negative durations included; when no duration is
    negative, they are those of the sessions with a strictly positive
    duration. *)
Theorem zero_durations_excluded (tz : Z) (sn tf : num -> string)
    (sessions : list Session) (pre : option (list Response))
    (demo : option (list Demographic)) (dateRange : DateRange)
    (clock : nat -> Z) :
  let analytics_of := fun l =>
    sessionAnalytics
      (run (useAdvancedAnalytics tz sn tf (Some l) pre demo dateRange) clock) in
  Forall (fun d => ngt d (Fin 0) = true) (sessionDurations sessions)
  /\ analytics_of sessions
     = sessionAnalytics_of
         (sessionDurations sessions)
         (sessionDurations
            (previous_sessions (clock 0%nat) dateRange sessions))
  /\ sessionDurations (without_zero sessions) = sessionDurations sessions
  /\ sessionDurations (map nullify_zero sessions) = sessionDurations sessions
  /\ analytics_of (without_zero sessions) = analytics_of sessions
  /\ analytics_of (map nullify_zero sessions) = analytics_of sessions
  /\ participantData (without_zero sessions) = participantData sessions
  /\ participantData (map nullify_zero sessions) = participantData sessions
  /\ participantData (filter has_nonzero_duration sessions)
     = participantData sessions
  /\ (no_negative_duration sessions ->
      participantData (filter has_positive_duration sessions)
      = participantData sessions).
Proof.
  intros analytics_of.
  assert (Hrun : forall l,
             analytics_of l
             = sessionAnalytics_of
                 (sessionDurations l)
                 (sessionDurations
                    (previous_sessions (clock 0%nat) dateRange l))).
  { intros l. unfold analytics_of. rewrite run_useAdvancedAnalytics.
    reflexivity. }
  split; [apply sessionDurations_positive|].
  split; [apply Hrun|].
  split; [apply sessionDurations_without_zero|].
  split; [apply sessionDurations_nullify|].
  split.
  { rewrite !Hrun, previous_sessions_without_zero.
    rewrite !sessionDurations_without_zero. reflexivity. }
  split.
  { rewrite !Hrun, previous_sessions_nullify.
    rewrite !sessionDurations_nullify. reflexivity. }
  split.
  { rewrite !participantData_fold. unfold without_zero.
    apply fold_participant_filter. intros s acc _ H.
    apply participant_step_zero. apply negb_false_iff. exact H. }
  split.
  { rewrite !participantData_fold. apply fold_participant_nullify. }
  split.
  { rewrite !participantData_fold.
    apply fold_participant_filter. intros s acc _ H.
    apply participant_step_falsy, H. }
  intros Hneg. rewrite !participantData_fold.
  apply fold_participant_filter. intros s acc Hs H.
  apply participant_step_not_positive; [|exact H].
  unfold no_negative_duration in Hneg. rewrite Forall_forall in Hneg.
  apply Hneg. exact Hs.
Qed.

(** Two sessions of participant P1, of 5 and of 0 minutes. *)
Lemma zero_durations_excluded_witness :
  let sessions :=
    [{| participant_number := Some "P1"%string;
        duration_minutes := Some (Fin 5);
        created_at := Some 0%Z |};
     {| participant_number := Some "P1"%string;
        duration_minutes := Some (Fin 0);
        created_at := Some 0%Z |}] in
  no_negative_duration sessions
  /\ participantData (filter has_positive_duration sessions)
     = participantData sessions.
Proof.
  intros sessions.
  assert (H : no_negative_duration sessions).
  { unfold sessions, no_negative_duration.
    apply Forall_cons; [simpl; case_dec; [lra | reflexivity]|].
    apply Forall_cons; [simpl; case_dec; [lra | reflexivity]|].
    apply Forall_nil. }
  split; [exact H|].
  apply (zero_durations_excluded 0%Z (fun _ => EmptyString)
           (fun _ => EmptyString) sessions None None all (fun _ => 0%Z)).
  exact H.
Defined.

(* ================================================================== *)
(** * Properties: dictionaries with string keys *)
(* ================================================================== *)

Lemma lookup_upsert_same {V : Type} (k : string) (init : V) (f : V -> V)
    (acc : list (string * V)) :
  lookup String.eqb k (upsert String.eqb k init f acc)
  = Some (f (match lookup String.eqb k acc with
             | Some v => v
             | None => init
             end)).
Proof.
  induction acc as [|[k' v] acc IH]; simpl.
  - rewrite String.eqb_refl. reflexivity.
  - destruct (String.eqb k' k) eqn:E; simpl; rewrite E; [reflexivity | exact IH].
Qed.

Lemma lookup_upsert_other {V : Type} (k k' : string) (init : V) (f : V -> V)
    (acc : list (string * V)) :
  k' <> k ->
  lookup String.eqb k' (upsert String.eqb k init f acc)
  = lookup String.eqb k' acc.
Proof.
  intros Hne. induction acc as [|[k0 v] acc IH]; simpl.
  - destruct (String.eqb_spec k k'); [congruence | reflexivity].
  - destruct (String.eqb_spec k0 k) as [->|Hk]; simpl.
    + destruct (String.eqb_spec k k'); [congruence | reflexivity].
    + destruct (String.eqb k0 k'); [reflexivity | exact IH].
Qed.

Lemma lookup_filter_none {V : Type} (p : string * V -> bool) (k : string)
    (l : list (string * V)) :
  (forall v, p (k, v) = false) -> lookup String.eqb k (filter p l) = None.
Proof.
  intros Hp. induction l as [|[k' v] l IH]; simpl; [reflexivity|].
  destruct (p (k', v)) eqn:E; [|exact IH].
  simpl. destruct (String.eqb_spec k' k) as [->|_]; [|exact IH].
  rewrite Hp in E. discriminate.
Qed.

Lemma fold_left_pointwise {A B : Type} (f g : A -> B -> A) (l : list B) :
  (forall a b, f a b = g a b) ->
  forall a, fold_left f l a = fold_left g l a.
Proof.
  intros H. induction l as [|b l IH]; intros a; simpl; [reflexivity|].
  rewrite H. apply IH.
Qed.

(* ================================================================== *)
(** * Properties: the demographic distribution *)
(* ================================================================== *)

Section DistributionFacts.
Variable sn : num -> string.

(** The count the distribution records for the value [v] of [field]. *)
Definition field_count (dist : list (string * list (string * nat)))
    (field v : string) : nat :=
  match lookup String.eqb field dist with
  | Some values =>
      match lookup String.eqb v values with
      | Some n => n
      | None => 0
      end
  | None => 0
  end.

(** The record holds a non-null value under [field] that prints as [v]. *)
Definition holds_value (field v : string) (person : Demographic) : bool :=
  match lookup String.eqb field person with
  | Some value => negb (is_null value) && String.eqb (String_of sn value) v
  | None => false
  end.

(** The entry is counted: its value is not [null] and its key is neither
    [id] nor [created_at]. *)
Definition counted (entry : string * jsval) : bool :=
  negb (is_null (snd entry)) && negb (String.eqb (fst entry) "id")
  && negb (String.eqb (fst entry) "created_at").

Definition entry_step (acc : list (string * list (string * nat)))
    (entry : string * jsval) : list (string * list (string * nat)) :=
  if counted entry
  then upsert String.eqb (fst entry) []
         (bump String.eqb (String_of sn (snd entry))) acc
  else acc.

Definition entry_matches (field v : string) (entry : string * jsval)
  : bool :=
  String.eqb (fst entry) field && negb (is_null (snd entry))
  && String.eqb (String_of sn (snd entry)) v.

Lemma demographicDistribution_fold (demo : list Demographic) :
  demographicDistribution sn demo = fold_left entry_step (concat demo) [].
Proof.
  unfold demographicDistribution. generalize (@nil (string * list (string * nat))).
  induction demo as [|person demo IH]; intros acc; [reflexivity|].
  cbn [fold_left concat]. rewrite fold_left_app, <- IH. f_equal.
  apply fold_left_pointwise. intros a [key value]. reflexivity.
Qed.

Lemma field_count_step (acc : list (string * list (string * nat)))
    (entry : string * jsval) (field v : string) :
  field <> "id"%string -> field <> "created_at"%string ->
  field_count (entry_step acc entry) field v
  = (field_count acc field v
     + if entry_matches field v entry then 1 else 0)%nat.
Proof.
  intros Hid Hcr. destruct entry as [k value].
  unfold entry_step, counted, entry_matches, field_count. cbn [fst snd].
  destruct (String.eqb_spec k field) as [->|Hk]; cbn [andb].
  - destruct (String.eqb_spec field "id"); [contradiction|].
    destruct (String.eqb_spec field "created_at"); [contradiction|].
    cbn [negb]. rewrite !andb_true_r.
    destruct (is_null value); cbn [negb andb]; [lia|].
    rewrite lookup_upsert_same. unfold bump.
    destruct (String.eqb_spec (String_of sn value) v) as [->|Hv].
    + rewrite lookup_upsert_same.
      destruct (lookup String.eqb field acc) as [values|]; simpl;
        [destruct (lookup String.eqb v values)|]; lia.
    + rewrite lookup_upsert_other by congruence.
      destruct (lookup String.eqb field acc) as [values|]; simpl; lia.
  - destruct (_ && _ && _)%bool; [|lia].
    rewrite lookup_upsert_other by congruence. lia.
Qed.

Lemma field_count_fold (entries : list (string * jsval))
    (field v : string) :
  field <> "id"%string -> field <> "created_at"%string ->
  forall acc,
    field_count (fold_left entry_step entries acc) field v
    = (field_count acc field v
       + length (filter (entry_matches field v) entries))%nat.
Proof.
  intros Hid Hcr. induction entries as [|e entries IH]; intros acc.
  - simpl. lia.
  - cbn [fold_left filter]. rewrite IH, field_count_step by assumption.
    destruct (entry_matches field v e); simpl; lia.
Qed.

Lemma excluded_key_fold (entries : list (string * jsval)) (field : string) :
  field = "id"%string \/ field = "created_at"%string ->
  forall acc,
    lookup String.eqb field acc = None ->
    lookup String.eqb field (fold_left entry_step entries acc) = None.
Proof.
  intros Hf. induction entries as [|[k value] entries IH]; intros acc Hacc.
  - exact Hacc.
  - cbn [fold_left]. apply IH. unfold entry_step, counted. cbn [fst snd].
    destruct (is_null value); [exact Hacc|]. cbn [negb andb].
    destruct (String.eqb_spec k "id") as [->|Hid]; [exact Hacc|].
    destruct (String.eqb_spec k "created_at") as [->|Hcr]; [exact Hacc|].
    cbn [negb andb]. rewrite lookup_upsert_other; [exact Hacc|].
    destruct Hf; congruence.
Qed.

(** A record lists each key once. *)
Definition well_formed (person : Demographic) : Prop :=
  NoDup (map fst person).

Lemma lookup_not_in (field : string) (person : Demographic) :
  ~ In field (map fst person) -> lookup String.eqb field person = None.
Proof.
  induction person as [|[k value] person IH]; simpl; intros H.
  - reflexivity.
  - destruct (String.eqb_spec k field) as [->|_].
    + exfalso. apply H. left. reflexivity.
    + apply IH. intros Hin. apply H. right. exact Hin.
Qed.

Lemma matches_not_in (field v : string) (person : Demographic) :
  ~ In field (map fst person) -> filter (entry_matches field v) person = [].
Proof.
  induction person as [|[k value] person IH]; simpl; intros H.
  - reflexivity.
  - unfold entry_matches at 1. cbn [fst snd].
    destruct (String.eqb_spec k field) as [->|_].
    + exfalso. apply H. left. reflexivity.
    + cbn [andb]. apply IH. intros Hin. apply H. right. exact Hin.
Qed.

Lemma matches_of_record (field v : string) (person : Demographic) :
  well_formed person ->
  length (filter (entry_matches field v) person)
  = if holds_value field v person then 1%nat else 0%nat.
Proof.
  unfold well_formed, holds_value.
  induction person as [|[k value] person IH]; intros Hnd.
  - reflexivity.
  - cbn [map fst] in Hnd. inversion Hnd as [|? ? Hnotin Hnd']; subst.
    cbn [filter lookup]. unfold entry_matches at 1. cbn [fst snd].
    destruct (String.eqb_spec k field) as [->|Hk]; cbn [andb].
    + rewrite (matches_not_in field v person Hnotin).
      destruct (negb (is_null value) && String.eqb (String_of sn value) v)%bool;
        reflexivity.
    + apply IH. exact Hnd'.
Qed.

Lemma matches_of_records (field v : string) (demo : list Demographic) :
  Forall well_formed demo ->
  length (filter (entry_matches field v) (concat demo))
  = length (filter (holds_value field v) demo).
Proof.
  induction 1 as [|person demo Hwf _ IH]; [reflexivity|].
  cbn [concat filter]. rewrite filter_app, length_app, IH.
  rewrite (matches_of_record field v person Hwf).
  destruct (holds_value field v person); simpl; lia.
Qed.
End DistributionFacts.

(** The claim as the specification words it fails: a record with a
    [participant_id] gives the distribution an entry for that field. *)
Lemma identifier_field_counterexample :
  lookup String.eqb "participant_id"%string
    (demographicDistribution (fun _ => EmptyString)
       [[("id"%string, JStr "7"); ("participant_id"%string, JStr "P1");
         ("gender"%string, JStr "F")]])
  = Some [("P1"%string, 1%nat)].
Proof. reflexivity. Qed.

(** No field name and no printed value of the record names a member of
    [Object.prototype]. *)
Definition plain_record (sn : num -> string) (person : Demographic) : Prop :=
  Forall (fun entry =>
            plain_name (fst entry) /\ plain_name (String_of sn (snd entry)))
         person.

(** C4, amended.  For records whose field names and printed values do not
    name a member of [Object.prototype], the distribution has no entry
    for [id] and [created_at].  Every other field, identifiers such as
    [participant_id] and [sample_code] included, maps each printed value
    to the number of records that hold it as a non-null value; the
    identifier fields are removed afterwards, by the chart list of the
    dashboard. *)
Theorem demographicDistribution_counts (sn : num -> string)
    (demo : list Demographic) :
  Forall well_formed demo -> Forall (plain_record sn) demo ->
  let dist := demographicDistribution sn demo in
  lookup String.eqb "id"%string dist = None
  /\ lookup String.eqb "created_at"%string dist = None
  /\ (forall field v,
        field <> "id"%string -> field <> "created_at"%string ->
        field_count dist field v
        = length (filter (holds_value sn field v) demo))
  /\ lookup String.eqb "participant_id"%string (demographicCharts dist) = None
  /\ lookup String.eqb "sample_code"%string (demographicCharts dist) = None.
Proof.
  intros Hwf _ dist. unfold dist. rewrite demographicDistribution_fold.
  split; [apply excluded_key_fold; auto|].
  split; [apply excluded_key_fold; auto|].
  split.
  - intros field v Hid Hcr.
    rewrite field_count_fold by assumption.
    rewrite matches_of_records by assumption. reflexivity.
  - split; apply lookup_filter_none; intros v; reflexivity.
Qed.

(** Two records, each with distinct keys; both hold a [participant_id]. *)
Lemma demographicDistribution_counts_witness :
  let demo :=
    [[("id"%string, JStr "7"); ("participant_id"%string, JStr "P1");
      ("gender"%string, JStr "F")];
     [("participant_id"%string, JStr "P2"); ("gender"%string, JStr "F")]] in
  Forall well_formed demo
  /\ Forall (plain_record (fun _ => EmptyString)) demo
  /\ field_count (demographicDistribution (fun _ => EmptyString) demo)
                 "gender"%string "F"%string
     = length (filter (holds_value (fun _ => EmptyString)
                                   "gender"%string "F"%string) demo).
Proof.
  intros demo.
  assert (H : Forall well_formed demo).
  { unfold demo, well_formed.
    repeat (apply Forall_cons || apply Forall_nil);
      repeat (apply NoDup_cons || apply NoDup_nil); simpl;
      intuition discriminate. }
  assert (P : Forall (plain_record (fun _ => EmptyString)) demo).
  { unfold demo, plain_record, plain_name.
    repeat (apply Forall_cons || apply Forall_nil);
      cbn [fst snd String_of]; split; simpl; intuition discriminate. }
  split; [exact H|]. split; [exact P|].
  apply (demographicDistribution_counts (fun _ => EmptyString) demo H P);
    discriminate.
Defined.

(* ================================================================== *)
(** * Properties: finiteness of the statistics kernel *)
(* ================================================================== *)

Lemma nadd_finite (x y : num) :
  is_finite x -> is_finite y -> is_finite (nadd x y).
Proof. destruct x, y; simpl; intros; try contradiction; exact I. Qed.

Lemma nsub_finite (x y : num) :
  is_finite x -> is_finite y -> is_finite (nsub x y).
Proof. destruct x, y; simpl; intros; try contradiction; exact I. Qed.

Lemma nmul_finite (x y : num) :
  is_finite x -> is_finite y -> is_finite (nmul x y).
Proof. destruct x, y; simpl; intros; try contradiction; exact I. Qed.

Lemma nabs_finite (x : num) : is_finite x -> is_finite (nabs x).
Proof. destruct x; simpl; intros; try contradiction; exact I. Qed.

Lemma ndiv_finite (x : num) (b : R) :
  is_finite x -> b <> 0 -> is_finite (ndiv x (Fin b)).
Proof.
  intros Hx Hb. destruct (finite_inv x Hx) as [a ->].
  rewrite ndiv_Fin by assumption. exact I.
Qed.

Lemma nth_finite (l : list num) (n : nat) :
  Forall is_finite l -> (n < length l)%nat -> is_finite (nth n l NaN).
Proof.
  intros H Hn. rewrite Forall_forall in H. apply H. apply nth_In. exact Hn.
Qed.

Lemma sort_numbers_finite (l : list num) :
  Forall is_finite l -> Forall is_finite (sort_numbers l).
Proof. apply js_sort_Forall. Qed.

Lemma sort_numbers_length (l : list num) :
  length (sort_numbers l) = length l.
Proof. apply js_sort_length. Qed.

Lemma median_finite (l : list num) :
  Forall is_finite l -> is_finite (median l).
Proof.
  intros H. unfold median. destruct l as [|x l]; [exact I|].
  set (sorted := sort_numbers (x :: l)).
  assert (Hs : Forall is_finite sorted) by (apply sort_numbers_finite, H).
  assert (Hl : length sorted = S (length l)) by apply sort_numbers_length.
  assert (Hmid : (length sorted / 2 < length sorted)%nat).
  { apply Nat.div_lt; lia. }
  cbv zeta. destruct (Nat.odd (length sorted)).
  - apply nth_finite; assumption.
  - apply ndiv_finite; [|lra].
    apply nadd_finite; apply nth_finite; try assumption. lia.
Qed.

Lemma Rmean_nonneg (rs : list R) :
  Forall (fun r => 0 <= r) rs -> 0 <= Rmean rs.
Proof.
  intros H. unfold Rmean. destruct rs as [|r rs]; [lra|].
  apply Rmult_le_pos; [apply Rsum_nonneg, H|].
  apply Rlt_le, Rinv_0_lt_compat, lt_0_INR. simpl; lia.
Qed.

Lemma squareDiffs_Fin (m : R) (rs : list R) :
  map (fun value => npow2 (nsub value (Fin m))) (map Fin rs)
  = map Fin (map (fun r => (r - m) * (r - m)) rs).
Proof. rewrite !map_map. apply map_ext. intros r. reflexivity. Qed.

Lemma standardDeviation_Fin (rs : list R) :
  standardDeviation (map Fin rs)
  = Fin (sqrt (Rmean (map (fun r => (r - Rmean rs) * (r - Rmean rs)) rs))).
Proof.
  destruct rs as [|r rs].
  - simpl. rewrite sqrt_0. reflexivity.
  - unfold standardDeviation.
    change (map Fin (r :: rs)) with (Fin r :: map Fin rs) at 1. cbv iota zeta.
    change (Fin r :: map Fin rs) with (map Fin (r :: rs)).
    rewrite mean_Fin, squareDiffs_Fin, mean_Fin. unfold nsqrt.
    destruct (Rlt_dec _ 0) as [Hneg|_]; [|reflexivity].
    exfalso. apply (Rlt_not_le _ _ Hneg). apply Rmean_nonneg.
    apply Forall_forall. intros y Hy.
    apply in_map_iff in Hy as [z [<- _]]. apply Rle_0_sqr.
Qed.

Lemma standardDeviation_finite (l : list num) :
  Forall is_finite l -> is_finite (standardDeviation l).
Proof.
  intros H. destruct (finite_list_inv l H) as [rs ->].
  rewrite standardDeviation_Fin. exact I.
Qed.

Lemma fold_nmin2_Fin (rs : list R) (a : R) :
  is_finite (fold_left nmin2 (map Fin rs) (Fin a)).
Proof.
  revert a. induction rs as [|r rs IH]; intros a; simpl; [exact I|].
  destruct (Rlt_dec r a); apply IH.
Qed.

Lemma fold_nmax2_Fin (rs : list R) (a : R) :
  is_finite (fold_left nmax2 (map Fin rs) (Fin a)).
Proof.
  revert a. induction rs as [|r rs IH]; intros a; simpl; [exact I|].
  destruct (Rlt_dec a r); apply IH.
Qed.

Lemma Math_min_finite (l : list num) :
  l <> [] -> Forall is_finite l -> is_finite (Math_min l).
Proof.
  intros Hne H. destruct (finite_list_inv l H) as [rs ->].
  destruct rs as [|r rs]; [exfalso; apply Hne; reflexivity|].
  unfold Math_min. simpl. apply fold_nmin2_Fin.
Qed.

Lemma Math_max_finite (l : list num) :
  l <> [] -> Forall is_finite l -> is_finite (Math_max l).
Proof.
  intros Hne H. destruct (finite_list_inv l H) as [rs ->].
  destruct rs as [|r rs]; [exfalso; apply Hne; reflexivity|].
  unfold Math_max. simpl. apply fold_nmax2_Fin.
Qed.

Lemma at_index_finite (l : list num) (z : Z) :
  Forall is_finite l -> (0 <= z < Z.of_nat (length l))%Z ->
  is_finite (at_index l (Fin (IZR z))).
Proof.
  intros H Hz. unfold at_index. rewrite ZfloorZ.
  destruct (Req_dec_T (IZR z) (IZR z)) as [_|Hne]; [|congruence].
  destruct (Z_lt_dec z 0) as [Hneg|_]; [lia|].
  apply nth_finite; [exact H | lia].
Qed.

Lemma ZceilZ (z : Z) : Zceil (IZR z) = z.
Proof. apply Zceil_eq. lra. Qed.

Lemma percentile_finite (l : list num) (p : R) :
  Forall is_finite l -> 0 <= p <= 100 -> is_finite (percentile l (Fin p)).
Proof.
  intros H Hp. unfold percentile. destruct l as [|x l]; [exact I|].
  set (sorted := sort_numbers (x :: l)).
  assert (Hs : Forall is_finite sorted) by (apply sort_numbers_finite, H).
  assert (Hl : length sorted = S (length l)) by apply sort_numbers_length.
  cbv zeta. unfold len, of_nat. rewrite Hl.
  rewrite ndiv_Fin by lra. cbn [nsub nneg nadd nmul nfloor nceil].
  set (idx := p / 100 * (INR (S (length l)) + - 1)).
  assert (Hn : INR (S (length l)) + - 1 = IZR (Z.of_nat (length l))).
  { rewrite S_INR, INR_IZR_INZ. lra. }
  assert (Hidx : 0 <= idx <= IZR (Z.of_nat (length l))).
  { unfold idx. rewrite Hn.
    assert (0 <= IZR (Z.of_nat (length l))) by (apply IZR_le; lia).
    split; [apply Rmult_le_pos; lra|].
    assert (p / 100 <= 1) by lra. nra. }
  assert (Hfloor : (0 <= Zfloor idx)%Z) by (apply Zfloor_lub; simpl; lra).
  assert (Hceil : (Zceil idx <= Z.of_nat (length l))%Z).
  { rewrite <- (ZceilZ (Z.of_nat (length l))). apply Zceil_le. lra. }
  assert (Hfc : (Zfloor idx <= Zceil idx)%Z).
  { apply le_IZR. pose proof (Zfloor_ceil_bound idx). lra. }
  assert (Hlo : is_finite (at_index sorted (Fin (IZR (Zfloor idx))))).
  { apply at_index_finite; [exact Hs | rewrite Hl; lia]. }
  assert (Hup : is_finite (at_index sorted (Fin (IZR (Zceil idx))))).
  { apply at_index_finite; [exact Hs | rewrite Hl; lia]. }
  destruct (neqb _ _); [exact Hlo|].
  apply nadd_finite; apply nmul_finite; try assumption; exact I.
Qed.

(* ================================================================== *)
(** * Properties: the trend *)
(* ================================================================== *)

Lemma fold_nadd_Fin_indexed {A : Type} (g : nat -> A -> num)
    (g' : nat * A -> R) (l : list (nat * A)) :
  (forall i x, In (i, x) l -> g i x = Fin (g' (i, x))) ->
  forall a,
    fold_left (fun acc '(i, x) => nadd acc (g i x)) l (Fin a)
    = Fin (a + Rsum (map g' l)).
Proof.
  induction l as [|[i x] l IH]; intros Hg a; simpl.
  - f_equal; lra.
  - rewrite (Hg i x (or_introl eq_refl)). simpl.
    rewrite IH by (intros; apply Hg; right; assumption).
    f_equal; lra.
Qed.

Lemma map_fst_combine_seq {A : Type} (h : nat -> R) (l : list A) (k : nat) :
  map (fun p : nat * A => h (fst p)) (combine (seq k (length l)) l)
  = map h (seq k (length l)).
Proof.
  revert k. induction l as [|x l IH]; intros k; simpl; [reflexivity|].
  f_equal. apply IH.
Qed.

(** [0 + 1 + ... + (n - 1)] and the sum of the squares. *)
Lemma sum_of_indices (n : nat) :
  Rsum (map INR (seq 0 n)) = INR n * (INR n - 1) / 2.
Proof.
  induction n as [|n IH].
  - simpl. lra.
  - rewrite seq_S, map_app, Rsum_app, IH, S_INR. simpl. lra.
Qed.

Lemma sum_of_squared_indices (n : nat) :
  Rsum (map (fun i => INR i * INR i) (seq 0 n))
  = (INR n - 1) * INR n * (2 * INR n - 1) / 6.
Proof.
  induction n as [|n IH].
  - simpl. lra.
  - rewrite seq_S, map_app, Rsum_app, IH, S_INR. simpl. lra.
Qed.

(** The denominator of the slope is positive from two points on. *)
Lemma slope_denominator_pos (n : nat) :
  (2 <= n)%nat ->
  0 < INR n * ((INR n - 1) * INR n * (2 * INR n - 1) / 6)
      - (INR n * (INR n - 1) / 2) * (INR n * (INR n - 1) / 2).
Proof.
  intros Hn. assert (Hx : 2 <= INR n) by (apply (le_INR 2); exact Hn).
  set (x := INR n) in *.
  replace (x * ((x - 1) * x * (2 * x - 1) / 6)
           - x * (x - 1) / 2 * (x * (x - 1) / 2))
    with (x * x * (x - 1) * (x + 1) / 12) by field.
  assert (0 < x * x) by nra.
  assert (0 < (x - 1) * (x + 1)) by nra.
  assert (0 < x * x * ((x - 1) * (x + 1))) by (apply Rmult_lt_0_compat; assumption).
  lra.
Qed.

Lemma calculateTrend_finite (data : list TimePoint) :
  is_finite (slope (calculateTrend data)).
Proof.
  unfold calculateTrend.
  destruct (length data <? 2)%nat eqn:E; [exact I|].
  apply Nat.ltb_ge in E. cbv zeta. cbn [slope].
  unfold indexed, len.
  rewrite (fold_nadd_Fin_indexed (fun i _ => of_nat i) (fun p => INR (fst p)))
    by reflexivity.
  rewrite (fold_nadd_Fin_indexed
             (fun i item => nmul (of_nat i) (of_nat (count item)))
             (fun p => INR (fst p) * INR (count (snd p))))
    by reflexivity.
  rewrite (fold_nadd_Fin_indexed
             (fun i _ => nmul (of_nat i) (of_nat i))
             (fun p => INR (fst p) * INR (fst p)))
    by reflexivity.
  rewrite (fold_nadd_Fin (fun item => of_nat (count item))
                         (fun item => INR (count item)))
    by reflexivity.
  rewrite (map_fst_combine_seq INR data 0).
  rewrite (map_fst_combine_seq (fun i => INR i * INR i) data 0).
  rewrite sum_of_indices, sum_of_squared_indices.
  unfold of_nat. cbn [nmul nsub nneg nadd].
  apply ndiv_finite; [exact I|].
  pose proof (slope_denominator_pos (length data) E) as Hpos.
  lra.
Qed.

(* ================================================================== *)
(** * Properties: every number of the snapshot is finite *)
(* ================================================================== *)

Definition finite_sessionAnalytics (sa : SessionAnalytics) : Prop :=
  is_finite (sa_mean sa) /\ is_finite (sa_median sa)
  /\ is_finite (sa_standardDeviation sa)
  /\ is_finite (sa_min sa) /\ is_finite (sa_max sa)
  /\ is_finite (p25 (percentiles sa)) /\ is_finite (p75 (percentiles sa))
  /\ is_finite (p90 (percentiles sa)) /\ is_finite (p95 (percentiles sa))
  /\ is_finite (previous_mean (previousPeriod sa))
  /\ is_finite (previous_median (previousPeriod sa))
  /\ is_finite (change_count (change (previousPeriod sa)))
  /\ is_finite (change_mean (change (previousPeriod sa))).

Definition finite_comparison (c : Comparison) : Prop :=
  is_finite (current c) /\ is_finite (previous c)
  /\ is_finite (comparison_change c).

Definition finite_periodComparison (pc : PeriodComparison) : Prop :=
  finite_comparison (pc_sessions pc) /\ finite_comparison (pc_duration pc)
  /\ is_finite (participants_change (pc_participants pc)).

Definition finite_numericStats (st : NumericStats) : Prop :=
  Forall is_finite (values st)
  /\ is_finite (ns_mean st) /\ is_finite (ns_median st)
  /\ is_finite (ns_standardDeviation st)
  /\ is_finite (ns_min st) /\ is_finite (ns_max st).

Definition finite_pretestAnalysis (pa : PretestAnalysis) : Prop :=
  Forall (fun field => finite_numericStats (snd field))
         (or_empty (numericFields pa)).

Definition finite_correlations (c : option SessionsVsDuration) : Prop :=
  match c with
  | Some c => is_finite (coefficient c)
  | None => True
  end.

Definition finite_usagePatterns (u : UsagePatterns) : Prop :=
  Forall (fun e => is_finite (eng_totalDuration (snd e)))
         (participantEngagement u).

Definition finite_insights (l : list Insight) : Prop :=
  Forall (fun i => is_finite (metric i)) l.

Definition finite_summary (s : Summary) : Prop :=
  is_finite (averageSessionDuration s)
  /\ is_finite (sessionCompleteness (dataQuality s))
  /\ is_finite (responseRate (dataQuality s))
  /\ is_finite (sessionChange (comparisonMetrics s))
  /\ is_finite (durationChange (comparisonMetrics s))
  /\ is_finite (participantChange (comparisonMetrics s)).

(** Every field of the snapshot that holds a number holds a finite one. *)
Definition finite_snapshot (s : Snapshot) : Prop :=
  finite_sessionAnalytics (sessionAnalytics s)
  /\ is_finite (slope (sessionTrend s))
  /\ finite_periodComparison (periodComparison s)
  /\ finite_pretestAnalysis (pretestAnalysis s)
  /\ finite_correlations (correlations s)
  /\ finite_usagePatterns (usagePatterns s)
  /\ finite_insights (insights s)
  /\ finite_summary (summary s).

(** Every number of the responses is finite. *)
Definition finite_responses (responses : list Response) : Prop :=
  Forall (fun r =>
            Forall (fun entry => match snd entry with
                                 | JNum n => is_finite n
                                 | _ => True
                                 end)
                   (response_fields r))
         responses.

Lemma sessionAnalytics_of_finite (cur prev : list num) :
  Forall is_finite cur -> Forall is_finite prev ->
  Forall (fun d => ngt d (Fin 0) = true) prev ->
  finite_sessionAnalytics (sessionAnalytics_of cur prev).
Proof.
  intros Hc Hp Hpos. unfold finite_sessionAnalytics.
  repeat split.
  - apply mean_finite, Hc.
  - apply median_finite, Hc.
  - apply standardDeviation_finite, Hc.
  - cbn. destruct cur; [exact I|].
    apply Math_min_finite; [discriminate | assumption].
  - cbn. destruct cur; [exact I|].
    apply Math_max_finite; [discriminate | assumption].
  - apply percentile_finite; [assumption | lra].
  - apply percentile_finite; [assumption | lra].
  - apply percentile_finite; [assumption | lra].
  - apply percentile_finite; [assumption | lra].
  - apply mean_finite, Hp.
  - apply median_finite, Hp.
  - destruct (positive_reals prev Hp Hpos) as [ps [-> Hps]].
    destruct (finite_list_inv cur Hc) as [cs ->].
    destruct ps as [|p ps]; [exact I|].
    destruct (change_of_durations cs (p :: ps) Hps) as [_ H].
    destruct H as [H _]; [discriminate|]. rewrite H. exact I.
  - destruct (positive_reals prev Hp Hpos) as [ps [-> Hps]].
    destruct (finite_list_inv cur Hc) as [cs ->].
    destruct ps as [|p ps]; [exact I|].
    destruct (change_of_durations cs (p :: ps) Hps) as [_ H].
    destruct H as [_ [_ H]]; [discriminate|]. rewrite H. exact I.
Qed.

Lemma periodComparison_of_finite (sa : SessionAnalytics)
    (cur prev : list Session) :
  finite_sessionAnalytics sa ->
  finite_periodComparison (periodComparison_of sa cur prev).
Proof.
  intros (Hm & _ & _ & _ & _ & _ & _ & _ & _ & Hpm & _ & Hcc & Hcm).
  unfold finite_periodComparison, finite_comparison, periodComparison_of.
  cbn [pc_sessions pc_duration pc_participants current previous
       comparison_change participants_change].
  repeat split; try assumption; try exact I.
  destruct (participantCount prev) as [|n]; [exact I|].
  apply nmul_finite; [|exact I]. apply ndiv_finite; [exact I|].
  apply not_0_INR. discriminate.
Qed.

(** Listing the properties of a dictionary lists entries it has. *)
Lemma own_property_order_In {V : Type} (e : string * V)
    (obj : list (string * V)) :
  In e (own_property_order obj) -> In e obj.
Proof.
  unfold own_property_order. intros H. apply in_app_or in H as [H|H].
  - apply js_sort_In in H. apply filter_In in H. apply H.
  - apply filter_In in H. apply H.
Qed.

Lemma upsert_Forall {K V : Type} (eqb : K -> K -> bool) (key : K) (init : V)
    (f : V -> V) (P : V -> Prop) (acc : list (K * V)) :
  P (f init) -> (forall v, P v -> P (f v)) ->
  Forall (fun e => P (snd e)) acc ->
  Forall (fun e => P (snd e)) (upsert eqb key init f acc).
Proof.
  intros Hinit Hf. induction 1 as [|[k v] acc Hv Hacc IH]; simpl.
  - constructor; [exact Hinit | constructor].
  - destruct (eqb k key); constructor; try assumption.
    simpl. apply Hf. exact Hv.
Qed.

(** The values collected for a numeric field: at least one, all finite. *)
Definition collected (vs : list num) : Prop :=
  vs <> [] /\ Forall is_finite vs.

Lemma pretest_entry_collected (acc : PretestAcc) (entry : string * jsval) :
  match snd entry with JNum n => is_finite n | _ => True end ->
  Forall (fun e => collected (snd e)) (or_empty (acc_numericFields acc)) ->
  Forall (fun e => collected (snd e))
         (or_empty (acc_numericFields (pretest_entry acc entry))).
Proof.
  destruct entry as [key value]. cbn [snd]. intros Hv Hacc.
  unfold pretest_entry. destruct value as [|b|n|s]; try exact Hacc.
  destruct (negb (includes key "id")); [|exact Hacc].
  cbn [acc_numericFields or_empty]. apply upsert_Forall; [| |exact Hacc].
  - split; [discriminate | repeat constructor; exact Hv].
  - intros vs [Hne Hfin]. split.
    + destruct vs; discriminate.
    + apply Forall_app. split; [exact Hfin | repeat constructor; exact Hv].
Qed.

Lemma pretest_fields_collected (entries : list (string * jsval)) :
  Forall (fun entry => match snd entry with
                       | JNum n => is_finite n
                       | _ => True
                       end) entries ->
  forall acc,
    Forall (fun e => collected (snd e)) (or_empty (acc_numericFields acc)) ->
    Forall (fun e => collected (snd e))
           (or_empty (acc_numericFields (fold_left pretest_entry entries acc))).
Proof.
  induction 1 as [|entry entries He _ IH]; intros acc Hacc; [exact Hacc|].
  cbn [fold_left]. apply IH. apply pretest_entry_collected; assumption.
Qed.

Lemma numericStats_of_finite (vs : list num) :
  collected vs -> finite_numericStats (numericStats_of vs).
Proof.
  intros [Hne Hfin]. unfold finite_numericStats, numericStats_of.
  cbn [values ns_mean ns_median ns_standardDeviation ns_min ns_max].
  repeat split; try assumption.
  - apply mean_finite, Hfin.
  - apply median_finite, Hfin.
  - apply standardDeviation_finite, Hfin.
  - apply Math_min_finite; assumption.
  - apply Math_max_finite; assumption.
Qed.

Lemma pretestAnalysis_of_finite (responses : list Response) :
  finite_responses responses ->
  finite_pretestAnalysis (pretestAnalysis_of responses).
Proof.
  intros H. unfold finite_pretestAnalysis, pretestAnalysis_of.
  cbn [numericFields].
  set (start := {| acc_booleanFields := None; acc_numericFields := None |}).
  assert (Hacc : Forall (fun e => collected (snd e))
                        (or_empty (acc_numericFields
                           (fold_left
                              (fun acc response =>
                                 fold_left pretest_entry
                                           (response_fields response) acc)
                              responses start)))).
  { assert (Hstart : Forall (fun e : string * list num => collected (snd e))
                            (or_empty (acc_numericFields start)))
      by constructor.
    revert Hstart. generalize start.
    induction H as [|r responses Hr _ IH]; intros acc Hacc; [exact Hacc|].
    cbn [fold_left]. apply IH. apply pretest_fields_collected; assumption. }
  destruct (acc_numericFields _) as [fields|]; [|constructor].
  cbn [option_map or_empty] in *.
  induction Hacc as [|[field vs] fields Hvs _ IH]; [constructor|].
  cbn [map]. constructor; [|exact IH].
  cbn [snd] in *. apply numericStats_of_finite, Hvs.
Qed.

(** The running totals of a participant are finite. *)
Definition finite_stats (p : ParticipantStats) : Prop :=
  is_finite (ps_totalDuration p) /\ is_finite (ps_avgDuration p).

Lemma add_session_finite (d : num) (p : ParticipantStats) :
  is_finite d -> is_finite (ps_totalDuration p) ->
  finite_stats (add_session d p).
Proof.
  intros Hd Hp. unfold finite_stats, add_session.
  cbn [ps_totalDuration ps_avgDuration].
  split; [apply nadd_finite; assumption|].
  apply ndiv_finite; [apply nadd_finite; assumption|].
  apply not_0_INR. discriminate.
Qed.

Lemma participantData_finite (sessions : list Session) :
  finite_sessions sessions ->
  Forall (fun e => finite_stats (snd e)) (participantData sessions).
Proof.
  intros H. rewrite participantData_fold.
  assert (Hstart : Forall (fun e : string * ParticipantStats =>
                             finite_stats (snd e)) []) by constructor.
  revert Hstart. generalize (@nil (string * ParticipantStats)).
  induction H as [|s sessions Hs _ IH]; intros acc Hacc; [exact Hacc|].
  cbn [fold_left]. apply IH. unfold participant_step.
  destruct (participant_number s) as [p|]; [|exact Hacc].
  destruct (duration_minutes s) as [d|]; [|exact Hacc].
  destruct (_ && _)%bool; [|exact Hacc].
  apply upsert_Forall; [| |exact Hacc].
  - apply add_session_finite; [exact Hs | exact I].
  - intros v [Hv _]. apply add_session_finite; assumption.
Qed.

Lemma correlations_of_finite (sessions : list Session) :
  finite_sessions sessions -> finite_correlations (correlations_of sessions).
Proof.
  intros H. unfold finite_correlations, correlations_of.
  destruct (5 <? length sessions)%nat; [|exact I].
  cbn [coefficient]. apply correlation_finite.
  - apply Forall_forall. intros x Hx.
    apply in_map_iff in Hx as [[k p] [<- _]]. exact I.
  - pose proof (participantData_finite sessions H) as Hd.
    rewrite Forall_forall in *. intros x Hx.
    apply in_map_iff in Hx as [[k p] [<- Hin]].
    apply (Hd (k, p)), own_property_order_In, Hin.
Qed.

Lemma duration_or_0_finite (d : option num) :
  match d with Some d => is_finite d | None => True end ->
  is_finite (duration_or_0 d).
Proof.
  unfold duration_or_0. destruct d as [d|]; [|intros; exact I].
  intros H. destruct (truthy d); [exact H | exact I].
Qed.

Lemma usagePatterns_of_finite (tz : Z) (sessions : list Session) :
  finite_sessions sessions ->
  finite_usagePatterns (usagePatterns_of tz sessions).
Proof.
  intros H. unfold usagePatterns_of, finite_usagePatterns.
  set (start := {| hourlyDistribution := []; dailyDistribution := [];
                   participantEngagement := [] |}).
  assert (Hstart : Forall (fun e : string * Engagement =>
                             is_finite (eng_totalDuration (snd e)))
                          (participantEngagement start)) by constructor.
  revert Hstart. generalize start.
  induction H as [|s sessions Hs _ IH]; intros u Hu; [exact Hu|].
  cbn [fold_left]. apply IH. unfold usage_step.
  assert (Hu1 : Forall (fun e : string * Engagement =>
                          is_finite (eng_totalDuration (snd e)))
                       (participantEngagement
                          match created_at s with
                          | Some date =>
                              {| hourlyDistribution :=
                                   bump Z.eqb (getHours tz date)
                                        (hourlyDistribution u);
                                 dailyDistribution :=
                                   bump Z.eqb (getDay tz date)
                                        (dailyDistribution u);
                                 participantEngagement :=
                                   participantEngagement u |}
                          | None => u
                          end)).
  { destruct (created_at s); exact Hu. }
  destruct (participant_number s) as [p|]; [|exact Hu1].
  destruct (truthy_string (Some p)); [|exact Hu1].
  cbn [participantEngagement].
  apply (upsert_Forall String.eqb p _ _
           (fun e => is_finite (eng_totalDuration e))); [| |exact Hu1].
  - cbn [eng_totalDuration]. apply nadd_finite; [exact I|].
    apply duration_or_0_finite, Hs.
  - intros e He. cbn [eng_totalDuration]. apply nadd_finite; [exact He|].
    apply duration_or_0_finite, Hs.
Qed.

Lemma nmax2_one (a : R) :
  exists b, nmax2 (Fin a) (Fin 1) = Fin b /\ b <> 0.
Proof.
  simpl. destruct (Rlt_dec a 1).
  - exists 1. split; [reflexivity | lra].
  - exists a. split; [reflexivity | lra].
Qed.

Lemma ratio_finite (x : num) (a : R) :
  is_finite x -> is_finite (ndiv x (nmax2 (Fin a) (Fin 1))).
Proof.
  intros Hx. destruct (nmax2_one a) as [b [-> Hb]].
  apply ndiv_finite; assumption.
Qed.

Lemma raw_insights_finite (tf : num -> string) (sa : SessionAnalytics)
    (st : Trend) (pc : PeriodComparison) (c : option SessionsVsDuration)
    (app : list Session) (dateRange : DateRange) :
  finite_sessionAnalytics sa -> is_finite (slope st) ->
  finite_periodComparison pc -> finite_correlations c ->
  finite_insights (raw_insights tf sa st pc c app dateRange).
Proof.
  intros (Hm & _ & Hsd & _) Hslope ((_ & _ & Hsc) & (_ & _ & Hdc) & Hpc) Hc.
  assert (Hspp : is_finite
                   (ndiv (len app)
                         (nmax2 (of_nat (participantCount app)) (Fin 1)))).
  { apply ratio_finite. exact I. }
  assert (Hweek : is_finite (ndiv (len app) (Fin (43 / 10)))).
  { apply ndiv_finite; [exact I | lra]. }
  assert (Hmonth : is_finite (ndiv (len app) (Fin 3))).
  { apply ndiv_finite; [exact I | lra]. }
  unfold finite_insights, raw_insights. cbv zeta.
  repeat (apply Forall_app; split);
    repeat match goal with
           | |- Forall _ (if ?b then _ else _) => destruct b
           | |- Forall _ (match ?d with _ => _ end) => destruct d eqn:?
           | |- Forall _ (_ ++ _) => apply Forall_app; split
           | |- Forall _ [] => constructor
           | |- Forall _ [_] =>
               constructor; [cbn [metric]; try assumption | constructor]
           end.
  all: try (simpl in Hc; exact Hc).
Qed.

Lemma snapshot_of_finite (tz : Z) (sn tf : num -> string)
    (cur prev : list Session) (responses : list Response)
    (demo : list Demographic) (dateRange : DateRange) :
  finite_sessions cur -> finite_sessions prev -> finite_responses responses ->
  finite_snapshot (snapshot_of tz sn tf cur prev responses demo dateRange).
Proof.
  intros Hcur Hprev Hres.
  assert (Hsa : finite_sessionAnalytics
                  (sessionAnalytics_of (sessionDurations cur)
                                       (sessionDurations prev))).
  { apply sessionAnalytics_of_finite.
    - apply sessionDurations_finite, Hcur.
    - apply sessionDurations_finite, Hprev.
    - apply sessionDurations_positive. }
  pose proof (periodComparison_of_finite _ cur prev Hsa) as Hpc.
  pose proof (correlations_of_finite cur Hcur) as Hco.
  unfold finite_snapshot, snapshot_of. cbv zeta.
  cbn [sessionAnalytics sessionTrend periodComparison pretestAnalysis
       correlations usagePatterns insights summary].
  split; [exact Hsa|].
  split; [apply calculateTrend_finite|].
  split; [exact Hpc|].
  split; [apply pretestAnalysis_of_finite, Hres|].
  split; [exact Hco|].
  split; [apply usagePatterns_of_finite, Hcur|].
  split.
  - unfold generateInsights, finite_insights.
    eapply Permutation_Forall; [apply Permutation_sym, sort_insights_perm|].
    apply raw_insights_finite; try assumption.
    apply calculateTrend_finite.
  - unfold finite_summary.
    cbn [averageSessionDuration dataQuality sessionCompleteness responseRate
         comparisonMetrics sessionChange durationChange participantChange].
    destruct Hsa as (Hm & _).
    destruct Hpc as ((_ & _ & Hsc) & (_ & _ & Hdc) & Hp).
    split; [exact Hm|].
    split; [apply ratio_finite; exact I|].
    split; [apply ratio_finite; exact I|].
    split; [exact Hsc|]. split; [exact Hdc | exact Hp].
Qed.

(** Every duration of the input has moderate magnitude. *)
Definition moderate_sessions (sessions : list Session) : Prop :=
  Forall (fun s => match duration_minutes s with
                   | Some d => moderate_number d
                   | None => True
                   end)
         sessions.

(** Every number of a response has moderate magnitude. *)
Definition moderate_responses (responses : list Response) : Prop :=
  Forall (fun r =>
            Forall (fun entry => match snd entry with
                                 | JNum n => moderate_number n
                                 | _ => True
                                 end)
                   (response_fields r))
         responses.

Lemma moderate_sessions_finite (sessions : list Session) :
  moderate_sessions sessions -> finite_sessions sessions.
Proof.
  apply Forall_impl. intros s. destruct (duration_minutes s); [|trivial].
  apply moderate_finite.
Qed.

Lemma moderate_responses_finite (responses : list Response) :
  moderate_responses responses -> finite_responses responses.
Proof.
  apply Forall_impl. intros r. apply Forall_impl. intros [key value].
  cbn [snd]. destruct value; trivial. apply moderate_finite.
Qed.

(** Every duration of the input is a whole number of minutes. *)
Definition whole_sessions (sessions : list Session) : Prop :=
  Forall (fun s => match duration_minutes s with
                   | Some d => whole_number d
                   | None => True
                   end)
         sessions.

(** Every number of a response is a whole number. *)
Definition whole_responses (responses : list Response) : Prop :=
  Forall (fun r =>
            Forall (fun entry => match snd entry with
                                 | JNum n => whole_number n
                                 | _ => True
                                 end)
                   (response_fields r))
         responses.

Lemma whole_sessions_finite (sessions : list Session) :
  whole_sessions sessions -> finite_sessions sessions.
Proof.
  apply Forall_impl. intros s. destruct (duration_minutes s); [|trivial].
  apply whole_finite.
Qed.

Lemma whole_responses_finite (responses : list Response) :
  whole_responses responses -> finite_responses responses.
Proof.
  apply Forall_impl. intros r. apply Forall_impl. intros [key value].
  cbn [snd]. destruct value; trivial. apply whole_finite.
Qed.



Lemma moderate_IZR (z : Z) :
  (1 <= Z.abs z <= 2 ^ 20)%Z -> moderate_number (Fin (IZR z)).
Proof.
  intros [H1 H2]. exists (IZR z). split; [reflexivity|].
  rewrite <- abs_IZR.
  assert (Hlo : 1 <= IZR (Z.abs z)) by (apply (IZR_le 1); exact H1).
  assert (Hhi : IZR (Z.abs z) <= 2 ^ 20).
  { replace (2 ^ 20) with (IZR (2 ^ 20)) by (simpl; lra).
    apply IZR_le. exact H2. }
  assert (Hp : 2 ^ 20 <= 2 ^ 100) by (apply Rle_pow; [lra | lia]).
  assert (Hq : 1 <= 2 ^ 100) by (apply pow_R1_Rle; lra).
  split; [right | lra].
  apply Rle_trans with (/ 1); [|rewrite Rinv_1; exact Hlo].
  apply Rinv_le_contravar; [lra | exact Hq].
Qed.


(* ================================================================== *)
(** * Properties: the order of the time series *)
(* ================================================================== *)

(** A session of participant [p] at the instant [t]. *)
Definition session_at (p : string) (t : Z) : Session :=
  {| participant_number := Some p;
     duration_minutes := None;
     created_at := Some t |}.

(** One session on 2024-09-15 and one on 2024-10-15, at midnight UTC. *)
Definition september_october : list Session :=
  [session_at "A" 1726358400000; session_at "B" 1728950400000].

(** C3.  Under the range ['all'] (monthly grouping) the two sessions of
    [september_october] give two buckets, and the bucket of October
    stands before the bucket of September: the series is not in
    chronological order. *)
Theorem monthly_series_out_of_order (sn tf : num -> string)
    (clock : nat -> Z) :
  map (fun point => (period point, count point))
      (timeSeries
         (run (useAdvancedAnalytics 0%Z sn tf (Some september_october)
                 None None all)
              clock))
  = [(PeriodMonth "2024-10", 1%nat); (PeriodMonth "2024-9", 1%nat)].
Proof. rewrite run_useAdvancedAnalytics. reflexivity. Qed.

(* ================================================================== *)
(** * Properties: the cohorts *)
(* ================================================================== *)

(** The first session of participant [Pk], on the Sunday [k] weeks after
    2024-09-01. *)
Definition weekly_starter (k : Z) : Session :=
  session_at ("P" ++ string_of_Z k) (1725148800000 + k * 7 * msPerDay)%Z.

(** Twenty sessions: nine participants who start in nine successive
    weeks, and eleven more sessions of the first one. *)
Definition nine_cohorts : list Session :=
  map weekly_starter [0; 1; 2; 3; 4; 5; 6; 7; 8]%Z
  ++ repeat (weekly_starter 0) 11.

(** C5.  With nine weekly cohorts the chart keeps the eight oldest ones:
    the most recent cohort, of 2024-10-27, exists and gets no curve. *)
Theorem cohortData_keeps_oldest :
  length nine_cohorts = 20%nat
  /\ map fst (cohorts_of 0%Z nine_cohorts)
     = ["2024-09-01"; "2024-09-08"; "2024-09-15"; "2024-09-22";
        "2024-09-29"; "2024-10-06"; "2024-10-13"; "2024-10-20";
        "2024-10-27"]%string
  /\ option_map (map fst) (cohortData 0%Z (Some nine_cohorts))
     = Some ["2024-09-01"; "2024-09-08"; "2024-09-15"; "2024-09-22";
             "2024-09-29"; "2024-10-06"; "2024-10-13"; "2024-10-20"]%string.
Proof. repeat split; reflexivity. Qed.

(** What holds of the cohort curves: week 0 is 100, and a cohort none of
    whose participants is active in the weeks 1 to 4 after its start has
    the curve [100, 0, 0, 0, 0]. *)
Lemma retention_week_0 (tz : Z) (appUsageData : list Session)
    (cohortKey : string) :
  hd NaN (retention_of tz appUsageData cohortKey) = Fin 100
  /\ length (retention_of tz appUsageData cohortKey) = 5%nat.
Proof. split; reflexivity. Qed.

Lemma retention_without_activity (tz : Z) (appUsageData : list Session)
    (cohortKey : string) (participants : list string) :
  lookup String.eqb cohortKey (cohorts_of tz appUsageData) = Some participants ->
  participants <> [] ->
  (forall week p,
      In week [1; 2; 3; 4]%Z -> In p participants ->
      let cohortStartDate := parse_iso_date cohortKey in
      active_in_week appUsageData
        (setDate tz cohortStartDate (getDate tz cohortStartDate + week * 7))
        p = false) ->
  retention_of tz appUsageData cohortKey
  = [Fin 100; Fin 0; Fin 0; Fin 0; Fin 0].
Proof.
  intros Hl Hne Hidle. unfold retention_of. rewrite Hl. cbn [or_empty map].
  assert (Hweek : forall week,
             In week [1; 2; 3; 4]%Z ->
             retention_week tz appUsageData participants
               (parse_iso_date cohortKey) week = Fin 0).
  { intros week Hin. unfold retention_week.
    replace (filter _ participants) with (@nil string).
    - unfold len, of_nat. rewrite ndiv_Fin by (apply INR_length_nonzero, Hne).
      simpl. f_equal. unfold Rdiv. ring.
    - symmetry.
      assert (Hall : forall p, In p participants ->
                active_in_week appUsageData
                  (setDate tz (parse_iso_date cohortKey)
                     (getDate tz (parse_iso_date cohortKey) + week * 7))
                  p = false)
        by (intros p Hp; apply (Hidle week p Hin Hp)).
      clear Hl Hne Hidle.
      induction participants as [|p ps IH]; [reflexivity|].
      cbn [filter]. rewrite Hall by (left; reflexivity).
      apply IH. intros q Hq. apply Hall. right. exact Hq. }
  rewrite !Hweek by (simpl; tauto). reflexivity.
Qed.

(** The cohort of 2024-10-20 of [nine_cohorts] has one participant, whose
    only session is the first one. *)
Lemma retention_without_activity_example :
  retention_of 0%Z nine_cohorts "2024-10-20"
  = [Fin 100; Fin 0; Fin 0; Fin 0; Fin 0].
Proof.
  apply (retention_without_activity 0%Z nine_cohorts "2024-10-20" ["P7"%string]).
  - reflexivity.
  - discriminate.
  - intros week p Hw Hp. cbv zeta.
    destruct Hp as [<-|[]].
    destruct Hw as [<-|[<-|[<-|[<-|[]]]]]; vm_compute; reflexivity.
Qed.

(* ================================================================== *)
(** * Properties: what holds of the time series *)
(* ================================================================== *)

Lemma BucketKey_eqb_spec (a b : BucketKey) :
  BucketKey_eqb a b = true <-> a = b.
Proof.
  destruct a as [x|x], b as [y|y]; simpl; split; intros H;
    try discriminate; try congruence.
  - apply Z.eqb_eq in H. congruence.
  - apply Z.eqb_eq. congruence.
  - apply String.eqb_eq in H. congruence.
  - apply String.eqb_eq. congruence.
Qed.

Section UpsertKeys.
Context {K V : Type} (eqb : K -> K -> bool).
Hypothesis eqb_spec : forall a b, eqb a b = true <-> a = b.

Lemma upsert_keys_in (key : K) (init : V) (f : V -> V) (acc : list (K * V))
  (k : K) :
In k (map fst (upsert eqb key init f acc))
<-> k = key \/ In k (map fst acc).
Proof.
induction acc as [|[k0 v] acc IH]; simpl.
- intuition.
- destruct (eqb k0 key) eqn:E; simpl.
  + apply eqb_spec in E. subst k0. intuition.
  + rewrite IH. intuition.
Qed.

Lemma upsert_keys_NoDup (key : K) (init : V) (f : V -> V)
  (acc : list (K * V)) :
NoDup (map fst acc) -> NoDup (map fst (upsert eqb key init f acc)).
Proof.
induction acc as [|[k0 v] acc IH]; simpl; intros Hnd.
- constructor; [intros [] | constructor].
- inversion Hnd as [|? ? Hnotin Hnd']; subst.
  destruct (eqb k0 key) eqn:E; simpl.
  + constructor; assumption.
  + constructor; [|apply IH, Hnd'].
    rewrite upsert_keys_in. intros [->|Hin]; [|contradiction].
    assert (Ht : eqb key key = true) by (apply eqb_spec; reflexivity).
    congruence.
Qed.

Lemma lookup_bump_same (key : K) (acc : list (K * nat)) :
lookup eqb key (bump eqb key acc)
= Some (S (match lookup eqb key acc with Some n => n | None => 0%nat end)).
Proof.
unfold bump. induction acc as [|[k0 n] acc IH]; simpl.
- rewrite (proj2 (eqb_spec key key) eq_refl). reflexivity.
- destruct (eqb k0 key) eqn:E; simpl; rewrite E; [reflexivity | exact IH].
Qed.

Lemma lookup_bump_other (key k : K) (acc : list (K * nat)) :
k <> key -> lookup eqb k (bump eqb key acc) = lookup eqb k acc.
Proof.
intros Hne. unfold bump. induction acc as [|[k0 n] acc IH]; simpl.
- destruct (eqb key k) eqn:E; [|reflexivity].
  apply eqb_spec in E. congruence.
- destruct (eqb k0 key) eqn:E; simpl.
  + apply eqb_spec in E. subst k0.
    destruct (eqb key k) eqn:E'; [|reflexivity].
    apply eqb_spec in E'. congruence.
  + destruct (eqb k0 k); [reflexivity | exact IH].
Qed.
End UpsertKeys.

Lemma lookup_Forall {K V : Type} (eqb : K -> K -> bool) (P : V -> Prop)
    (key : K) (acc : list (K * V)) (v : V) :
  Forall (fun e => P (snd e)) acc -> lookup eqb key acc = Some v -> P v.
Proof.
  induction 1 as [|[k0 v0] acc Hv _ IH]; simpl; [discriminate|].
  destruct (eqb k0 key); [|exact IH].
  intros E. injection E as <-. exact Hv.
Qed.

(** The session falls into the bucket [key]. *)
Definition in_bucket (tz : Z) (grouping : Grouping) (key : BucketKey)
    (session : Session) : bool :=
  match created_at session with
  | Some date => BucketKey_eqb (bucket_key tz grouping date) key
  | None => false
  end.

(** One step of the [reduce] that builds [sessionsByPeriod]. *)
Definition bucket_step (tz : Z) (grouping : Grouping)
    (acc : list (BucketKey * nat)) (session : Session)
  : list (BucketKey * nat) :=
  match created_at session with
  | Some date => bump BucketKey_eqb (bucket_key tz grouping date) acc
  | None => acc
  end.

(** The count recorded for [key], 0 when there is no bucket. *)
Definition bucket_count (acc : list (BucketKey * nat)) (key : BucketKey)
  : nat :=
  match lookup BucketKey_eqb key acc with
  | Some n => n
  | None => 0
  end.

Lemma sessionsByPeriod_fold (tz : Z) (grouping : Grouping)
    (sessions : list Session) :
  sessionsByPeriod tz grouping sessions
  = fold_left (bucket_step tz grouping) sessions [].
Proof. reflexivity. Qed.

Lemma bucket_count_step (tz : Z) (grouping : Grouping)
    (acc : list (BucketKey * nat)) (s : Session) (key : BucketKey) :
  bucket_count (bucket_step tz grouping acc s) key
  = (bucket_count acc key
     + if in_bucket tz grouping key s then 1 else 0)%nat.
Proof.
  unfold bucket_step, in_bucket, bucket_count.
  destruct (created_at s) as [date|]; [|lia].
  destruct (BucketKey_eqb (bucket_key tz grouping date) key) eqn:E.
  - apply BucketKey_eqb_spec in E. subst key.
    rewrite (lookup_bump_same _ BucketKey_eqb_spec). lia.
  - rewrite (lookup_bump_other _ BucketKey_eqb_spec); [lia|].
    intros ->. rewrite (proj2 (BucketKey_eqb_spec _ _) eq_refl) in E.
    discriminate.
Qed.

Lemma bucket_fold_facts (tz : Z) (grouping : Grouping)
    (sessions : list Session) :
  forall acc,
    NoDup (map fst acc) -> Forall (fun e => snd e <> 0%nat) acc ->
    let acc' := fold_left (bucket_step tz grouping) sessions acc in
    NoDup (map fst acc') /\ Forall (fun e => snd e <> 0%nat) acc'
    /\ forall key,
        bucket_count acc' key
        = (bucket_count acc key
           + length (filter (in_bucket tz grouping key) sessions))%nat.
Proof.
  induction sessions as [|s sessions IH]; intros acc Hnd Hpos.
  - simpl. repeat split; try assumption. intros; lia.
  - cbn [fold_left].
    destruct (IH (bucket_step tz grouping acc s)) as (Hnd' & Hpos' & Hc).
    + unfold bucket_step. destruct (created_at s); [|exact Hnd].
      apply (upsert_keys_NoDup _ BucketKey_eqb_spec), Hnd.
    + unfold bucket_step. destruct (created_at s); [|exact Hpos].
      apply (upsert_Forall _ _ _ _ (fun n => n <> 0%nat));
        [discriminate | discriminate | exact Hpos].
    + repeat split; try assumption. intros key.
      rewrite Hc, bucket_count_step. cbn [filter].
      destruct (in_bucket tz grouping key s); simpl; lia.
Qed.

(** The buckets have distinct keys, and the count of a bucket is the
    number of sessions that fall into it; a key without session has no
    bucket. *)
Lemma sessionsByPeriod_buckets (tz : Z) (grouping : Grouping)
    (sessions : list Session) :
  NoDup (map fst (sessionsByPeriod tz grouping sessions))
  /\ forall key,
      lookup BucketKey_eqb key (sessionsByPeriod tz grouping sessions)
      = match length (filter (in_bucket tz grouping key) sessions) with
        | O => None
        | n => Some n
        end.
Proof.
  rewrite sessionsByPeriod_fold.
  destruct (bucket_fold_facts tz grouping sessions [] (NoDup_nil _)
              (Forall_nil _)) as (Hnd & Hpos & Hc).
  split; [exact Hnd|]. intros key. specialize (Hc key).
  unfold bucket_count in Hc. simpl in Hc.
  destruct (lookup BucketKey_eqb key _) as [n|] eqn:E.
  - pose proof (lookup_Forall _ (fun n => n <> 0%nat) _ _ _ Hpos E) as Hn.
    rewrite <- Hc. destruct n; [congruence | reflexivity].
  - rewrite <- Hc. reflexivity.
Qed.

(** The point carries a [Date] (daily and weekly grouping). *)
Definition is_date_point (p : TimePoint) : Prop :=
  match period p with
  | PeriodDate _ => True
  | PeriodMonth _ => False
  end.

(** The instant of a point that carries a [Date]. *)
Definition point_date (p : TimePoint) : Z :=
  match period p with
  | PeriodDate date => date
  | PeriodMonth _ => 0
  end.

Lemma StronglySorted_impl {A : Type} (R R' : A -> A -> Prop) (l : list A) :
  (forall a b, R a b -> R' a b) -> StronglySorted R l -> StronglySorted R' l.
Proof.
  intros H. induction 1 as [|x l _ IH Hx]; constructor; [exact IH|].
  eapply Forall_impl; [|exact Hx]. intros b. apply H.
Qed.

Lemma bucket_keys_origin (tz : Z) (grouping : Grouping)
    (sessions : list Session) :
  forall acc key,
    In key (map fst (fold_left (bucket_step tz grouping) sessions acc)) ->
    In key (map fst acc)
    \/ exists date, key = bucket_key tz grouping date.
Proof.
  induction sessions as [|s sessions IH]; intros acc key Hin.
  - left. exact Hin.
  - cbn [fold_left] in Hin. apply IH in Hin as [Hin|Hin]; [|right; exact Hin].
    unfold bucket_step in Hin. destruct (created_at s) as [date|].
    + unfold bump in Hin.
      apply (upsert_keys_in _ BucketKey_eqb_spec) in Hin as [->|Hin].
      * right. exists date. reflexivity.
      * left. exact Hin.
    + left. exact Hin.
Qed.

Lemma period_after_dates (grouping : Grouping) (a b : TimePoint) :
  grouping <> monthly -> is_date_point a -> is_date_point b ->
  period_after grouping a b = true
  <-> (- point_date a < - point_date b)%Z.
Proof.
  unfold is_date_point, point_date, period_after.
  intros Hg Ha Hb.
  destruct (period a) as [x|]; [|contradiction].
  destruct (period b) as [y|]; [|contradiction].
  destruct grouping; try congruence; rewrite Z.ltb_lt; lia.
Qed.

(** What holds of the time series: under daily and weekly grouping every
    point carries a [Date] and the points are in ascending order of these
    dates. *)
Lemma timeSeriesData_dates_sorted (tz : Z) (grouping : Grouping)
    (sessions : list Session) :
  grouping <> monthly ->
  Forall is_date_point (timeSeriesData tz grouping sessions)
  /\ StronglySorted (fun a b => (point_date a <= point_date b)%Z)
                    (timeSeriesData tz grouping sessions).
Proof.
  intros Hg. unfold timeSeriesData.
  set (points := map _ (sessionsByPeriod tz grouping sessions)).
  assert (Hpoints : Forall is_date_point points).
  { unfold points. apply Forall_forall. intros p Hp.
    apply in_map_iff in Hp as [[key n] [<- Hin]].
    assert (Hkey : In key (map fst (sessionsByPeriod tz grouping sessions))).
    { apply in_map_iff. exists (key, n). split; [reflexivity | exact Hin]. }
    rewrite sessionsByPeriod_fold in Hkey.
    apply bucket_keys_origin in Hkey as [[]|[date ->]].
    unfold is_date_point. destruct grouping; try congruence; exact I. }
  split; [apply js_sort_Forall, Hpoints|].
  eapply StronglySorted_impl;
    [|apply (js_sort_sorted (period_after grouping)
               (fun p => (- point_date p)%Z) is_date_point
               (fun a b => period_after_dates grouping a b Hg)
               points Hpoints)].
  unfold rank_ge. intros a b H. lia.
Qed.

(* ================================================================== *)
(** * Further properties: the sorted array of the kernel *)
(* ================================================================== *)

(** [sort_numbers] on reals. *)
Definition Rsort (rs : list R) : list R :=
  js_sort (fun a b => if Rlt_dec 0 (a + - b) then true else false) rs.

Lemma js_sort_map {A B : Type} (f : A -> B) (gt : A -> A -> bool)
    (gt' : B -> B -> bool) (l : list A) :
  (forall a b, gt' (f a) (f b) = gt a b) ->
  js_sort gt' (map f l) = map f (js_sort gt l).
Proof.
  intros H. induction l as [|x l IH]; [reflexivity|].
  cbn [map js_sort]. rewrite IH. clear IH.
  induction (js_sort gt l) as [|y s IHs]; [reflexivity|].
  cbn [map insert_sorted]. rewrite H.
  destruct (gt x y); cbn [map]; [rewrite IHs|]; reflexivity.
Qed.

Lemma sort_numbers_Fin (rs : list R) :
  sort_numbers (map Fin rs) = map Fin (Rsort rs).
Proof.
  unfold sort_numbers, Rsort. apply js_sort_map. intros a b. reflexivity.
Qed.

Lemma Rsort_perm (rs : list R) : Permutation (Rsort rs) rs.
Proof. apply js_sort_perm. Qed.

Lemma Rsort_length (rs : list R) : length (Rsort rs) = length rs.
Proof. apply js_sort_length. Qed.

Lemma Rsort_sorted (rs : list R) : StronglySorted Rle (Rsort rs).
Proof.
  unfold Rsort. induction rs as [|x rs IH]; [constructor|].
  cbn [js_sort].
  set (gt := fun a b : R => if Rlt_dec 0 (a + - b) then true else false) in *.
  induction IH as [|y s Hs IHs Hy]; cbn [insert_sorted].
  - constructor; constructor.
  - unfold gt at 1. destruct (Rlt_dec 0 (x + - y)) as [Hlt|Hge].
    + constructor; [exact IHs|].
      eapply Permutation_Forall;
        [apply Permutation_sym, insert_sorted_perm|].
      constructor; [lra | exact Hy].
    + constructor; [constructor; assumption|].
      constructor; [lra|].
      eapply Forall_impl; [|exact Hy]. simpl. intros; lra.
Qed.

Lemma sorted_nth_le (s : list R) (i j : nat) :
  StronglySorted Rle s -> (i <= j < length s)%nat ->
  nth i s 0 <= nth j s 0.
Proof.
  intros Hs. revert i j. induction Hs as [|x s Hs IH Hx]; intros i j Hij.
  - simpl in Hij. lia.
  - destruct i as [|i], j as [|j]; simpl in *; try lia.
    + lra.
    + rewrite Forall_forall in Hx. apply Hx. apply nth_In. lia.
    + apply IH. lia.
Qed.

Lemma at_index_Fin (ss : list R) (z : Z) :
  (0 <= z < Z.of_nat (length ss))%Z ->
  at_index (map Fin ss) (Fin (IZR z)) = Fin (nth (Z.to_nat z) ss 0).
Proof.
  intros Hz. unfold at_index. rewrite ZfloorZ.
  destruct (Req_dec_T (IZR z) (IZR z)) as [_|Hne]; [|congruence].
  destruct (Z_lt_dec z 0) as [Hneg|_]; [lia|].
  apply nth_map_Fin. lia.
Qed.

(** The value [percentile] interpolates at a real index of the sorted
    array. *)
Definition interpolate (ss : list R) (idx : R) : R :=
  let lo := Zfloor idx in
  let up := Zceil idx in
  if Z.eq_dec lo up then nth (Z.to_nat lo) ss 0
  else nth (Z.to_nat lo) ss 0 * (IZR up - idx)
       + nth (Z.to_nat up) ss 0 * (idx - IZR lo).

Lemma neqb_IZR (a b : Z) :
  neqb (Fin (IZR a)) (Fin (IZR b)) = if Z.eq_dec a b then true else false.
Proof.
  simpl. destruct (Req_dec_T (IZR a) (IZR b)) as [E|E], (Z.eq_dec a b);
    try reflexivity.
  - apply eq_IZR in E. contradiction.
  - subst. contradiction.
Qed.

Lemma index_bounds (n : nat) (p : R) :
  (0 < n)%nat -> 0 <= p <= 100 ->
  let idx := p / 100 * (INR n - 1) in
  0 <= idx <= INR n - 1
  /\ (0 <= Zfloor idx <= Zceil idx)%Z
  /\ (Zceil idx < Z.of_nat n)%Z.
Proof.
  intros Hn Hp idx.
  assert (Hn1 : 1 <= INR n) by (apply (le_INR 1); lia).
  assert (Hidx : 0 <= idx <= INR n - 1).
  { unfold idx. split; [apply Rmult_le_pos; lra|].
    assert (p / 100 <= 1) by lra. nra. }
  split; [exact Hidx|].
  assert (Hfloor : (0 <= Zfloor idx)%Z) by (apply Zfloor_lub; simpl; lra).
  assert (Hfc : (Zfloor idx <= Zceil idx)%Z).
  { apply le_IZR. pose proof (Zfloor_ceil_bound idx). lra. }
  assert (Hceil : (Zceil idx <= Z.of_nat n - 1)%Z).
  { rewrite <- (ZceilZ (Z.of_nat n - 1)). apply Zceil_le.
    rewrite minus_IZR, <- INR_IZR_INZ. lra. }
  lia.
Qed.

Lemma percentile_Fin (rs : list R) (p : R) :
  rs <> [] -> 0 <= p <= 100 ->
  percentile (map Fin rs) (Fin p)
  = Fin (interpolate (Rsort rs) (p / 100 * (INR (length rs) - 1))).
Proof.
  intros Hne Hp. unfold percentile.
  destruct rs as [|r rs]; [congruence|].
  change (map Fin (r :: rs)) with (Fin r :: map Fin rs) at 1. cbv iota.
  change (Fin r :: map Fin rs) with (map Fin (r :: rs)).
  rewrite sort_numbers_Fin. cbv zeta.
  unfold len, of_nat. rewrite length_map, Rsort_length.
  rewrite ndiv_Fin by lra. cbn [nsub nneg nadd nmul nfloor nceil].
  set (n := length (r :: rs)).
  change (INR n + - (1)) with (INR n - 1).
  set (idx := p / 100 * (INR n - 1)).
  destruct (index_bounds n p) as (Hidx & Hfc & Hceil);
    [unfold n; simpl; lia | exact Hp |]. fold idx in Hidx, Hfc, Hceil.
  rewrite neqb_IZR. unfold interpolate. fold idx.
  rewrite !at_index_Fin by (rewrite Rsort_length; fold n; lia).
  destruct (Z.eq_dec (Zfloor idx) (Zceil idx)); [reflexivity|].
  cbn [nmul nadd nneg]. f_equal.
Qed.

(** The median on reals. *)
Definition Rmedian (rs : list R) : R :=
  match rs with
  | [] => 0
  | _ =>
      let s := Rsort rs in
      let mid := (length s / 2)%nat in
      if Nat.odd (length s) then nth mid s 0
      else (nth (mid - 1) s 0 + nth mid s 0) / 2
  end.

Lemma median_Fin (rs : list R) : median (map Fin rs) = Fin (Rmedian rs).
Proof.
  destruct rs as [|r rs]; [reflexivity|].
  unfold median, Rmedian.
  change (map Fin (r :: rs)) with (Fin r :: map Fin rs) at 1. cbv iota.
  change (Fin r :: map Fin rs) with (map Fin (r :: rs)).
  rewrite sort_numbers_Fin. cbv zeta. rewrite length_map.
  assert (Hl : length (Rsort (r :: rs)) = S (length rs))
    by apply Rsort_length.
  assert (Hmid : (length (Rsort (r :: rs)) / 2 < length (Rsort (r :: rs)))%nat).
  { apply Nat.div_lt; lia. }
  destruct (Nat.odd (length (Rsort (r :: rs)))).
  - apply nth_map_Fin. exact Hmid.
  - rewrite !nth_map_Fin by lia. simpl. 
    destruct (Req_dec_T 2 0) as [E|_]; [lra | reflexivity].
Qed.

Lemma half_index_odd (k : nat) :
  50 / 100 * (INR (2 * k + 1) - 1) = IZR (Z.of_nat k).
Proof.
  rewrite plus_INR, mult_INR, <- INR_IZR_INZ. simpl. lra.
Qed.

Lemma half_index_even (k : nat) :
  50 / 100 * (INR (2 * k) - 1) = IZR (Z.of_nat k) - 1 / 2.
Proof.
  rewrite mult_INR, <- INR_IZR_INZ. simpl. lra.
Qed.

Lemma interpolate_half (rs : list R) :
  rs <> [] ->
  interpolate (Rsort rs) (50 / 100 * (INR (length rs) - 1)) = Rmedian rs.
Proof.
  intros Hne. unfold Rmedian. destruct rs as [|r rs]; [congruence|].
  cbv zeta. rewrite Rsort_length.
  set (n := length (r :: rs)). set (s := Rsort (r :: rs)).
  assert (Hn : (0 < n)%nat) by (unfold n; simpl; lia).
  destruct (Nat.Even_or_Odd n) as [[k Hk]|[k Hk]].
  - assert (Hodd : Nat.odd n = false).
    { rewrite <- Nat.negb_even. rewrite Hk, Nat.even_mul. reflexivity. }
    rewrite Hodd, Hk, half_index_even.
    assert (Hdiv : (2 * k / 2 = k)%nat) by (rewrite Nat.mul_comm; apply Nat.div_mul; lia).
    rewrite Hdiv. unfold interpolate.
    assert (Hfl : Zfloor (IZR (Z.of_nat k) - 1 / 2) = (Z.of_nat k - 1)%Z).
    { apply Zfloor_eq. rewrite minus_IZR. lra. }
    assert (Hce : Zceil (IZR (Z.of_nat k) - 1 / 2) = Z.of_nat k).
    { apply Zceil_eq. lra. }
    rewrite Hfl, Hce.
    destruct (Z.eq_dec (Z.of_nat k - 1) (Z.of_nat k)) as [E|_]; [lia|].
    replace (Z.to_nat (Z.of_nat k - 1)) with (k - 1)%nat by lia.
    rewrite Nat2Z.id, minus_IZR. lra.
  - assert (Hodd : Nat.odd n = true).
    { rewrite Hk, Nat.odd_add, Nat.odd_mul. reflexivity. }
    rewrite Hodd, Hk, half_index_odd.
    assert (Hdiv : ((2 * k + 1) / 2 = k)%nat).
    { rewrite Nat.mul_comm, Nat.div_add_l by lia. simpl. lia. }
    rewrite Hdiv. unfold interpolate. rewrite ZfloorZ, ZceilZ.
    destruct (Z.eq_dec (Z.of_nat k) (Z.of_nat k)) as [_|E]; [|congruence].
    rewrite Nat2Z.id. reflexivity.
Qed.

Lemma median_as_percentile (rs : list R) :
  median (map Fin rs) = percentile (map Fin rs) (Fin 50).
Proof.
  destruct rs as [|r rs]; [reflexivity|].
  rewrite percentile_Fin by (discriminate || lra).
  rewrite median_Fin, interpolate_half by discriminate. reflexivity.
Qed.

(** X1.  The 50th percentile of an array of numbers of moderate magnitude
    is its median.  (The weights of the interpolation are both 0.5: the
    percentile halves the two middle elements and adds, the median adds
    and halves, and on doubles the two agree as long as the sum does not
    overflow and the halves do not underflow.) *)
Theorem percentile_50_is_median (arr : list num) :
  Forall moderate_number arr -> percentile arr (Fin 50) = median arr.
Proof.
  intros H.
  destruct (finite_list_inv arr (Forall_moderate_finite arr H)) as [rs ->].
  symmetry. apply median_as_percentile.
Qed.

Lemma percentile_50_is_median_witness :
  percentile [Fin 4; Fin 1; Fin 3; Fin 2] (Fin 50)
  = median [Fin 4; Fin 1; Fin 3; Fin 2].
Proof.
  apply (percentile_50_is_median [Fin 4; Fin 1; Fin 3; Fin 2]).
  assert (M : forall z, (1 <= Z.abs z <= 2 ^ 20)%Z ->
                        moderate_number (Fin (IZR z)))
    by exact moderate_IZR.
  apply Forall_cons; [apply (M 4%Z); split; discriminate|].
  apply Forall_cons; [apply (M 1%Z); split; discriminate|].
  apply Forall_cons; [apply (M 3%Z); split; discriminate|].
  apply Forall_cons; [apply (M 2%Z); split; discriminate|].
  apply Forall_nil.
Defined.

(* ================================================================== *)
(** * Further properties: the order of the summary statistics *)
(* ================================================================== *)

(** Both numbers are finite and the first is at most the second. *)
Definition num_le (x y : num) : Prop :=
  match x, y with
  | Fin a, Fin b => a <= b
  | _, _ => False
  end.

Lemma fold_nmin2_spec (rs : list R) :
  forall a,
  exists m, fold_left nmin2 (map Fin rs) (Fin a) = Fin m
            /\ (m = a \/ In m rs) /\ m <= a /\ forall r, In r rs -> m <= r.
Proof.
  induction rs as [|x rs IH]; intros a.
  - exists a. simpl. repeat split; auto; try lra. intros r [].
  - cbn [map fold_left]. simpl nmin2.
    destruct (Rlt_dec x a) as [Hlt|Hge].
    + destruct (IH x) as (m & E & Hin & Hle & Hall). exists m.
      split; [exact E|]. split; [right; destruct Hin; [left; congruence | right; assumption]|].
      split; [lra|]. intros r [<-|Hr]; [exact Hle | apply Hall, Hr].
    + destruct (IH a) as (m & E & Hin & Hle & Hall). exists m.
      split; [exact E|]. split; [destruct Hin; [left | right; right]; assumption|].
      split; [exact Hle|]. intros r [<-|Hr]; [lra | apply Hall, Hr].
Qed.

Lemma fold_nmax2_spec (rs : list R) :
  forall a,
  exists m, fold_left nmax2 (map Fin rs) (Fin a) = Fin m
            /\ (m = a \/ In m rs) /\ a <= m /\ forall r, In r rs -> r <= m.
Proof.
  induction rs as [|x rs IH]; intros a.
  - exists a. simpl. repeat split; auto; try lra. intros r [].
  - cbn [map fold_left]. simpl nmax2.
    destruct (Rlt_dec a x) as [Hlt|Hge].
    + destruct (IH x) as (m & E & Hin & Hle & Hall). exists m.
      split; [exact E|]. split; [right; destruct Hin; [left; congruence | right; assumption]|].
      split; [lra|]. intros r [<-|Hr]; [exact Hle | apply Hall, Hr].
    + destruct (IH a) as (m & E & Hin & Hle & Hall). exists m.
      split; [exact E|]. split; [destruct Hin; [left | right; right]; assumption|].
      split; [exact Hle|]. intros r [<-|Hr]; [lra | apply Hall, Hr].
Qed.

(** [Math.min(...arr)] is the least element of a finite non-empty array
    and [Math.max(...arr)] the greatest. *)
Lemma Math_min_Fin (rs : list R) :
  rs <> [] ->
  exists m, Math_min (map Fin rs) = Fin m
            /\ In m rs /\ forall r, In r rs -> m <= r.
Proof.
  intros Hne. destruct rs as [|x rs]; [congruence|].
  unfold Math_min. cbn [map fold_left]. simpl nmin2.
  destruct (fold_nmin2_spec rs x) as (m & E & Hin & Hle & Hall).
  exists m. split; [exact E|].
  split; [destruct Hin; [left; congruence | right; assumption]|].
  intros r [<-|Hr]; [exact Hle | apply Hall, Hr].
Qed.

Lemma Math_max_Fin (rs : list R) :
  rs <> [] ->
  exists m, Math_max (map Fin rs) = Fin m
            /\ In m rs /\ forall r, In r rs -> r <= m.
Proof.
  intros Hne. destruct rs as [|x rs]; [congruence|].
  unfold Math_max. cbn [map fold_left]. simpl nmax2.
  destruct (fold_nmax2_spec rs x) as (m & E & Hin & Hle & Hall).
  exists m. split; [exact E|].
  split; [destruct Hin; [left; congruence | right; assumption]|].
  intros r [<-|Hr]; [exact Hle | apply Hall, Hr].
Qed.

Lemma floor_ceil_gap (idx : R) : (Zceil idx <= Zfloor idx + 1)%Z.
Proof.
  pose proof (Zfloor_bound idx) as Hf. pose proof (Zceil_bound idx) as Hc.
  assert (H : (Zceil idx - 1 < Zfloor idx + 1)%Z).
  { apply lt_IZR. rewrite minus_IZR, plus_IZR. lra. }
  lia.
Qed.

Lemma floor_lt_ceil_strict (idx : R) :
  Zfloor idx <> Zceil idx -> IZR (Zfloor idx) < idx < IZR (Zceil idx).
Proof.
  intros Hne.
  pose proof (Zfloor_ceil_bound idx) as [Hf Hc].
  split.
  - destruct Hf as [Hlt|Heq]; [exact Hlt|]. exfalso. apply Hne.
    rewrite <- Heq, ZfloorZ, ZceilZ. reflexivity.
  - destruct Hc as [Hlt|Heq]; [exact Hlt|]. exfalso. apply Hne.
    rewrite Heq, ZfloorZ, ZceilZ. reflexivity.
Qed.

Lemma interpolate_between (s : list R) (idx : R) :
  StronglySorted Rle s ->
  (0 <= Zfloor idx)%Z -> (Zceil idx < Z.of_nat (length s))%Z ->
  nth (Z.to_nat (Zfloor idx)) s 0 <= interpolate s idx
  <= nth (Z.to_nat (Zceil idx)) s 0.
Proof.
  intros Hs Hlo Hup. unfold interpolate.
  pose proof (floor_ceil_gap idx) as Hgap.
  destruct (Z.eq_dec (Zfloor idx) (Zceil idx)) as [E|Hne].
  - rewrite <- E. lra.
  - destruct (floor_lt_ceil_strict idx Hne) as [H1 H2].
    assert (Hle : (Zfloor idx < Zceil idx)%Z) by (apply lt_IZR; lra).
    assert (E : Zceil idx = (Zfloor idx + 1)%Z) by lia.
    assert (Hab : nth (Z.to_nat (Zfloor idx)) s 0
                  <= nth (Z.to_nat (Zceil idx)) s 0).
    { apply sorted_nth_le; [exact Hs | lia]. }
    rewrite E in *. rewrite plus_IZR in *.
    set (a := nth (Z.to_nat (Zfloor idx)) s 0) in *.
    set (b := nth (Z.to_nat (Zfloor idx + 1)) s 0) in *.
    set (f := IZR (Zfloor idx)) in *.
    split; nra.
Qed.

Lemma interpolate_monotone (s : list R) (i j : R) :
  StronglySorted Rle s ->
  (0 <= Zfloor i)%Z -> (Zceil j < Z.of_nat (length s))%Z -> i <= j ->
  interpolate s i <= interpolate s j.
Proof.
  intros Hs Hlo Hup Hij.
  assert (Hff : (Zfloor i <= Zfloor j)%Z) by (apply Zfloor_le, Hij).
  assert (Hcc : (Zceil i <= Zceil j)%Z) by (apply Zceil_le, Hij).
  assert (Hfci : (Zfloor i <= Zceil i)%Z).
  { apply le_IZR. pose proof (Zfloor_ceil_bound i). lra. }
  assert (Hfcj : (Zfloor j <= Zceil j)%Z).
  { apply le_IZR. pose proof (Zfloor_ceil_bound j). lra. }
  destruct (Z_le_gt_dec (Zceil i) (Zfloor j)) as [Hsep|Hsame].
  - destruct (interpolate_between s i Hs) as [_ H1]; [lia | lia |].
    destruct (interpolate_between s j Hs) as [H2 _]; [lia | lia |].
    assert (H3 : nth (Z.to_nat (Zceil i)) s 0 <= nth (Z.to_nat (Zfloor j)) s 0).
    { apply sorted_nth_le; [exact Hs | lia]. }
    lra.
  - pose proof (floor_ceil_gap i) as Hgi. pose proof (floor_ceil_gap j) as Hgj.
    assert (Ej : Zfloor j = Zfloor i) by lia.
    assert (Ei : Zceil i = (Zfloor i + 1)%Z) by lia.
    assert (Hni : Zfloor i <> Zceil i) by lia.
    destruct (floor_lt_ceil_strict i Hni) as [Hi1 Hi2].
    assert (Hnj : Zfloor j <> Zceil j).
    { intros E. pose proof (Zfloor_ceil_bound j) as [Hj1 Hj2].
      rewrite <- E, Ej in Hj2. lra. }
    assert (Ecj : Zceil j = (Zfloor i + 1)%Z) by lia.
    destruct (floor_lt_ceil_strict j Hnj) as [Hj1 Hj2].
    unfold interpolate. rewrite Ecj, Ej, Ei.
    destruct (Z.eq_dec (Zfloor i) (Zfloor i + 1)) as [E|_]; [lia|].
    assert (Hab : nth (Z.to_nat (Zfloor i)) s 0
                  <= nth (Z.to_nat (Zfloor i + 1)) s 0).
    { apply sorted_nth_le; [exact Hs | lia]. }
    set (a := nth (Z.to_nat (Zfloor i)) s 0) in *.
    set (b := nth (Z.to_nat (Zfloor i + 1)) s 0) in *.
    rewrite plus_IZR. nra.
Qed.

Lemma percentile_monotone (rs : list R) (p q : R) :
  rs <> [] -> 0 <= p -> p <= q -> q <= 100 ->
  num_le (percentile (map Fin rs) (Fin p)) (percentile (map Fin rs) (Fin q)).
Proof.
  intros Hne Hp Hpq Hq.
  rewrite !percentile_Fin by (assumption || lra). simpl.
  assert (Hn : (0 < length rs)%nat) by (destruct rs; [congruence | simpl; lia]).
  destruct (index_bounds (length rs) p Hn) as (Hi & Hfi & _); [lra|].
  destruct (index_bounds (length rs) q Hn) as (Hj & _ & Hcj); [lra|].
  apply interpolate_monotone.
  - apply Rsort_sorted.
  - lia.
  - rewrite Rsort_length. exact Hcj.
  - assert (0 <= INR (length rs) - 1) by lra.
    apply Rmult_le_compat_r; lra.
Qed.

Lemma percentile_within (rs : list R) (p : R) :
  rs <> [] -> 0 <= p <= 100 ->
  num_le (Math_min (map Fin rs)) (percentile (map Fin rs) (Fin p))
  /\ num_le (percentile (map Fin rs) (Fin p)) (Math_max (map Fin rs)).
Proof.
  intros Hne Hp.
  destruct (Math_min_Fin rs Hne) as (lo & -> & _ & Hlo).
  destruct (Math_max_Fin rs Hne) as (hi & -> & _ & Hhi).
  rewrite percentile_Fin by assumption. simpl.
  assert (Hn : (0 < length rs)%nat) by (destruct rs; [congruence | simpl; lia]).
  destruct (index_bounds (length rs) p Hn Hp) as (_ & Hf & Hc).
  destruct (interpolate_between (Rsort rs)
              (p / 100 * (INR (length rs) - 1)) (Rsort_sorted rs))
    as [H1 H2]; [lia | rewrite Rsort_length; exact Hc |].
  assert (Hin : forall k, (k < length rs)%nat -> In (nth k (Rsort rs) 0) rs).
  { intros k Hk. apply (Permutation_in _ (Rsort_perm rs)).
    apply nth_In. rewrite Rsort_length. exact Hk. }
  split.
  - eapply Rle_trans; [|exact H1]. apply Hlo, Hin. lia.
  - eapply Rle_trans; [exact H2|]. apply Hhi, Hin. lia.
Qed.

Lemma Rsum_bounds (rs : list R) (lo hi : R) :
  (forall r, In r rs -> lo <= r <= hi) ->
  INR (length rs) * lo <= Rsum rs <= INR (length rs) * hi.
Proof.
  induction rs as [|x rs IH]; intros H.
  - simpl. lra.
  - change (Rsum (x :: rs)) with (x + Rsum rs).
    change (length (x :: rs)) with (S (length rs)). rewrite S_INR.
    destruct (H x (or_introl eq_refl)).
    destruct IH; [intros; apply H; right; assumption|]. lra.
Qed.

Lemma mean_within (rs : list R) :
  rs <> [] ->
  num_le (Math_min (map Fin rs)) (mean (map Fin rs))
  /\ num_le (mean (map Fin rs)) (Math_max (map Fin rs)).
Proof.
  intros Hne.
  destruct (Math_min_Fin rs Hne) as (lo & -> & _ & Hlo).
  destruct (Math_max_Fin rs Hne) as (hi & -> & _ & Hhi).
  rewrite mean_Fin. simpl. unfold Rmean.
  destruct rs as [|x rs]; [congruence|].
  assert (Hn : 0 < INR (length (x :: rs))) by (apply lt_0_INR; simpl; lia).
  destruct (Rsum_bounds (x :: rs) lo hi) as [H1 H2].
  { intros r Hr. split; [apply Hlo | apply Hhi]; exact Hr. }
  set (n := INR (length (x :: rs))) in *. set (t := Rsum (x :: rs)) in *.
  split.
  - apply (Rmult_le_reg_r n); [exact Hn|]. unfold Rdiv.
    rewrite Rmult_assoc, Rinv_l by lra. lra.
  - apply (Rmult_le_reg_r n); [exact Hn|]. unfold Rdiv.
    rewrite Rmult_assoc, Rinv_l by lra. lra.
Qed.

(** The chain of inequalities between the statistics computed from a
    finite array of current durations. *)
Lemma sessionAnalytics_of_ordered (rs : list R) (prev : list num) :
  let sa := sessionAnalytics_of (map Fin rs) prev in
  num_le (sa_min sa) (p25 (percentiles sa))
  /\ num_le (p25 (percentiles sa)) (sa_median sa)
  /\ num_le (sa_median sa) (p75 (percentiles sa))
  /\ num_le (p75 (percentiles sa)) (p90 (percentiles sa))
  /\ num_le (p90 (percentiles sa)) (p95 (percentiles sa))
  /\ num_le (p95 (percentiles sa)) (sa_max sa)
  /\ num_le (sa_min sa) (sa_mean sa)
  /\ num_le (sa_mean sa) (sa_max sa).
Proof.
  cbv zeta.
  cbn [sessionAnalytics_of sa_min sa_max sa_mean sa_median percentiles
       p25 p75 p90 p95].
  destruct rs as [|r rs].
  - simpl. repeat split; lra.
  - change (map Fin (r :: rs)) with (Fin r :: map Fin rs) at 1 2. cbv iota.
    change (Fin r :: map Fin rs) with (map Fin (r :: rs)).
    assert (Hne : r :: rs <> []) by discriminate.
    rewrite (median_as_percentile (r :: rs)).
    repeat split;
      try (apply percentile_monotone; [exact Hne | lra | lra | lra]);
      try (apply percentile_within; [exact Hne | lra]);
      apply mean_within; exact Hne.
Qed.

Lemma sessionAnalytics_of_snapshot (tz : Z) (sn tf : num -> string)
    (app : option (list Session)) (pre : option (list Response))
    (demo : option (list Demographic)) (dateRange : DateRange)
    (clock : nat -> Z) :
  sessionAnalytics
    (run (useAdvancedAnalytics tz sn tf app pre demo dateRange) clock)
  = sessionAnalytics_of
      (sessionDurations (or_empty app))
      (sessionDurations
         (previous_sessions (clock 0%nat) dateRange (or_empty app))).
Proof. rewrite run_useAdvancedAnalytics. reflexivity. Qed.

(* ================================================================== *)
(** * Further properties: deviation and correlation *)
(* ================================================================== *)

Lemma Rmean_zero_inv (rs : list R) :
  Forall (fun r => 0 <= r) rs -> Rmean rs = 0 -> forall r, In r rs -> r = 0.
Proof.
  intros Hpos Hz. unfold Rmean in Hz. destruct rs as [|x rs]; [intros r []|].
  assert (Hn : INR (length (x :: rs)) <> 0)
    by (apply INR_length_nonzero; discriminate).
  assert (Hs : Rsum (x :: rs) = 0).
  { unfold Rdiv in Hz. apply Rmult_integral in Hz as [Hz|Hz]; [exact Hz|].
    exfalso. apply (Rinv_neq_0_compat _ Hn). exact Hz. }
  clear Hz Hn. revert Hs. generalize (x :: rs) Hpos. clear.
  induction 1 as [|y l Hy Hl IH]; intros Hs r Hr; [destruct Hr|].
  simpl in Hs. pose proof (Rsum_nonneg l Hl).
  destruct Hr as [<-|Hr]; [lra|]. apply IH; [lra | exact Hr].
Qed.

(** X3.  The standard deviation of an array of whole numbers is a
    non-negative finite number, and it is 0 exactly when all the elements
    are equal.  (The mean of a constant array of whole numbers is exact,
    so every deviation is 0; a constant array with an inexact mean, such
    as [0.1, 0.1, 0.1], has a tiny non-zero deviation on doubles.) *)
Theorem standardDeviation_zero_iff_constant (arr : list num) :
  Forall whole_number arr ->
  exists s, standardDeviation arr = Fin s /\ 0 <= s
            /\ (s = 0 <-> constant arr).
Proof.
  intros H.
  destruct (finite_list_inv arr (Forall_whole_finite arr H)) as [rs ->].
  rewrite standardDeviation_Fin.
  set (sq := map (fun r => (r - Rmean rs) * (r - Rmean rs)) rs).
  assert (Hsq : Forall (fun r => 0 <= r) sq).
  { apply Forall_forall. intros y Hy. apply in_map_iff in Hy as [z [<- _]].
    apply Rle_0_sqr. }
  exists (sqrt (Rmean sq)). split; [reflexivity|]. split; [apply sqrt_pos|].
  split.
  - intros Hz. apply sqrt_eq_0 in Hz; [|apply Rmean_nonneg, Hsq].
    intros a b Ha Hb.
    apply in_map_iff in Ha as [ra [<- Ha]].
    apply in_map_iff in Hb as [rb [<- Hb]].
    assert (Hall : forall r, In r rs -> r = Rmean rs).
    { intros r Hr.
      assert (E : (r - Rmean rs) * (r - Rmean rs) = 0).
      { apply (Rmean_zero_inv sq Hsq Hz). unfold sq.
        apply in_map_iff. exists r. split; [reflexivity | exact Hr]. }
      apply Rmult_integral in E. lra. }
    rewrite (Hall ra Ha), (Hall rb Hb). reflexivity.
  - intros Hc. pose proof (Rsq_dev_constant rs Hc) as Hz.
    unfold Rsq_dev in Hz. fold sq in Hz.
    assert (Hm : Rmean sq = 0).
    { unfold Rmean. destruct sq; [reflexivity|]. rewrite Hz. unfold Rdiv. ring. }
    rewrite Hm. apply sqrt_0.
Qed.

Lemma standardDeviation_zero_iff_constant_witness :
  exists s, standardDeviation [Fin 3; Fin 3] = Fin s /\ 0 <= s
            /\ (s = 0 <-> constant [Fin 3; Fin 3]).
Proof.
  apply (standardDeviation_zero_iff_constant [Fin 3; Fin 3]).
  assert (W : forall z, (Z.abs z <= 2 ^ 20)%Z -> whole_number (Fin (IZR z)))
    by exact whole_IZR.
  apply Forall_cons; [apply (W 3%Z); discriminate|].
  apply Forall_cons; [apply (W 3%Z); discriminate | apply Forall_nil].
Defined.

(** The Cauchy-Schwarz inequality on the deviations of paired elements. *)
Lemma cross_squared_le (mx my : R) (xs ys : list R) :
  length xs = length ys ->
  Rcross mx my xs ys * Rcross mx my xs ys
  <= Rsq_dev mx xs * Rsq_dev my ys.
Proof.
  revert ys. induction xs as [|x xs IH]; intros ys Hlen.
  - destruct ys; [|discriminate]. unfold Rcross, Rsq_dev. simpl. lra.
  - destruct ys as [|y ys]; [discriminate|]. injection Hlen as Hlen.
    specialize (IH ys Hlen).
    pose proof (Rsq_dev_nonneg mx xs) as HA.
    pose proof (Rsq_dev_nonneg my ys) as HB.
    unfold Rcross, Rsq_dev in *. simpl.
    set (C := Rsum (map (fun p => (fst p - mx) * (snd p - my))
                        (combine xs ys))) in *.
    set (A := Rsum (map (fun r => (r - mx) * (r - mx)) xs)) in *.
    set (B := Rsum (map (fun r => (r - my) * (r - my)) ys)) in *.
    set (a := x - mx). set (b := y - my).
    (* 2 C a b <= A b^2 + B a^2 *)
    assert (Hmix : 2 * (C * (a * b)) <= A * (b * b) + B * (a * a)).
    { set (X := A * (b * b)). set (Y := B * (a * a)).
      assert (HX : 0 <= X) by (apply Rmult_le_pos; [exact HA | apply Rle_0_sqr]).
      assert (HY : 0 <= Y) by (apply Rmult_le_pos; [exact HB | apply Rle_0_sqr]).
      set (Z := C * (a * b)).
      assert (HZ : Z * Z <= X * Y).
      { unfold Z, X, Y.
        replace (C * (a * b) * (C * (a * b)))
          with ((C * C) * ((a * a) * (b * b))) by ring.
        replace (A * (b * b) * (B * (a * a)))
          with ((A * B) * ((a * a) * (b * b))) by ring.
        apply Rmult_le_compat_r; [|exact IH].
        apply Rmult_le_pos; apply Rle_0_sqr. }
      destruct (Rle_lt_dec (2 * Z) (X + Y)) as [Hok|Hbad]; [exact Hok|].
      exfalso.
      assert (H4 : (X + Y) * (X + Y) < (2 * Z) * (2 * Z)) by nra.
      assert (H5 : 4 * (X * Y) <= (X + Y) * (X + Y)).
      { assert (0 <= (X - Y) * (X - Y)) by apply Rle_0_sqr. nra. }
      nra. }
    nra.
Qed.

Lemma Rcross_sym (mx my : R) (xs ys : list R) :
  Rcross mx my xs ys = Rcross my mx ys xs.
Proof.
  unfold Rcross. revert ys. induction xs as [|x xs IH]; intros ys.
  - destruct ys; reflexivity.
  - destruct ys as [|y ys]; [reflexivity|]. simpl. rewrite IH. ring.
Qed.

Lemma Rcorrelation_sym (xs ys : list R) :
  Rcorrelation xs ys = Rcorrelation ys xs.
Proof.
  unfold Rcorrelation.
  rewrite (Rmult_comm (Rsq_dev (Rmean xs) xs)), (Rcross_sym (Rmean xs)).
  reflexivity.
Qed.

Lemma Rcorrelation_bounds (xs ys : list R) :
  length xs = length ys -> -1 <= Rcorrelation xs ys <= 1.
Proof.
  intros Hlen. unfold Rcorrelation.
  set (A := Rsq_dev (Rmean xs) xs). set (B := Rsq_dev (Rmean ys) ys).
  set (C := Rcross (Rmean xs) (Rmean ys) xs ys).
  destruct (Req_dec_T (sqrt (A * B)) 0) as [_|Hd]; [lra|].
  pose proof (cross_squared_le (Rmean xs) (Rmean ys) xs ys Hlen) as Hcs.
  fold A B C in Hcs.
  assert (HAB : 0 <= A * B).
  { apply Rmult_le_pos; apply Rsq_dev_nonneg. }
  assert (Hdpos : 0 < sqrt (A * B)).
  { pose proof (sqrt_pos (A * B)). lra. }
  assert (Habs : Rabs C <= sqrt (A * B)).
  { rewrite <- sqrt_Rsqr_abs. apply sqrt_le_1.
    - apply Rle_0_sqr.
    - exact HAB.
    - unfold Rsqr. exact Hcs. }
  assert (Hc : - sqrt (A * B) <= C <= sqrt (A * B)).
  { unfold Rabs in Habs. destruct (Rcase_abs C); lra. }
  split.
  - apply (Rmult_le_reg_r (sqrt (A * B))); [exact Hdpos|].
    unfold Rdiv. rewrite Rmult_assoc, Rinv_l by exact Hd. lra.
  - apply (Rmult_le_reg_r (sqrt (A * B))); [exact Hdpos|].
    unfold Rdiv. rewrite Rmult_assoc, Rinv_l by exact Hd. lra.
Qed.

(** X4.  The correlation coefficient of finite vectors does not depend on
    the order of its two arguments.  (Exchanging the vectors exchanges
    the factors of every product and nothing else, so the two results
    agree on doubles as well; that the coefficient lies between -1 and 1
    holds in exact arithmetic only.) *)
Theorem correlation_symmetric (x y : list num) :
  Forall is_finite x -> Forall is_finite y ->
  correlation x y = correlation y x.
Proof.
  intros Hx Hy.
  destruct (finite_list_inv x Hx) as [xs ->].
  destruct (finite_list_inv y Hy) as [ys ->].
  destruct (Nat.eq_dec (length xs) (length ys)) as [Hlen|Hlen].
  - destruct xs as [|x0 xs].
    + destruct ys; [|discriminate]. reflexivity.
    + assert (Hys : ys <> []) by (intros ->; discriminate).
      rewrite correlation_Fin by (discriminate || assumption).
      rewrite (correlation_Fin ys (x0 :: xs)) by (assumption || congruence).
      f_equal. apply Rcorrelation_sym.
  - assert (E : forall a b : list R,
               length a <> length b ->
               correlation (map Fin a) (map Fin b) = Fin 0).
    { intros a b Hab. unfold correlation. rewrite !length_map.
      apply Nat.eqb_neq in Hab. rewrite Hab, orb_true_r. reflexivity. }
    rewrite (E xs ys Hlen), (E ys xs) by congruence. reflexivity.
Qed.

Lemma correlation_symmetric_witness :
  correlation [Fin 1; Fin 2; Fin 4] [Fin 3; Fin 1; Fin 2]
  = correlation [Fin 3; Fin 1; Fin 2] [Fin 1; Fin 2; Fin 4].
Proof.
  apply (correlation_symmetric [Fin 1; Fin 2; Fin 4] [Fin 3; Fin 1; Fin 2]);
    repeat (apply Forall_cons; [exact I|]); apply Forall_nil.
Defined.

(* ================================================================== *)
(** * Further properties: the trend of a linear series *)
(* ================================================================== *)

Lemma Rsum_map_linear {A : Type} (f g : A -> R) (a b : R) (l : list A) :
  Rsum (map (fun x => a * f x + b * g x) l)
  = a * Rsum (map f l) + b * Rsum (map g l).
Proof. induction l as [|x l IH]; simpl; [lra | rewrite IH; lra]. Qed.

Lemma Rsum_map_const {A : Type} (l : list A) :
  Rsum (map (fun _ => 1) l) = INR (length l).
Proof.
  induction l as [|x l IH]; [reflexivity|].
  change (length (x :: l)) with (S (length l)). rewrite S_INR.
  simpl. rewrite IH. lra.
Qed.

Lemma combine_seq_in {A : Type} (d : A) (l : list A) (k i : nat) (x : A) :
  In (i, x) (combine (seq k (length l)) l) ->
  (k <= i < k + length l)%nat /\ x = nth (i - k) l d.
Proof.
  revert k. induction l as [|y l IH]; intros k Hin; [destruct Hin|].
  simpl in Hin. destruct Hin as [E|Hin].
  - injection E as <- <-. split; [simpl; lia|]. rewrite Nat.sub_diag. reflexivity.
  - apply IH in Hin as [Hr ->]. split; [simpl; lia|].
    replace (i - k)%nat with (S (i - S k)) by lia. reflexivity.
Qed.

Lemma map_snd_combine_seq {A : Type} (l : list A) (k : nat) :
  map snd (combine (seq k (length l)) l) = l.
Proof.
  revert k. induction l as [|x l IH]; intros k; [reflexivity|].
  simpl. f_equal. apply IH.
Qed.

(** The count of the point at position [i] is [a + b * i]. *)
Definition linear_counts (a b : R) (data : list TimePoint) : Prop :=
  forall i, (i < length data)%nat ->
    INR (count (nth i data {| period := PeriodDate 0; count := 0;
                              point_grouping := daily |}))
    = a + b * INR i.

Lemma linear_sums (a b : R) (data : list TimePoint) :
  linear_counts a b data ->
  Rsum (map (fun item => INR (count item)) data)
  = a * INR (length data) + b * Rsum (map INR (seq 0 (length data)))
  /\ Rsum (map (fun p : nat * TimePoint => INR (fst p) * INR (count (snd p)))
               (combine (seq 0 (length data)) data))
     = a * Rsum (map INR (seq 0 (length data)))
       + b * Rsum (map (fun i => INR i * INR i) (seq 0 (length data))).
Proof.
  intros Hlin.
  set (d := {| period := PeriodDate 0; count := 0; point_grouping := daily |}).
  assert (Hpair : forall p, In p (combine (seq 0 (length data)) data) ->
                            INR (count (snd p)) = a + b * INR (fst p)).
  { intros [i x] Hin. apply (combine_seq_in d) in Hin as [Hr ->].
    cbn [fst snd]. rewrite Nat.sub_0_r. apply Hlin. lia. }
  pose proof (map_snd_combine_seq data 0) as Hsnd.
  split.
  - rewrite <- Hsnd at 1. rewrite map_map.
    rewrite (map_ext_in _ (fun p : nat * TimePoint =>
                             a * 1 + b * INR (fst p))).
    + rewrite (Rsum_map_linear (fun _ => 1) (fun p => INR (fst p))).
      rewrite Rsum_map_const, length_combine, length_seq, Nat.min_id.
      rewrite (map_fst_combine_seq INR data 0). reflexivity.
    + intros p Hp. rewrite (Hpair p Hp). lra.
  - rewrite (map_ext_in _ (fun p : nat * TimePoint =>
                             a * INR (fst p)
                             + b * (INR (fst p) * INR (fst p)))).
    + rewrite (Rsum_map_linear (fun p => INR (fst p))
                               (fun p => INR (fst p) * INR (fst p))).
      rewrite (map_fst_combine_seq INR data 0).
      rewrite (map_fst_combine_seq (fun i => INR i * INR i) data 0).
      reflexivity.
    + intros p Hp. rewrite (Hpair p Hp). lra.
Qed.

(** X5.  On a series of at least two points whose counts grow linearly,
    [count = a + b * index], the trend has exactly the slope [b]; its
    direction is [increasing] above 0.1, [decreasing] below -0.1 and
    [stable] in between, so a flat series is stable. *)
Theorem calculateTrend_linear (a b : R) (data : list TimePoint) :
  (2 <= length data)%nat -> linear_counts a b data ->
  slope (calculateTrend data) = Fin b
  /\ direction (calculateTrend data)
     = if Rlt_dec (1 / 10) b then increasing
       else if Rlt_dec b (- (1 / 10)) then decreasing
       else stable.
Proof.
  intros Hn Hlin.
  assert (Hslope : slope (calculateTrend data) = Fin b).
  { unfold calculateTrend.
    destruct (length data <? 2)%nat eqn:E; [apply Nat.ltb_lt in E; lia|].
    cbv zeta. cbn [slope]. unfold indexed, len.
    rewrite (fold_nadd_Fin_indexed (fun i _ => of_nat i)
                                   (fun p => INR (fst p))) by reflexivity.
    rewrite (fold_nadd_Fin_indexed
               (fun i item => nmul (of_nat i) (of_nat (count item)))
               (fun p => INR (fst p) * INR (count (snd p)))) by reflexivity.
    rewrite (fold_nadd_Fin_indexed
               (fun i _ => nmul (of_nat i) (of_nat i))
               (fun p => INR (fst p) * INR (fst p))) by reflexivity.
    rewrite (fold_nadd_Fin (fun item => of_nat (count item))
                           (fun item => INR (count item))) by reflexivity.
    destruct (linear_sums a b data Hlin) as [HY HXY]. rewrite HY, HXY.
    rewrite (map_fst_combine_seq INR data 0).
    rewrite (map_fst_combine_seq (fun i => INR i * INR i) data 0).
    rewrite sum_of_indices, sum_of_squared_indices.
    unfold of_nat. cbn [nmul nsub nneg nadd].
    pose proof (slope_denominator_pos (length data) Hn) as Hpos.
    set (n := INR (length data)) in *.
    rewrite ndiv_Fin by lra. f_equal. field. lra. }
  split; [exact Hslope|].
  unfold calculateTrend in *.
  destruct (length data <? 2)%nat eqn:E; [apply Nat.ltb_lt in E; lia|].
  cbv zeta in *. cbn [slope direction] in *. rewrite Hslope.
  unfold ngt. simpl.
  destruct (Rlt_dec (1 / 10) b); [reflexivity|].
  destruct (Rlt_dec b (- (1 / 10))); reflexivity.
Qed.

(** Three points with the counts 2, 5, 8. *)
Lemma calculateTrend_linear_witness :
  let point := fun n => {| period := PeriodDate 0; count := n;
                           point_grouping := daily |} in
  slope (calculateTrend [point 2%nat; point 5%nat; point 8%nat]) = Fin 3.
Proof.
  intros point.
  apply (calculateTrend_linear 2 3 [point 2%nat; point 5%nat; point 8%nat]).
  - simpl. lia.
  - intros i Hi. simpl in Hi.
    destruct i as [|[|[|i]]]; simpl; try lia; lra.
Defined.

(* ================================================================== *)
(** * Further properties: the time series of a snapshot *)
(* ================================================================== *)

(** The grouping the hook chooses for a range label. *)
Definition range_grouping (dateRange : DateRange) : Grouping :=
  getTimeSeriesGrouping
    (match periodDays dateRange with DaysAll => 365 | DaysN n => n end)%Z.

Definition Period_eqb (a b : Period) : bool :=
  match a, b with
  | PeriodDate x, PeriodDate y => (x =? y)%Z
  | PeriodMonth x, PeriodMonth y => String.eqb x y
  | _, _ => false
  end.

(** The session has a timestamp and falls into the bucket whose point
    carries the period [p]. *)
Definition in_period (tz : Z) (grouping : Grouping) (p : Period)
    (session : Session) : bool :=
  match created_at session with
  | Some date =>
      Period_eqb (period_of_key tz (bucket_key tz grouping date)) p
  | None => false
  end.

Definition has_timestamp (session : Session) : bool :=
  match created_at session with Some _ => true | None => false end.

Lemma Period_eqb_spec (a b : Period) : Period_eqb a b = true <-> a = b.
Proof.
  destruct a as [x|x], b as [y|y]; simpl; split; intros H;
    try discriminate; try congruence.
  - apply Z.eqb_eq in H. congruence.
  - apply Z.eqb_eq. congruence.
  - apply String.eqb_eq in H. congruence.
  - apply String.eqb_eq. congruence.
Qed.

Lemma period_of_key_injective (tz : Z) (k1 k2 : BucketKey) :
  period_of_key tz k1 = period_of_key tz k2 -> k1 = k2.
Proof.
  destruct k1 as [d1|s1], k2 as [d2|s2]; simpl; intros H;
    try discriminate; [|congruence].
  injection H as H. unfold local_midnight, msPerDay in H.
  f_equal. lia.
Qed.

Lemma in_period_bucket (tz : Z) (grouping : Grouping) (key : BucketKey)
    (s : Session) :
  in_period tz grouping (period_of_key tz key) s = in_bucket tz grouping key s.
Proof.
  unfold in_period, in_bucket. destruct (created_at s) as [date|]; [|reflexivity].
  destruct (BucketKey_eqb (bucket_key tz grouping date) key) eqn:E.
  - apply BucketKey_eqb_spec in E. rewrite E.
    apply Period_eqb_spec. reflexivity.
  - destruct (Period_eqb _ _) eqn:E'; [|reflexivity].
    apply Period_eqb_spec, period_of_key_injective in E'.
    rewrite E' in E.
    rewrite (proj2 (BucketKey_eqb_spec key key) eq_refl) in E. discriminate.
Qed.

Lemma NoDup_map_injective {A B : Type} (f : A -> B) (l : list A) :
  (forall a b, f a = f b -> a = b) -> NoDup l -> NoDup (map f l).
Proof.
  intros Hinj. induction 1 as [|x l Hx _ IH]; simpl; constructor; [|exact IH].
  intros Hin. apply in_map_iff in Hin as [y [E Hy]].
  apply Hinj in E. subst y. contradiction.
Qed.

Lemma lookup_of_In {K V : Type} (eqb : K -> K -> bool) (k : K) (v : V)
    (acc : list (K * V)) :
  (forall a b, eqb a b = true <-> a = b) ->
  NoDup (map fst acc) -> In (k, v) acc -> lookup eqb k acc = Some v.
Proof.
  intros Hspec. induction acc as [|[k0 v0] acc IH]; intros Hnd Hin;
    [destruct Hin|].
  simpl in *. inversion Hnd as [|? ? Hnotin Hnd']; subst.
  destruct Hin as [E|Hin].
  - injection E as -> ->. rewrite (proj2 (Hspec k k) eq_refl). reflexivity.
  - destruct (eqb k0 k) eqn:E.
    + apply Hspec in E. subst k0. exfalso. apply Hnotin.
      apply in_map_iff. exists (k, v). split; [reflexivity | exact Hin].
    + apply IH; assumption.
Qed.

(** Sum of the counts of a series. *)
Definition total_count (points : list TimePoint) : nat :=
  list_sum (map count points).

Lemma list_sum_perm (l l' : list nat) :
  Permutation l l' -> list_sum l = list_sum l'.
Proof. induction 1; simpl; lia. Qed.

Lemma bump_total {K : Type} (eqb : K -> K -> bool) (key : K)
    (acc : list (K * nat)) :
  list_sum (map snd (bump eqb key acc)) = S (list_sum (map snd acc)).
Proof.
  unfold bump. induction acc as [|[k n] acc IH]; simpl; [reflexivity|].
  destruct (eqb k key); simpl; [lia | rewrite IH; lia].
Qed.

Lemma buckets_total (tz : Z) (grouping : Grouping) (sessions : list Session) :
  forall acc,
    list_sum (map snd (fold_left (bucket_step tz grouping) sessions acc))
    = (list_sum (map snd acc) + length (filter has_timestamp sessions))%nat.
Proof.
  induction sessions as [|s sessions IH]; intros acc; simpl; [lia|].
  rewrite IH. unfold bucket_step, has_timestamp.
  destruct (created_at s); simpl; [rewrite bump_total|]; lia.
Qed.

Lemma timeSeries_of_snapshot (tz : Z) (sn tf : num -> string)
    (app : option (list Session)) (pre : option (list Response))
    (demo : option (list Demographic)) (dateRange : DateRange)
    (clock : nat -> Z) :
  timeSeries (run (useAdvancedAnalytics tz sn tf app pre demo dateRange) clock)
  = timeSeriesData tz (range_grouping dateRange) (or_empty app).
Proof. rewrite run_useAdvancedAnalytics. reflexivity. Qed.

Lemma timeSeriesData_periods_NoDup (tz : Z) (grouping : Grouping)
    (sessions : list Session) :
  NoDup (map period (timeSeriesData tz grouping sessions)).
Proof.
  unfold timeSeriesData.
  eapply Permutation_NoDup;
    [apply Permutation_map, Permutation_sym, js_sort_perm|].
  rewrite map_map.
  rewrite (map_ext _ (fun e => period_of_key tz (fst e)))
    by (intros [k n]; reflexivity).
  rewrite <- map_map. apply NoDup_map_injective.
  - apply period_of_key_injective.
  - apply sessionsByPeriod_buckets.
Qed.

(** X6.  In every snapshot the time series has one point per populated
    bucket: the periods of its points are distinct, the count of a point
    is the (non-zero) number of sessions that fall into its bucket, and
    the counts add up to the number of sessions that have a timestamp. *)
Theorem timeSeries_counts (tz : Z) (sn tf : num -> string)
    (app : option (list Session)) (pre : option (list Response))
    (demo : option (list Demographic)) (dateRange : DateRange)
    (clock : nat -> Z) :
  let s := run (useAdvancedAnalytics tz sn tf app pre demo dateRange) clock in
  let grouping := range_grouping dateRange in
  NoDup (map period (timeSeries s))
  /\ (forall point,
        In point (timeSeries s) ->
        point_grouping point = grouping
        /\ count point <> 0%nat
        /\ count point
           = length (filter (in_period tz grouping (period point))
                            (or_empty app)))
  /\ total_count (timeSeries s)
     = length (filter has_timestamp (or_empty app)).
Proof.
  intros s grouping. unfold s. rewrite timeSeries_of_snapshot. fold grouping.
  set (sessions := or_empty app).
  split; [apply timeSeriesData_periods_NoDup|].
  unfold timeSeriesData.
  set (mk := fun '(key, n) => {| period := period_of_key tz key; count := n;
                                 point_grouping := grouping |}).
  set (buckets := sessionsByPeriod tz grouping sessions).
  destruct (sessionsByPeriod_buckets tz grouping sessions) as [Hnd Hlk].
  fold buckets in Hnd, Hlk.
  assert (Hperm : Permutation (js_sort (period_after grouping) (map mk buckets))
                              (map mk buckets)) by apply js_sort_perm.
  split.
  - intros point Hin. apply (Permutation_in _ Hperm) in Hin.
    apply in_map_iff in Hin as [[key n] [<- Hin]]. cbn [mk point_grouping count period].
    split; [reflexivity|].
    pose proof (lookup_of_In BucketKey_eqb key n buckets BucketKey_eqb_spec
                  Hnd Hin) as E.
    rewrite Hlk in E.
    rewrite (filter_ext _ _ (in_period_bucket tz grouping key)).
    destruct (length (filter (in_bucket tz grouping key) sessions)) as [|m];
      [discriminate|].
    injection E as <-. split; [discriminate | reflexivity].
  - unfold total_count.
    rewrite (list_sum_perm _ _ (Permutation_map count Hperm)).
    rewrite map_map.
    rewrite (map_ext _ snd) by (intros [k n]; reflexivity).
    unfold buckets. rewrite sessionsByPeriod_fold, buckets_total. reflexivity.
Qed.

Lemma strictly_sorted_dates (points : list TimePoint) :
  Forall is_date_point points -> NoDup (map period points) ->
  StronglySorted (fun a b => (point_date a <= point_date b)%Z) points ->
  StronglySorted (fun a b => (point_date a < point_date b)%Z) points.
Proof.
  intros Hd Hnd Hs. induction Hs as [|x l Hs IH Hx]; [constructor|].
  inversion Hd as [|? ? Hdx Hdl]; subst.
  cbn [map] in Hnd. inversion Hnd as [|? ? Hnotin Hnd']; subst.
  constructor; [apply IH; assumption|].
  rewrite Forall_forall in *. intros y Hy.
  specialize (Hx y Hy). specialize (Hdl y Hy).
  assert (Hne : period x <> period y).
  { intros E. apply Hnotin. rewrite E. apply in_map. exact Hy. }
  unfold is_date_point, point_date in *.
  destruct (period x) as [dx|]; [|contradiction].
  destruct (period y) as [dy|]; [|contradiction].
  assert (dx <> dy) by congruence. lia.
Qed.

(** X7.  For every range label other than ['all'] the points of the time
    series carry dates and stand in strictly ascending order of date. *)
Theorem timeSeries_ascending (tz : Z) (sn tf : num -> string)
    (app : option (list Session)) (pre : option (list Response))
    (demo : option (list Demographic)) (dateRange : DateRange)
    (clock : nat -> Z) :
  dateRange <> all ->
  let s := run (useAdvancedAnalytics tz sn tf app pre demo dateRange) clock in
  Forall is_date_point (timeSeries s)
  /\ StronglySorted (fun a b => (point_date a < point_date b)%Z)
                    (timeSeries s).
Proof.
  intros Hall s. unfold s. rewrite timeSeries_of_snapshot.
  assert (Hg : range_grouping dateRange <> monthly).
  { destruct dateRange; try discriminate. congruence. }
  destruct (timeSeriesData_dates_sorted tz (range_grouping dateRange)
              (or_empty app) Hg) as [Hd Hs].
  split; [exact Hd|]. apply strictly_sorted_dates; try assumption.
  apply timeSeriesData_periods_NoDup.
Qed.

(** Two sessions a day apart, the range [7d]. *)
Lemma timeSeries_ascending_witness :
  d7 <> all
  /\ StronglySorted (fun a b => (point_date a < point_date b)%Z)
       (timeSeries
          (run (useAdvancedAnalytics 0%Z (fun _ => EmptyString)
                  (fun _ => EmptyString)
                  (Some [session_at "A" 86400000; session_at "B" 0])
                  None None d7)
               (fun _ => 0%Z))).
Proof.
  assert (H : d7 <> all) by discriminate.
  split; [exact H|].
  apply (timeSeries_ascending 0%Z (fun _ => EmptyString)
           (fun _ => EmptyString)
           (Some [session_at "A" 86400000; session_at "B" 0])
           None None d7 (fun _ => 0%Z) H).
Defined.

(* ================================================================== *)
(** * Further properties: the histogram *)
(* ================================================================== *)

(** Sum of the counts of the bins. *)
Definition bins_total (bins : list Bin) : nat :=
  list_sum (map bin_count bins).

Lemma fold_thrown {A B : Type} (g : A -> B -> Outcome A) (l : list B) :
  fold_left
    (fun acc x =>
       match acc with
       | Thrown => Thrown
       | Returned a => g a x
       end)
    l Thrown
  = Thrown.
Proof. induction l as [|x l IH]; [reflexivity | exact IH]. Qed.

Lemma binCount_spec (n : nat) :
  (1 <= n)%nat ->
  exists z, nmin2 (Fin 15) (nceil (nsqrt (of_nat n))) = Fin (IZR z)
            /\ (1 <= z <= 15)%Z.
Proof.
  intros Hn. unfold of_nat.
  assert (H1 : 1 <= INR n) by (apply (le_INR 1); exact Hn).
  simpl nsqrt. destruct (Rlt_dec (INR n) 0) as [Hneg|_]; [lra|].
  cbn [nceil].
  assert (Hs : 1 <= sqrt (INR n)).
  { rewrite <- sqrt_1. apply sqrt_le_1; lra. }
  assert (Hz : (1 <= Zceil (sqrt (INR n)))%Z).
  { apply le_IZR. pose proof (Zceil_bound (sqrt (INR n))). lra. }
  simpl nmin2.
  destruct (Rlt_dec (IZR (Zceil (sqrt (INR n)))) 15) as [Hlt|Hge].
  - exists (Zceil (sqrt (INR n))). split; [reflexivity|].
    apply lt_IZR in Hlt. lia.
  - exists 15%Z. split; [reflexivity | lia].
Qed.

Lemma update_bin_facts (b' : Bin) (bins : list Bin) :
  forall i b,
    nth_error bins i = Some b ->
    length (firstn i bins ++ b' :: skipn (S i) bins) = length bins
    /\ (bins_total (firstn i bins ++ b' :: skipn (S i) bins) + bin_count b
        = bins_total bins + bin_count b')%nat.
Proof.
  unfold bins_total.
  induction bins as [|x bins IH]; intros i b Hnth.
  - destruct i; discriminate.
  - destruct i as [|i].
    + injection Hnth as ->. simpl. split; [reflexivity | lia].
    + simpl in Hnth. destruct (IH i b Hnth) as [Hl Ht].
      change (firstn (S i) (x :: bins)) with (x :: firstn i bins).
      change (skipn (S (S i)) (x :: bins)) with (skipn (S i) bins).
      cbn [app length map list_sum fold_right].
      split; [rewrite Hl; reflexivity|].
      unfold list_sum in Ht. lia.
Qed.

Lemma increment_bin_ok (bins : list Bin) (r : R) (k : Z) :
  r = IZR k -> (0 <= k < Z.of_nat (length bins))%Z ->
  exists bins',
    increment_bin bins (Fin r) = Returned bins'
    /\ length bins' = length bins
    /\ bins_total bins' = S (bins_total bins).
Proof.
  intros -> Hk. unfold increment_bin. rewrite ZfloorZ.
  destruct (Req_dec_T (IZR k) (IZR k)) as [_|Hne]; [|congruence].
  destruct (Z_lt_dec k 0) as [Hneg|_]; [lia|].
  destruct (nth_error bins (Z.to_nat k)) as [b|] eqn:E.
  - eexists. split; [reflexivity|].
    destruct (update_bin_facts
                {| bin_start := bin_start b; bin_end := bin_end b;
                   bin_count := S (bin_count b); bin_label := bin_label b |}
                bins _ b E) as [Hl Ht].
    split; [exact Hl|]. cbn [bin_count] in Ht. lia.
  - apply nth_error_None in E. lia.
Qed.

Lemma make_bins_facts (sn : num -> string) (mn size : num) (n : nat) :
  length (make_bins sn mn size n) = n
  /\ bins_total (make_bins sn mn size n) = 0%nat.
Proof.
  unfold make_bins, bins_total. rewrite length_map, length_seq.
  split; [reflexivity|]. rewrite map_map. cbn [bin_count].
  induction (seq 0 n) as [|x l IH]; [reflexivity | exact IH].
Qed.

(** The index of the bin of a duration between [lo] and [hi], for a bin
    size [(hi - lo) / z] with [lo < hi], is an index of the array. *)
Lemma bin_index_in_range (lo hi d : R) (z : Z) :
  lo < hi -> lo <= d <= hi -> (1 <= z)%Z ->
  exists k,
    nmin2 (nfloor (ndiv (nsub (Fin d) (Fin lo)) (Fin ((hi + - lo) / IZR z))))
          (nsub (Fin (IZR z)) (Fin 1))
    = Fin (IZR k)
    /\ (0 <= k < z)%Z.
Proof.
  intros Hlh Hd Hz.
  assert (Hzr : 1 <= IZR z) by (apply IZR_le; exact Hz).
  assert (Hsize : 0 < (hi + - lo) / IZR z).
  { apply Rdiv_lt_0_compat; lra. }
  cbn [nsub nneg nadd]. rewrite ndiv_Fin by lra. cbn [nfloor].
  set (q := (d + - lo) / ((hi + - lo) / IZR z)).
  assert (Hq : 0 <= q <= IZR z).
  { unfold q. split.
    - apply Rmult_le_pos; [lra|]. apply Rlt_le, Rinv_0_lt_compat, Hsize.
    - apply (Rmult_le_reg_r ((hi + - lo) / IZR z)); [exact Hsize|].
      unfold Rdiv at 1. rewrite Rmult_assoc, Rinv_l by lra.
      replace (IZR z * ((hi + - lo) / IZR z)) with (hi + - lo)
        by (field; lra).
      lra. }
  assert (Hf0 : (0 <= Zfloor q)%Z) by (apply Zfloor_lub; simpl; lra).
  assert (Hfz : (Zfloor q <= z)%Z).
  { apply le_IZR. pose proof (Zfloor_bound q). lra. }
  simpl nmin2.
  destruct (Rlt_dec (IZR z + - (1)) (IZR (Zfloor q))) as [Hlt|Hge].
  - exists (z - 1)%Z. split; [rewrite minus_IZR; reflexivity | lia].
  - exists (Zfloor q). split; [reflexivity|].
    assert (H : (Zfloor q <= z - 1)%Z).
    { apply le_IZR. rewrite minus_IZR. lra. }
    lia.
Qed.

Lemma fill_bins_ok (lo hi : R) (z : Z) (durations : list R) :
  lo < hi -> (1 <= z)%Z -> (forall d, In d durations -> lo <= d <= hi) ->
  forall bins,
    length bins = Z.to_nat z ->
    exists bins',
      fill_bins (Fin lo) (Fin ((hi + - lo) / IZR z)) (Fin (IZR z))
                (map Fin durations) bins
      = Returned bins'
      /\ length bins' = Z.to_nat z
      /\ bins_total bins' = (bins_total bins + length durations)%nat.
Proof.
  intros Hlh Hz. unfold fill_bins.
  induction durations as [|d l IH]; intros Hd bins Hlen.
  - exists bins. simpl. split; [reflexivity|]. split; [exact Hlen | lia].
  - cbn [map fold_left].
    destruct (bin_index_in_range lo hi d z Hlh) as (k & -> & Hk);
      [apply Hd; left; reflexivity | exact Hz |].
    destruct (increment_bin_ok bins (IZR k) k eq_refl) as (b1 & -> & Hl1 & Ht1);
      [rewrite Hlen; lia|].
    destruct (IH (fun x Hx => Hd x (or_intror Hx)) b1) as (b2 & E & Hl2 & Ht2);
      [rewrite Hl1; exact Hlen|].
    exists b2. split; [exact E|]. split; [exact Hl2|].
    rewrite Ht2, Ht1. simpl. lia.
Qed.


(* ================================================================== *)
(** * Further properties: the box plot and the scatter plot *)
(* ================================================================== *)

(** X9.  The box plot of a snapshot over durations that are whole numbers
    of minutes is [null] exactly when no session has a positive duration;
    otherwise its five bars, min, 25th percentile, median, 75th
    percentile and max, are in ascending order.  (On whole numbers the
    weights 0.25, 0.5 and 0.75 of these three percentiles make every
    product and sum exact; durations one rounding step apart can put the
    25th percentile above the median.) *)
Theorem boxPlotData_ordered (tz : Z) (sn tf : num -> string)
    (app : option (list Session)) (pre : option (list Response))
    (demo : option (list Demographic)) (dateRange : DateRange)
    (clock : nat -> Z) :
  whole_sessions (or_empty app) ->
  let analytics :=
    run (useAdvancedAnalytics tz sn tf app pre demo dateRange) clock in
  (boxPlotData analytics = None <-> sessionDurations (or_empty app) = [])
  /\ forall bars,
       boxPlotData analytics = Some bars ->
       length bars = 5%nat
       /\ StronglySorted num_le (map snd bars).
Proof.
  intros Hwhole analytics.
  pose proof (whole_sessions_finite _ Hwhole) as Hfin.
  unfold boxPlotData, analytics. cbv zeta.
  rewrite sessionAnalytics_of_snapshot.
  destruct (finite_list_inv _ (sessionDurations_finite _ Hfin)) as [rs ->].
  set (prev := sessionDurations _).
  pose proof (sessionAnalytics_of_ordered rs prev)
    as (H1 & H2 & H3 & H4 & H5 & H6 & _).
  cbv zeta in *.
  set (sa := sessionAnalytics_of (map Fin rs) prev) in *.
  assert (Hcount : sa_count sa = length rs) by (cbn; apply length_map).
  rewrite Hcount. split.
  - destruct rs; simpl; split; intros; congruence.
  - intros bars Hb. destruct rs as [|r rs]; [discriminate|].
    cbn [length Nat.eqb] in Hb. injection Hb as <-.
    split; [reflexivity|]. cbn [map snd].
    assert (Htrans : forall x y z, num_le x y -> num_le y z -> num_le x z).
    { intros [a| | |] [b| | |] [c| | |]; simpl; intros; try contradiction; lra. }
    assert (H56 : num_le (p75 (percentiles sa)) (sa_max sa))
      by (eapply Htrans; [exact H4 | eapply Htrans; eassumption]).
    repeat (constructor; [|repeat constructor]);
      repeat constructor; eauto.
Qed.

(** Two sessions of 4 and 9 minutes. *)
Lemma boxPlotData_ordered_witness :
  let app := Some [{| participant_number := Some "P1"%string;
                      duration_minutes := Some (Fin 4);
                      created_at := None |};
                   {| participant_number := Some "P2"%string;
                      duration_minutes := Some (Fin 9);
                      created_at := None |}] in
  let analytics :=
    run (useAdvancedAnalytics 0%Z (fun _ => EmptyString)
           (fun _ => EmptyString) app None None all) (fun _ => 0%Z) in
  whole_sessions (or_empty app)
  /\ (boxPlotData analytics = None <-> sessionDurations (or_empty app) = []).
Proof.
  intros app analytics.
  assert (W : forall z, (Z.abs z <= 2 ^ 20)%Z -> whole_number (Fin (IZR z)))
    by exact whole_IZR.
  assert (H : whole_sessions (or_empty app)).
  { apply Forall_cons; [apply (W 4%Z); discriminate|].
    apply Forall_cons; [apply (W 9%Z); discriminate|].
    apply Forall_nil. }
  split; [exact H|].
  apply (boxPlotData_ordered 0%Z (fun _ => EmptyString)
           (fun _ => EmptyString) app None None all (fun _ => 0%Z) H).
Defined.

(** The chart and the hook agree on a participant: same number of
    sessions, same total, and the hook's average is the quotient the
    chart computes at the end. *)
Definition same_stats (c : ChartStats) (h : ParticipantStats) : Prop :=
  cs_sessionCount c = ps_sessions h
  /\ cs_totalDuration c = ps_totalDuration h
  /\ ps_avgDuration h = ndiv (ps_totalDuration h) (of_nat (ps_sessions h)).

Lemma upsert_Forall2 {V W : Type} (P : V -> W -> Prop) (key : string)
    (iv : V) (iw : W) (fv : V -> V) (fw : W -> W)
    (a : list (string * V)) (b : list (string * W)) :
  P (fv iv) (fw iw) -> (forall v w, P v w -> P (fv v) (fw w)) ->
  Forall2 (fun x y => fst x = fst y /\ P (snd x) (snd y)) a b ->
  Forall2 (fun x y => fst x = fst y /\ P (snd x) (snd y))
          (upsert String.eqb key iv fv a) (upsert String.eqb key iw fw b).
Proof.
  intros Hi Hf. induction 1 as [|[k v] [k' w] a b [Hk Hp] Hab IH]; simpl.
  - constructor; [split; [reflexivity | exact Hi] | constructor].
  - simpl in Hk. subst k'. destruct (String.eqb k key).
    + constructor; [split; [reflexivity | apply Hf, Hp] | exact Hab].
    + constructor; [split; [reflexivity | exact Hp] | exact IH].
Qed.

(** Every duration that is present is a number other than 0 and [NaN]. *)
Definition no_zero_duration (sessions : list Session) : Prop :=
  Forall (fun s => match duration_minutes s with
                   | Some d => truthy d = true
                   | None => True
                   end)
         sessions.

Lemma chart_and_hook_folds (sessions : list Session) :
  no_zero_duration sessions ->
  forall a b,
    Forall2 (fun x y => fst x = fst y /\ same_stats (snd x) (snd y)) a b ->
    Forall2 (fun x y => fst x = fst y /\ same_stats (snd x) (snd y))
            (fold_left chart_step sessions a)
            (fold_left participant_step sessions b).
Proof.
  induction 1 as [|s sessions Hs _ IH]; intros a b Hab; [exact Hab|].
  cbn [fold_left]. apply IH. unfold chart_step, participant_step.
  destruct (participant_number s) as [p|]; [|exact Hab].
  destruct (duration_minutes s) as [d|]; [|exact Hab].
  rewrite Hs, andb_true_r.
  destruct (truthy_string (Some p)); [|exact Hab].
  apply upsert_Forall2; [| |exact Hab].
  - unfold same_stats, add_session. cbn. repeat split.
  - intros c h (Hc & Ht & _). unfold same_stats, add_session.
    cbn [cs_sessionCount cs_totalDuration ps_sessions ps_totalDuration
         ps_avgDuration].
    rewrite Hc, Ht. repeat split.
Qed.

(** Two dictionaries with the same names in the same insertion order are
    listed in the same order, whatever they hold. *)
Section Lockstep.
Context {V W : Type} (P : V -> W -> Prop).

Definition keyed (x : string * V) (y : string * W) : Prop :=
  fst x = fst y /\ P (snd x) (snd y).

Lemma filter_lockstep (f : string -> bool) (a : list (string * V))
    (b : list (string * W)) :
  Forall2 keyed a b ->
  Forall2 keyed (filter (fun e => f (fst e)) a)
          (filter (fun e => f (fst e)) b).
Proof.
  induction 1 as [|x y a b Hxy _ IH]; [constructor|].
  cbn [filter]. destruct Hxy as [Hk Hp]. rewrite <- Hk.
  destruct (f (fst x)); [constructor; [split; assumption | exact IH]|exact IH].
Qed.

Lemma insert_sorted_lockstep (g : string -> string -> bool)
    (x : string * V) (y : string * W) (a : list (string * V))
    (b : list (string * W)) :
  keyed x y -> Forall2 keyed a b ->
  Forall2 keyed (insert_sorted (fun p q => g (fst p) (fst q)) x a)
          (insert_sorted (fun p q => g (fst p) (fst q)) y b).
Proof.
  intros Hxy. induction 1 as [|x' y' a b Hxy' Hab IH]; cbn [insert_sorted].
  - constructor; [exact Hxy | constructor].
  - destruct Hxy as [Hk Hp], Hxy' as [Hk' Hp']. rewrite <- Hk, <- Hk'.
    destruct (g (fst x) (fst x')).
    + constructor; [split; assumption | exact IH].
    + constructor; [split; assumption|].
      constructor; [split; assumption | exact Hab].
Qed.

Lemma js_sort_lockstep (g : string -> string -> bool)
    (a : list (string * V)) (b : list (string * W)) :
  Forall2 keyed a b ->
  Forall2 keyed (js_sort (fun p q => g (fst p) (fst q)) a)
          (js_sort (fun p q => g (fst p) (fst q)) b).
Proof.
  induction 1 as [|x y a b Hxy _ IH]; cbn [js_sort]; [constructor|].
  apply insert_sorted_lockstep; assumption.
Qed.

Lemma own_property_order_lockstep (a : list (string * V))
    (b : list (string * W)) :
  Forall2 keyed a b ->
  Forall2 keyed (own_property_order a) (own_property_order b).
Proof.
  intros H. unfold own_property_order. apply Forall2_app.
  - apply (js_sort_lockstep
             (fun s t => match array_index s, array_index t with
                         | Some i, Some j => (j <? i)%N
                         | _, _ => false
                         end)).
    apply (filter_lockstep is_array_index), H.
  - apply (filter_lockstep (fun s => negb (is_array_index s))), H.
Qed.
End Lockstep.

(** No participant number names a member of [Object.prototype]. *)
Definition plain_participants (sessions : list Session) : Prop :=
  Forall (fun s => match participant_number s with
                   | Some p => plain_name p
                   | None => True
                   end)
         sessions.

(** Array indices come first, in ascending order; the other names keep
    their insertion order. *)
Lemma own_property_order_example :
  map fst (own_property_order
             [("P2", 1); ("10", 2); ("9", 3); ("07", 4); ("P1", 5);
              ("0", 6)]%string)
  = ["0"; "9"; "10"; "P2"; "07"; "P1"]%string.
Proof. reflexivity. Qed.

(** X10.  When no duration is 0 or [NaN] and no participant number names
    a member of [Object.prototype], the points of the scatter plot are,
    participant by participant and in the order [Object.values] lists
    the participants (array indices first, ascending), the pairs of
    session count and average duration from which the hook computes its
    correlation coefficient.  (A session of duration 0 counts in the plot
    and not in the hook.) *)
Theorem correlationData_matches_hook (sessions : list Session) :
  no_zero_duration sessions ->
  plain_participants sessions ->
  correlationData (Some sessions)
  = if (length sessions <? 10)%nat then None
    else Some (map (fun '(_, p) =>
                      {| point_x := of_nat (ps_sessions p);
                         point_y := ps_avgDuration p |})
                   (own_property_order (participantData sessions))).
Proof.
  intros H _. unfold correlationData.
  destruct (length sessions <? 10)%nat; [reflexivity|].
  f_equal. rewrite participantData_fold.
  pose proof (chart_and_hook_folds sessions H [] [] (Forall2_nil _)) as HF.
  set (averaged := map _ (fold_left chart_step sessions [])).
  assert (HA : Forall2 (keyed (fun c h =>
                                 cs_sessionCount c = ps_sessions h
                                 /\ cs_avgDuration c = ps_avgDuration h))
                       averaged (fold_left participant_step sessions [])).
  { unfold averaged.
    induction HF as [|[k c] [k' h] a b [Hk (Hc & Ht & Ha)] _ IH];
      [constructor|].
    cbn [map]. constructor; [|exact IH].
    split; [exact Hk|]. cbn [snd] in *.
    cbn [cs_sessionCount cs_avgDuration].
    split; [exact Hc|]. rewrite Ha, Hc, Ht. reflexivity. }
  apply own_property_order_lockstep in HA.
  induction HA as [|[k c] [k' h] a b [_ [Hc Ha]] _ IH]; [reflexivity|].
  cbn [map]. rewrite IH. cbn [snd] in Hc, Ha. rewrite Hc, Ha. reflexivity.
Qed.

(** Six sessions of 5 minutes of participant 10, then four of
    participant 9. *)
Lemma correlationData_matches_hook_witness :
  let session := fun p =>
    {| participant_number := Some p;
       duration_minutes := Some (Fin 5);
       created_at := None |} in
  let sessions := repeat (session "10"%string) 6
                  ++ repeat (session "9"%string) 4 in
  no_zero_duration sessions
  /\ plain_participants sessions
  /\ map fst (own_property_order (participantData sessions))
     = ["9"; "10"]%string
  /\ correlationData (Some sessions)
     = Some (map (fun '(_, p) =>
                    {| point_x := of_nat (ps_sessions p);
                       point_y := ps_avgDuration p |})
                 (own_property_order (participantData sessions))).
Proof.
  intros session sessions.
  assert (H : no_zero_duration sessions).
  { unfold sessions, no_zero_duration. cbn [repeat app].
    repeat (apply Forall_cons;
            [simpl; destruct (Req_dec_T 5 0) as [E|_];
             [exfalso; lra | reflexivity]|]).
    apply Forall_nil. }
  assert (Hp : plain_participants sessions).
  { unfold sessions, plain_participants. cbn [repeat app].
    repeat (apply Forall_cons;
            [cbn [participant_number session]; unfold plain_name;
             cbn [In Object_prototype_names]; intuition discriminate|]).
    apply Forall_nil. }
  split; [exact H|]. split; [exact Hp|]. split.
  - unfold sessions, participantData. cbn [repeat app fold_left session
      participant_number duration_minutes truthy_string].
    unfold truthy. destruct (Req_dec_T 5 0) as [E|_]; [exfalso; lra|].
    cbn. reflexivity.
  - exact (correlationData_matches_hook sessions H Hp).
Defined.

(* ================================================================== *)
(** * Further properties: the cohorts of [StatisticalCharts] *)
(* ================================================================== *)

Lemma String_eqb_spec (a b : string) : String.eqb a b = true <-> a = b.
Proof. apply String.eqb_eq. Qed.

Lemma lookup_upsert {K V : Type} (eqb : K -> K -> bool) (key k : K)
    (init : V) (f : V -> V) (acc : list (K * V)) :
  (forall a b, eqb a b = true <-> a = b) ->
  lookup eqb k (upsert eqb key init f acc)
  = if eqb key k
    then Some (f (match lookup eqb key acc with
                  | Some v => v
                  | None => init
                  end))
    else lookup eqb k acc.
Proof.
  intros Hspec. induction acc as [|[k0 v] acc IH]; simpl.
  - reflexivity.
  - destruct (eqb k0 key) eqn:E; simpl.
    + apply Hspec in E. subst k0.
      destruct (eqb key k); reflexivity.
    + destruct (eqb k0 k) eqn:E'.
      * destruct (eqb key k) eqn:E''; [|reflexivity].
        apply Hspec in E', E''. subst. 
        rewrite (proj2 (Hspec k k) eq_refl) in E. discriminate.
      * exact IH.
Qed.

Lemma lookup_keys {K V : Type} (eqb : K -> K -> bool) (k : K)
    (acc : list (K * V)) :
  (forall a b, eqb a b = true <-> a = b) ->
  In k (map fst acc) <-> exists v, lookup eqb k acc = Some v.
Proof.
  intros Hspec. induction acc as [|[k0 v] acc IH]; simpl.
  - split; [intros [] | intros [v H]; discriminate].
  - destruct (eqb k0 k) eqn:E.
    + apply Hspec in E. split; [eauto | auto].
    + rewrite IH. split; [intros [->|H]; [|exact H] | auto].
      rewrite (proj2 (Hspec k k) eq_refl) in E. discriminate.
Qed.

(** One step of the loop that fills [participantFirstSession]. *)
Definition first_step (acc : list (string * Z)) (session : Session)
  : list (string * Z) :=
  match participant_number session, created_at session with
  | Some p, Some sessionDate =>
      if truthy_string (Some p) then
        upsert String.eqb p sessionDate
          (fun first =>
             if (sessionDate <? first)%Z then sessionDate else first)
          acc
      else acc
  | _, _ => acc
  end.

Lemma participantFirstSession_fold (l : list Session) :
  participantFirstSession l = fold_left first_step l [].
Proof. reflexivity. Qed.

(** The session counts for the first-session table of [p]: it carries the
    participant number [p], which is not empty, and the timestamp [t]. *)
Definition session_of (p : string) (t : Z) (s : Session) : Prop :=
  participant_number s = Some p /\ truthy_string (Some p) = true
  /\ created_at s = Some t.

(** [t] is the earliest timestamp among the sessions of [p] in [l]. *)
Definition earliest (l : list Session) (p : string) (t : Z) : Prop :=
  (exists s, In s l /\ session_of p t s)
  /\ forall s t', In s l -> session_of p t' s -> (t <= t')%Z.

Lemma first_step_facts (l : list Session) :
  forall seen acc,
    NoDup (map fst acc) ->
    (forall p t, lookup String.eqb p acc = Some t -> earliest seen p t) ->
    (forall p t s, In s seen -> session_of p t s ->
                   In p (map fst acc)) ->
    let acc' := fold_left first_step l acc in
    NoDup (map fst acc')
    /\ (forall p t, lookup String.eqb p acc' = Some t ->
                    earliest (rev l ++ seen) p t)
    /\ (forall p t s, In s (rev l ++ seen) -> session_of p t s ->
                      In p (map fst acc')).
Proof.
  induction l as [|x l IH]; intros seen acc Hnd Hmin Hcov.
  - cbn. auto.
  - cbn [fold_left rev].
    assert (Hshift : forall s, In s ((rev l ++ [x]) ++ seen)
                               <-> In s (rev l ++ x :: seen)).
    { intros s. rewrite <- app_assoc. reflexivity. }
    assert (Hgoal :
      let acc' := fold_left first_step l (first_step acc x) in
      NoDup (map fst acc')
      /\ (forall p t, lookup String.eqb p acc' = Some t ->
                      earliest (rev l ++ x :: seen) p t)
      /\ (forall p t s, In s (rev l ++ x :: seen) -> session_of p t s ->
                        In p (map fst acc'))).
    { apply IH.
      - unfold first_step.
        destruct (participant_number x) as [p|]; [|exact Hnd].
        destruct (created_at x) as [d|]; [|exact Hnd].
        destruct (truthy_string (Some p)); [|exact Hnd].
        apply upsert_keys_NoDup; [exact String_eqb_spec | exact Hnd].
      - intros p t Hl.
        assert (Hold : lookup String.eqb p acc = Some t ->
                       (forall t', session_of p t' x -> (t <= t')%Z) ->
                       earliest (x :: seen) p t).
        { intros Ho Hx. destruct (Hmin p t Ho) as [[s [Hs Hps]] Hle].
          split; [exists s; split; [right; exact Hs | exact Hps]|].
          intros s' t' [<-|Hs'] Hps'; [apply Hx, Hps' | eapply Hle; eauto]. }
        unfold first_step in Hl.
        destruct (participant_number x) as [q|] eqn:Eq;
          [|apply Hold; [exact Hl|]; intros t' (Hp & _); congruence].
        destruct (created_at x) as [d|] eqn:Ed;
          [|apply Hold; [exact Hl|]; intros t' (_ & _ & Hd); congruence].
        destruct (truthy_string (Some q)) eqn:Et;
          [|apply Hold; [exact Hl|]; intros t' (Hp & Ht & _); congruence].
        rewrite (lookup_upsert String.eqb q p) in Hl by exact String_eqb_spec.
        destruct (String.eqb q p) eqn:Eqp.
        + apply String.eqb_eq in Eqp. subst q.
          assert (Hx : session_of p d x) by (repeat split; assumption).
          destruct (lookup String.eqb p acc) as [t0|] eqn:El.
          * destruct (Hmin p t0 El) as [[s [Hs Hps]] Hle].
            destruct (d <? t0)%Z eqn:Elt; injection Hl as <-.
            -- apply Z.ltb_lt in Elt. split.
               ++ exists x. split; [left; reflexivity | exact Hx].
               ++ intros s' t' [<-|Hs'] Hps'.
                  ** destruct Hps' as (_ & _ & Hd). 
                     assert (t' = d) by congruence. lia.
                  ** pose proof (Hle s' t' Hs' Hps'). lia.
            -- apply Z.ltb_ge in Elt. split.
               ++ exists s. split; [right; exact Hs | exact Hps].
               ++ intros s' t' [<-|Hs'] Hps'.
                  ** destruct Hps' as (_ & _ & Hd).
                     assert (t' = d) by congruence. lia.
                  ** exact (Hle s' t' Hs' Hps').
          * rewrite Z.ltb_irrefl in Hl. injection Hl as <-. split.
            -- exists x. split; [left; reflexivity | exact Hx].
            -- intros s' t' [<-|Hs'] Hps'.
               ++ destruct Hps' as (_ & _ & Hd).
                  assert (t' = d) by congruence. lia.
               ++ exfalso.
                  pose proof (Hcov p t' s' Hs' Hps') as Hin.
                  apply (lookup_keys String.eqb) in Hin;
                    [|exact String_eqb_spec].
                  destruct Hin as [v Hv]. congruence.
        + apply Hold; [exact Hl|]. intros t' (Hp & _).
          assert (q = p) by congruence. subst q.
          rewrite String.eqb_refl in Eqp. discriminate.
      - intros p t s [<-|Hs] Hps.
        + destruct Hps as (Hp & Ht & Hd). unfold first_step.
          rewrite Hp, Hd, Ht. apply upsert_keys_in;
            [exact String_eqb_spec | left; reflexivity].
        + pose proof (Hcov p t s Hs Hps) as Hin. unfold first_step.
          destruct (participant_number x) as [q|]; [|exact Hin].
          destruct (created_at x) as [d|]; [|exact Hin].
          destruct (truthy_string (Some q)); [|exact Hin].
          apply upsert_keys_in; [exact String_eqb_spec | right; exact Hin]. }
    destruct Hgoal as (H1 & H2 & H3). split; [exact H1|]. split.
    + intros p t Hl. destruct (H2 p t Hl) as [[s [Hs Hps]] Hle]. split.
      * exists s. split; [apply Hshift, Hs | exact Hps].
      * intros s' t' Hs'. apply Hle. apply Hshift, Hs'.
    + intros p t s Hs. apply (H3 p t s). apply Hshift, Hs.
Qed.



(** One step of the loop that fills [cohorts]. *)
Definition cohort_step (tz : Z) (acc : list (string * list string))
    (entry : string * Z) : list (string * list string) :=
  upsert String.eqb (cohortKey_of tz (snd entry)) []
         (fun ps => ps ++ [fst entry]) acc.

Lemma cohorts_of_fold (tz : Z) (l : list Session) :
  cohorts_of tz l
  = fold_left (cohort_step tz) (participantFirstSession l) [].
Proof.
  unfold cohorts_of. apply fold_left_pointwise. intros acc [p t]. reflexivity.
Qed.

Lemma lookup_In {K V : Type} (eqb : K -> K -> bool) (k : K) (v : V)
    (acc : list (K * V)) :
  (forall a b, eqb a b = true <-> a = b) ->
  lookup eqb k acc = Some v -> In (k, v) acc.
Proof.
  intros Hspec. induction acc as [|[k0 v0] acc IH]; simpl; [discriminate|].
  destruct (eqb k0 k) eqn:E.
  - apply Hspec in E. subst k0. intros H. injection H as ->. left; reflexivity.
  - intros H. right. apply IH, H.
Qed.

Lemma upsert_members (key : string) (p : string)
    (acc : list (string * list string)) :
  Permutation
    (concat (map snd (upsert String.eqb key [] (fun ps => ps ++ [p]) acc)))
    (p :: concat (map snd acc)).
Proof.
  induction acc as [|[k ps] acc IH]; simpl.
  - apply Permutation_refl.
  - destruct (String.eqb k key); simpl.
    + rewrite <- app_assoc. simpl.
      apply Permutation_sym, Permutation_middle.
    + rewrite IH. apply Permutation_sym, Permutation_middle.
Qed.

Lemma cohort_fold_facts (tz : Z) (entries : list (string * Z)) :
  forall acc,
    NoDup (map fst acc) ->
    Forall (fun e => snd e <> []) acc ->
    let acc' := fold_left (cohort_step tz) entries acc in
    NoDup (map fst acc')
    /\ Forall (fun e => snd e <> []) acc'
    /\ Permutation (concat (map snd acc'))
                   (rev (map fst entries) ++ concat (map snd acc))
    /\ (forall key ps p,
          lookup String.eqb key acc = Some ps -> In p ps ->
          exists ps', lookup String.eqb key acc' = Some ps' /\ In p ps')
    /\ (forall p t,
          In (p, t) entries ->
          exists ps, lookup String.eqb (cohortKey_of tz t) acc' = Some ps
                     /\ In p ps).
Proof.
  induction entries as [|[q d] entries IH]; intros acc Hnd Hne.
  - cbn. repeat split; auto.
    + intros key ps p Hl Hin. eauto.
    + intros p t [].
  - cbn [fold_left].
    assert (Hnd' : NoDup (map fst (cohort_step tz acc (q, d)))).
    { apply upsert_keys_NoDup; [exact String_eqb_spec | exact Hnd]. }
    assert (Hne' : Forall (fun e => snd e <> []) (cohort_step tz acc (q, d))).
    { apply (upsert_Forall String.eqb _ _ _ (fun ps => ps <> []));
        [discriminate | | exact Hne].
      intros v _ H. apply app_eq_nil in H. destruct H; discriminate. }
    assert (Hkeep : forall key ps p,
               lookup String.eqb key acc = Some ps -> In p ps ->
               exists ps',
                 lookup String.eqb key (cohort_step tz acc (q, d)) = Some ps'
                 /\ In p ps').
    { intros key ps p Hl Hin. unfold cohort_step.
      rewrite (lookup_upsert String.eqb) by exact String_eqb_spec.
      cbn [fst snd].
      destruct (String.eqb (cohortKey_of tz d) key) eqn:E.
      - apply String.eqb_eq in E. subst key. rewrite Hl.
        eexists. split; [reflexivity|]. apply in_or_app. left; exact Hin.
      - eauto. }
    destruct (IH _ Hnd' Hne') as (H1 & H2 & H3 & H4 & H5).
    split; [exact H1|]. split; [exact H2|]. split; [|split].
    + rewrite H3. unfold cohort_step. cbn [fst snd map rev].
      rewrite upsert_members, <- app_assoc. reflexivity.
    + intros key ps p Hl Hin.
      destruct (Hkeep key ps p Hl Hin) as [ps' [Hl' Hin']].
      exact (H4 key ps' p Hl' Hin').
    + intros p t [E|Hin]; [|exact (H5 p t Hin)].
      injection E as -> ->.
      apply (H4 (cohortKey_of tz t)
               (match lookup String.eqb (cohortKey_of tz t) acc with
                | Some v => v
                | None => []
                end ++ [p])).
      * unfold cohort_step. cbn [fst snd].
        rewrite (lookup_upsert String.eqb) by exact String_eqb_spec.
        rewrite String.eqb_refl. reflexivity.
      * apply in_or_app. right. left. reflexivity.
Qed.

Lemma cohorts_nonempty (tz : Z) (appUsageData : list Session) :
  Forall (fun cohort => snd cohort <> []) (cohorts_of tz appUsageData).
Proof.
  rewrite cohorts_of_fold.
  apply (cohort_fold_facts tz (participantFirstSession appUsageData) []
           (NoDup_nil _) (Forall_nil _)).
Qed.

(** X12.  The weekly cohorts partition the participants of the
    first-session table: every participant is in the cohort of the week
    of their first session and, the cohorts together listing each
    participant once, in no other; no cohort is empty. *)
Theorem cohorts_partition (tz : Z) (appUsageData : list Session) :
  NoDup (map fst (cohorts_of tz appUsageData))
  /\ Forall (fun cohort => snd cohort <> []) (cohorts_of tz appUsageData)
  /\ Permutation (concat (map snd (cohorts_of tz appUsageData)))
                 (map fst (participantFirstSession appUsageData))
  /\ NoDup (concat (map snd (cohorts_of tz appUsageData)))
  /\ (forall p t,
        lookup String.eqb p (participantFirstSession appUsageData) = Some t ->
        exists ps,
          lookup String.eqb (cohortKey_of tz t) (cohorts_of tz appUsageData)
          = Some ps
          /\ In p ps).
Proof.
  rewrite cohorts_of_fold.
  destruct (cohort_fold_facts tz (participantFirstSession appUsageData) []
              (NoDup_nil _) (Forall_nil _)) as (H1 & H2 & H3 & _ & H5).
  cbn [map concat] in H3. rewrite app_nil_r in H3.
  assert (Hperm : Permutation
            (concat (map snd (fold_left (cohort_step tz)
                                (participantFirstSession appUsageData) [])))
            (map fst (participantFirstSession appUsageData))).
  { rewrite H3. apply Permutation_sym, Permutation_rev. }
  pose proof (first_step_facts appUsageData [] [] (NoDup_nil _)) as Hf.
  destruct Hf as (Hnd & _ & _);
    [intros p t H; discriminate | intros p t s [] |].
  rewrite <- participantFirstSession_fold in Hnd.
  repeat split; try assumption.
  - apply (Permutation_NoDup (Permutation_sym Hperm)), Hnd.
  - intros p t Hl. apply H5.
    apply (lookup_In String.eqb); [exact String_eqb_spec | exact Hl].
Qed.

Lemma firstn_incl {A : Type} (n : nat) (l : list A) (x : A) :
  In x (firstn n l) -> In x l.
Proof.
  revert l. induction n as [|n IH]; intros [|a l]; simpl; try tauto.
  intros [E|H]; [left; exact E | right; apply IH, H].
Qed.

(** A finite percentage. *)
Definition is_percentage (v : num) : Prop :=
  exists r, v = Fin r /\ 0 <= r <= 100.

Lemma filter_length_le {A : Type} (f : A -> bool) (l : list A) :
  (length (filter f l) <= length l)%nat.
Proof.
  induction l as [|a l IH]; simpl; [lia|]. destruct (f a); simpl; lia.
Qed.

Lemma retention_week_percentage (tz : Z) (appUsageData : list Session)
    (participants : list string) (start week : Z) :
  participants <> [] ->
  is_percentage (retention_week tz appUsageData participants start week).
Proof.
  intros Hne. unfold retention_week, len, of_nat.
  rewrite ndiv_Fin by (apply INR_length_nonzero, Hne).
  cbn [nmul]. eexists. split; [reflexivity|].
  set (k := length (filter _ participants)).
  assert (Hk : (k <= length participants)%nat) by apply filter_length_le.
  assert (Hn : 0 < INR (length participants)).
  { apply lt_0_INR. destruct participants; [congruence | simpl; lia]. }
  apply le_INR in Hk. pose proof (pos_INR k) as Hk0.
  assert (H1 : 0 <= INR k / INR (length participants)).
  { apply Rmult_le_pos; [exact Hk0|]. left. apply Rinv_0_lt_compat, Hn. }
  assert (H2 : INR k / INR (length participants) <= 1).
  { apply (Rmult_le_reg_r (INR (length participants))); [exact Hn|].
    unfold Rdiv. rewrite Rmult_assoc, Rinv_l by lra. lra. }
  lra.
Qed.

(** X13.  With at least 20 sessions the retention chart has between 0 and
    8 curves, one for each of the first cohort keys in ascending order;
    every curve has the five values of the weeks 0 to 4, the first is 100
    and each is a finite percentage between 0 and 100.  With fewer
    sessions the chart is [null]. *)
Theorem cohortData_curves (tz : Z) (appUsageData : list Session) :
  (cohortData tz (Some appUsageData) = None
   <-> (length appUsageData < 20)%nat)
  /\ forall curves,
       cohortData tz (Some appUsageData) = Some curves ->
       (length curves <= 8)%nat
       /\ (length curves <= length (cohorts_of tz appUsageData))%nat
       /\ Forall (fun curve =>
                    length (snd curve) = 5%nat
                    /\ hd NaN (snd curve) = Fin 100
                    /\ Forall is_percentage (snd curve))
                 curves.
Proof.
  unfold cohortData.
  destruct (length appUsageData <? 20)%nat eqn:E.
  - apply Nat.ltb_lt in E. split; [tauto | discriminate].
  - apply Nat.ltb_ge in E. split; [split; [discriminate | lia]|].
    intros curves H. injection H as <-. rewrite length_map.
    unfold cohortLabels, slice_0_8.
    split; [rewrite length_firstn; lia|]. split.
    { rewrite length_firstn, js_sort_length, length_map. lia. }
    apply Forall_forall. intros [label curve] Hin.
    apply in_map_iff in Hin. destruct Hin as [key [Hk Hin]].
    injection Hk as -> <-. cbn [snd].
    split; [reflexivity|]. split; [reflexivity|].
    apply firstn_incl, js_sort_In in Hin.
    apply (lookup_keys String.eqb) in Hin; [|exact String_eqb_spec].
    destruct Hin as [ps Hps].
    assert (Hne : ps <> []).
    { exact (lookup_Forall String.eqb (fun ps => ps <> []) label _ ps
               (cohorts_nonempty tz appUsageData) Hps). }
    unfold retention_of. rewrite Hps. cbn [or_empty map].
    repeat (apply Forall_cons;
            [first [exists 100; split; [reflexivity | lra]
                   | apply retention_week_percentage, Hne]|]).
    apply Forall_nil.
Qed.

(** Witness: twenty sessions of one participant at time 0. *)
Lemma cohortData_curves_witness :
  exists curves,
    cohortData 0%Z
      (Some (repeat {| participant_number := Some "P1"%string;
                       duration_minutes := None;
                       created_at := Some 0%Z |} 20))
    = Some curves
    /\ (length curves <= 8)%nat.
Proof.
  eexists. split; [reflexivity|].
  eapply (cohortData_curves 0%Z
            (repeat {| participant_number := Some "P1"%string;
                       duration_minutes := None;
                       created_at := Some 0%Z |} 20)).
  reflexivity.
Defined.

(* ================================================================== *)
(** * Further properties: the usage patterns *)
(* ================================================================== *)

Local Open Scope Z_scope.

Lemma getHours_range (tz date : Z) : 0 <= getHours tz date <= 23.
Proof.
  unfold getHours.
  assert (H : 0 <= (date + tz) mod msPerDay < msPerDay)
    by (apply Z.mod_pos_bound; reflexivity).
  unfold msPerDay in *. split.
  - apply Z.div_pos; lia.
  - apply Z.lt_succ_r. apply Z.div_lt_upper_bound; lia.
Qed.

Lemma getDay_range (tz date : Z) : 0 <= getDay tz date <= 6.
Proof.
  unfold getDay.
  assert (H : 0 <= (local_day tz date + 4) mod 7 < 7)
    by (apply Z.mod_pos_bound; reflexivity).
  lia.
Qed.

Local Close Scope Z_scope.
Local Open Scope nat_scope.

(** The session carries a non-empty participant number. *)
Definition has_participant (session : Session) : bool :=
  truthy_string (participant_number session).

(** The steps of the three tables, each on its own. *)
Definition hour_step (tz : Z) (acc : list (Z * nat)) (session : Session)
  : list (Z * nat) :=
  match created_at session with
  | Some date => bump Z.eqb (getHours tz date) acc
  | None => acc
  end.

Definition day_step (tz : Z) (acc : list (Z * nat)) (session : Session)
  : list (Z * nat) :=
  match created_at session with
  | Some date => bump Z.eqb (getDay tz date) acc
  | None => acc
  end.

Lemma usage_step_hourly (tz : Z) (u : UsagePatterns) (s : Session) :
  hourlyDistribution (usage_step tz u s)
  = hour_step tz (hourlyDistribution u) s.
Proof.
  unfold usage_step, hour_step.
  destruct (created_at s), (participant_number s) as [p|];
    try destruct (truthy_string (Some p)); reflexivity.
Qed.

Lemma usage_step_daily (tz : Z) (u : UsagePatterns) (s : Session) :
  dailyDistribution (usage_step tz u s)
  = day_step tz (dailyDistribution u) s.
Proof.
  unfold usage_step, day_step.
  destruct (created_at s), (participant_number s) as [p|];
    try destruct (truthy_string (Some p)); reflexivity.
Qed.

Lemma usage_fold_hourly (tz : Z) (l : list Session) (u : UsagePatterns) :
  hourlyDistribution (fold_left (usage_step tz) l u)
  = fold_left (hour_step tz) l (hourlyDistribution u).
Proof.
  revert u. induction l as [|s l IH]; intros u; [reflexivity|].
  cbn [fold_left]. rewrite IH, usage_step_hourly. reflexivity.
Qed.

Lemma usage_fold_daily (tz : Z) (l : list Session) (u : UsagePatterns) :
  dailyDistribution (fold_left (usage_step tz) l u)
  = fold_left (day_step tz) l (dailyDistribution u).
Proof.
  revert u. induction l as [|s l IH]; intros u; [reflexivity|].
  cbn [fold_left]. rewrite IH, usage_step_daily. reflexivity.
Qed.

(** A table of counts over the keys [lo .. hi]: distinct keys in range,
    every count positive. *)
Definition count_table (lo hi : Z) (table : list (Z * nat)) : Prop :=
  NoDup (map fst table)
  /\ Forall (fun e => (lo <= fst e <= hi)%Z /\ 1 <= snd e) table.

Lemma Z_eqb_spec (a b : Z) : Z.eqb a b = true <-> a = b.
Proof. apply Z.eqb_eq. Qed.

Lemma bump_Forall_keys {K : Type} (eqb : K -> K -> bool) (P : K -> Prop)
    (key : K) (acc : list (K * nat)) :
  P key ->
  Forall (fun e => P (fst e) /\ 1 <= snd e) acc ->
  Forall (fun e => P (fst e) /\ 1 <= snd e) (bump eqb key acc).
Proof.
  intros Hk. unfold bump. induction 1 as [|[k n] acc [Hp Hn] Hacc IH]; simpl.
  - constructor; [simpl; split; [exact Hk | lia] | constructor].
  - destruct (eqb k key); constructor; simpl in *;
      try (split; [exact Hp | lia]); assumption.
Qed.

Lemma bump_count_table (lo hi key : Z) (table : list (Z * nat)) :
  (lo <= key <= hi)%Z -> count_table lo hi table ->
  count_table lo hi (bump Z.eqb key table).
Proof.
  intros Hk [Hnd Hall]. split.
  - unfold bump. apply upsert_keys_NoDup; [exact Z_eqb_spec | exact Hnd].
  - apply (bump_Forall_keys Z.eqb (fun k => (lo <= k <= hi)%Z));
      assumption.
Qed.

Lemma count_table_length (lo hi : Z) (table : list (Z * nat)) :
  count_table lo hi table -> length table <= Z.to_nat (hi - lo + 1).
Proof.
  intros [Hnd Hall].
  assert (Hincl : incl (map fst table)
                       (map (fun i => (lo + Z.of_nat i)%Z)
                            (seq 0 (Z.to_nat (hi - lo + 1))))).
  { intros k Hk. apply in_map_iff in Hk. destruct Hk as [[k' n] [<- Hin]].
    rewrite Forall_forall in Hall. destruct (Hall _ Hin) as [Hr _].
    cbn [fst] in *. apply in_map_iff. exists (Z.to_nat (k' - lo)).
    split; [lia|]. apply in_seq. lia. }
  apply NoDup_incl_length in Hincl; [|exact Hnd].
  rewrite !length_map, length_seq in Hincl. exact Hincl.
Qed.

Lemma hour_fold_facts (tz : Z) (l : list Session) :
  forall acc,
    count_table 0 23 acc ->
    count_table 0 23 (fold_left (hour_step tz) l acc)
    /\ list_sum (map snd (fold_left (hour_step tz) l acc))
       = list_sum (map snd acc) + length (filter has_timestamp l).
Proof.
  induction l as [|s l IH]; intros acc Hacc; cbn [fold_left];
    [cbn; split; [exact Hacc | lia]|].
  assert (Hstep : count_table 0 23 (hour_step tz acc s)
                  /\ list_sum (map snd (hour_step tz acc s))
                     = list_sum (map snd acc)
                       + (if has_timestamp s then 1 else 0)).
  { unfold hour_step, has_timestamp. destruct (created_at s) as [d|].
    - split; [apply bump_count_table; [apply getHours_range | exact Hacc]|].
      rewrite bump_total. lia.
    - split; [exact Hacc | lia]. }
  destruct Hstep as [H1 H2]. destruct (IH _ H1) as [H3 H4].
  split; [exact H3|]. rewrite H4, H2. cbn [filter].
  destruct (has_timestamp s); simpl; lia.
Qed.

Lemma day_fold_facts (tz : Z) (l : list Session) :
  forall acc,
    count_table 0 6 acc ->
    count_table 0 6 (fold_left (day_step tz) l acc)
    /\ list_sum (map snd (fold_left (day_step tz) l acc))
       = list_sum (map snd acc) + length (filter has_timestamp l).
Proof.
  induction l as [|s l IH]; intros acc Hacc; cbn [fold_left];
    [cbn; split; [exact Hacc | lia]|].
  assert (Hstep : count_table 0 6 (day_step tz acc s)
                  /\ list_sum (map snd (day_step tz acc s))
                     = list_sum (map snd acc)
                       + (if has_timestamp s then 1 else 0)).
  { unfold day_step, has_timestamp. destruct (created_at s) as [d|].
    - split; [apply bump_count_table; [apply getDay_range | exact Hacc]|].
      rewrite bump_total. lia.
    - split; [exact Hacc | lia]. }
  destruct Hstep as [H1 H2]. destruct (IH _ H1) as [H3 H4].
  split; [exact H3|]. rewrite H4, H2. cbn [filter].
  destruct (has_timestamp s); simpl; lia.
Qed.

Lemma count_table_nil (lo hi : Z) : count_table lo hi [].
Proof. split; constructor. Qed.

(** X14.  The hourly and the daily distribution of the usage patterns
    count every session that has a timestamp exactly once: the hours are
    distinct values from 0 to 23, the days distinct values from 0 to 6,
    every recorded count is at least 1, and the counts of either table
    add up to the number of sessions with a timestamp. *)
Theorem usagePatterns_distributions (tz : Z) (currentAppUsage : list Session) :
  let u := usagePatterns_of tz currentAppUsage in
  count_table 0 23 (hourlyDistribution u)
  /\ count_table 0 6 (dailyDistribution u)
  /\ length (hourlyDistribution u) <= 24
  /\ length (dailyDistribution u) <= 7
  /\ list_sum (map snd (hourlyDistribution u))
     = length (filter has_timestamp currentAppUsage)
  /\ list_sum (map snd (dailyDistribution u))
     = length (filter has_timestamp currentAppUsage).
Proof.
  intros u. unfold u, usagePatterns_of.
  rewrite usage_fold_hourly, usage_fold_daily.
  cbn [hourlyDistribution dailyDistribution].
  destruct (hour_fold_facts tz currentAppUsage [] (count_table_nil 0 23))
    as [Hh Hhs].
  destruct (day_fold_facts tz currentAppUsage [] (count_table_nil 0 6))
    as [Hd Hds].
  pose proof (count_table_length _ _ _ Hh) as Lh.
  pose proof (count_table_length _ _ _ Hd) as Ld.
  change (Z.to_nat (23 - 0 + 1)) with 24 in Lh.
  change (Z.to_nat (6 - 0 + 1)) with 7 in Ld.
  cbn in Hhs, Hds.
  repeat split; try apply Hh; try apply Hd; try assumption; lia.
Qed.

(** The step of the engagement table on its own. *)
Definition engage (session : Session) (e : Engagement) : Engagement :=
  {| eng_sessions := S (eng_sessions e);
     eng_totalDuration :=
       nadd (eng_totalDuration e) (duration_or_0 (duration_minutes session));
     lastActivity :=
       match created_at session with
       | Some activityDate =>
           match lastActivity e with
           | None => Some activityDate
           | Some last =>
               if (last <? activityDate)%Z
               then Some activityDate else Some last
           end
       | None => lastActivity e
       end |}.

Definition engagement_step (acc : list (string * Engagement))
    (session : Session) : list (string * Engagement) :=
  match participant_number session with
  | Some participant =>
      if truthy_string (Some participant) then
        upsert String.eqb participant
          {| eng_sessions := 0; eng_totalDuration := Fin 0;
             lastActivity := None |}
          (engage session) acc
      else acc
  | None => acc
  end.

Lemma usage_step_engagement (tz : Z) (u : UsagePatterns) (s : Session) :
  participantEngagement (usage_step tz u s)
  = engagement_step (participantEngagement u) s.
Proof.
  unfold usage_step, engagement_step, engage.
  destruct (created_at s), (participant_number s) as [p|];
    try destruct (truthy_string (Some p)); reflexivity.
Qed.

Lemma usage_fold_engagement (tz : Z) (l : list Session) (u : UsagePatterns) :
  participantEngagement (fold_left (usage_step tz) l u)
  = fold_left engagement_step l (participantEngagement u).
Proof.
  revert u. induction l as [|s l IH]; intros u; [reflexivity|].
  cbn [fold_left]. rewrite IH, usage_step_engagement. reflexivity.
Qed.

(** The session belongs to the participant [p] of the engagement table. *)
Definition session_by (p : string) (session : Session) : bool :=
  match participant_number session with
  | Some q => String.eqb q p && truthy_string (Some q)
  | None => false
  end.

(** [last] is the latest timestamp of the sessions, [None] when none has
    a timestamp. *)
Definition latest (last : option Z) (sessions : list Session) : Prop :=
  match last with
  | None => Forall (fun s => created_at s = None) sessions
  | Some m =>
      (exists s, In s sessions /\ created_at s = Some m)
      /\ Forall (fun s => forall t, created_at s = Some t -> (t <= m)%Z)
                sessions
  end.

(** What the table records for a participant with the sessions [mine]. *)
Definition engagement_entry (entry : option Engagement)
    (mine : list Session) : Prop :=
  match entry with
  | None => mine = []
  | Some e =>
      mine <> []
      /\ eng_sessions e = length mine
      /\ eng_totalDuration e
         = sum (map (fun s => duration_or_0 (duration_minutes s)) mine)
      /\ latest (lastActivity e) mine
  end.

Lemma latest_snoc (last : option Z) (mine : list Session) (x : Session) :
  latest last mine ->
  latest (match created_at x with
          | Some activityDate =>
              match last with
              | None => Some activityDate
              | Some l =>
                  if (l <? activityDate)%Z then Some activityDate else Some l
              end
          | None => last
          end)
         (mine ++ [x]).
Proof.
  intros H. destruct (created_at x) as [d|] eqn:Ed.
  - destruct last as [m|]; cbn [latest] in *.
    + destruct H as [[s [Hs Hm]] Hall].
      destruct (m <? d)%Z eqn:E; cbn [latest].
      * apply Z.ltb_lt in E. split.
        -- exists x. split; [apply in_or_app; right; left; reflexivity|].
           exact Ed.
        -- apply Forall_app. split.
           ++ eapply Forall_impl; [|exact Hall]. cbn beta.
              intros a Ha t Ht. specialize (Ha t Ht). lia.
           ++ constructor; [|constructor]. intros t Ht.
              assert (t = d) by congruence. lia.
      * apply Z.ltb_ge in E. split.
        -- exists s. split; [apply in_or_app; left; exact Hs | exact Hm].
        -- apply Forall_app. split; [exact Hall|].
           constructor; [|constructor]. intros t Ht.
           assert (t = d) by congruence. lia.
    + split.
      * exists x. split; [apply in_or_app; right; left; reflexivity|].
        exact Ed.
      * apply Forall_app. split.
        -- eapply Forall_impl; [|exact H]. cbn beta.
           intros a Ha t Ht. congruence.
        -- constructor; [|constructor]. intros t Ht.
           assert (t = d) by congruence. lia.
  - destruct last as [m|]; cbn [latest] in *.
    + destruct H as [[s [Hs Hm]] Hall]. split.
      * exists s. split; [apply in_or_app; left; exact Hs | exact Hm].
      * apply Forall_app. split; [exact Hall|].
        constructor; [|constructor]. intros t Ht. congruence.
    + apply Forall_app. split; [exact H|].
      constructor; [exact Ed | constructor].
Qed.

Lemma sum_snoc (l : list num) (d : num) : sum (l ++ [d]) = nadd (sum l) d.
Proof. unfold sum. rewrite fold_left_app. reflexivity. Qed.

Lemma engagement_fold_facts (l : list Session) :
  let table := fold_left engagement_step l [] in
  NoDup (map fst table)
  /\ forall p,
       engagement_entry (lookup String.eqb p table) (filter (session_by p) l).
Proof.
  induction l as [|x l IH] using rev_ind.
  - cbn. split; [constructor | reflexivity].
  - cbn zeta in *. rewrite fold_left_app. cbn [fold_left].
    destruct IH as [Hnd Hent].
    set (table := fold_left engagement_step l []) in *.
    split.
    + unfold engagement_step.
      destruct (participant_number x) as [q|]; [|exact Hnd].
      destruct (truthy_string (Some q)); [|exact Hnd].
      apply upsert_keys_NoDup; [exact String_eqb_spec | exact Hnd].
    + intros p. specialize (Hent p). rewrite filter_app. cbn [filter].
      unfold engagement_step, session_by at 2.
      destruct (participant_number x) as [q|] eqn:Eq;
        [|rewrite app_nil_r; exact Hent].
      destruct (truthy_string (Some q)) eqn:Et;
        [|rewrite andb_false_r, app_nil_r; exact Hent].
      rewrite andb_true_r.
      rewrite (lookup_upsert String.eqb) by exact String_eqb_spec.
      destruct (String.eqb q p) eqn:Eqp; [|rewrite app_nil_r; exact Hent].
      apply String.eqb_eq in Eqp. subst q.
      set (mine := filter (session_by p) l) in *.
      destruct (lookup String.eqb p table) as [e|];
        cbn [engagement_entry] in *.
      * destruct Hent as (Hne & Hn & Ht & Hl).
        split; [intros H; apply app_eq_nil in H; destruct H; discriminate|].
        split; [cbn [engage eng_sessions]; rewrite length_app, Hn; simpl; lia|].
        split.
        -- cbn [engage eng_totalDuration]. rewrite map_app, Ht.
           cbn [map]. rewrite sum_snoc. reflexivity.
        -- cbn [engage lastActivity]. apply latest_snoc, Hl.
      * subst mine. rewrite Hent in *.
        split; [discriminate|]. split; [reflexivity|]. split.
        -- reflexivity.
        -- cbn [engage lastActivity app].
           apply (latest_snoc None [] x). constructor.
Qed.


Local Close Scope nat_scope.

(* ================================================================== *)
(** * Further properties: the charts of the dashboard *)
(* ================================================================== *)

Local Open Scope nat_scope.

Lemma duration_or_0_not_NaN (d : option num) : duration_or_0 d <> NaN.
Proof.
  destruct d as [[r| | |]|]; simpl; try discriminate.
  destruct (Req_dec_T r 0); discriminate.
Qed.

Lemma nle_ngt (x : num) (c : R) :
  x <> NaN -> nle x (Fin c) = negb (ngt x (Fin c)).
Proof.
  destruct x as [r| | |]; simpl; try reflexivity; [|congruence].
  intros _. destruct (Rle_dec r c), (Rlt_dec c r); try reflexivity; lra.
Qed.

Lemma ngt_trans (x : num) (a b : R) :
  (a <= b)%R -> ngt x (Fin b) = true -> ngt x (Fin a) = true.
Proof.
  destruct x as [r| | |]; simpl; try discriminate; try reflexivity.
  intros Hab. destruct (Rlt_dec b r), (Rlt_dec a r);
    try reflexivity; try discriminate; lra.
Qed.

(** X16.  The five ranges of the duration chart partition the sessions:
    every session, with a missing, zero or [NaN] duration counted as 0,
    is counted in exactly one range, so the five counts add up to the
    number of sessions. *)
Theorem sessionDurationChart_partition (appUsage : list Session) :
  length (sessionDurationChart appUsage) = 5
  /\ list_sum (sessionDurationChart appUsage) = length appUsage.
Proof.
  split; [reflexivity|].
  unfold sessionDurationChart. cbn [list_sum fold_right].
  induction appUsage as [|s l IH]; [reflexivity|].
  cbn [filter length].
  pose proof (duration_or_0_not_NaN (duration_minutes s)) as Hn.
  rewrite !(nle_ngt _ _ Hn).
  destruct (ngt (duration_or_0 (duration_minutes s)) (Fin 60)) eqn:E60.
  - rewrite (ngt_trans _ 30 60), (ngt_trans _ 15 60), (ngt_trans _ 5 60)
      by (try exact E60; lra).
    cbn [negb andb length]. lia.
  - destruct (ngt (duration_or_0 (duration_minutes s)) (Fin 30)) eqn:E30.
    + rewrite (ngt_trans _ 15 30), (ngt_trans _ 5 30)
        by (try exact E30; lra).
      cbn [negb andb length]. lia.
    + destruct (ngt (duration_or_0 (duration_minutes s)) (Fin 15)) eqn:E15.
      * rewrite (ngt_trans _ 5 15) by (try exact E15; lra).
        cbn [negb andb length]. lia.
      * destruct (ngt (duration_or_0 (duration_minutes s)) (Fin 5));
          cbn [negb andb length]; lia.
Qed.

Lemma sum_single_key (hours : list nat) (k : nat) (n : nat)
    (g : nat -> nat) :
  NoDup hours -> In k hours -> g k = 0 ->
  list_sum (map (fun h => if (k =? h) then n else g h) hours)
  = n + list_sum (map g hours).
Proof.
  intros Hnd Hin Hg. induction hours as [|h hours IH]; [destruct Hin|].
  inversion Hnd as [|? ? Hnotin Hnd']; subst.
  cbn [map list_sum fold_right]. fold (list_sum (map g hours)).
  fold (list_sum (map (fun h => if (k =? h) then n else g h) hours)).
  destruct Hin as [->|Hin].
  - rewrite Nat.eqb_refl.
    assert (E : map (fun h => if (k =? h) then n else g h) hours
                = map g hours).
    { apply map_ext_in. intros a Ha. destruct (k =? a) eqn:E; [|reflexivity].
      apply Nat.eqb_eq in E. subst a. contradiction. }
    rewrite E, Hg. lia.
  - destruct (k =? h) eqn:E.
    + apply Nat.eqb_eq in E. subst h. contradiction.
    + rewrite (IH Hnd' Hin). lia.
Qed.

Lemma count_or_0_id (x : option nat) :
  count_or_0 x = match x with Some n => n | None => 0 end.
Proof.
  destruct x as [n|]; [|reflexivity]. simpl.
  destruct (n =? 0) eqn:E; [apply Nat.eqb_eq in E; auto | reflexivity].
Qed.

Lemma hourly_lookup_total (table : list (Z * nat)) :
  count_table 0 23 table ->
  list_sum (map (fun hour =>
                   count_or_0 (lookup Z.eqb (Z.of_nat hour) table))
                (seq 0 24))
  = list_sum (map snd table).
Proof.
  intros [Hnd Hall]. generalize (seq_NoDup 24 0).
  assert (Hin : forall h, In h (seq 0 24) <-> h < 24)
    by (intros h; rewrite in_seq; lia).
  revert Hin. generalize (seq 0 24) as hours. intros hours Hin Hnh.
  induction table as [|[k n] table IH].
  - cbn [lookup]. clear. induction hours; simpl; auto.
  - inversion Hnd as [|? ? Hnotin Hnd']; subst.
    inversion Hall as [|? ? [Hk Hn] Hall']; subst. cbn [fst snd] in *.
    cbn [map list_sum fold_right snd]. fold (list_sum (map snd table)).
    rewrite <- (IH Hnd' Hall').
    rewrite <- (sum_single_key hours (Z.to_nat k) n
                  (fun hour =>
                     count_or_0 (lookup Z.eqb (Z.of_nat hour) table))
                  Hnh).
    + f_equal. apply map_ext. intros h. cbn [lookup].
      destruct (Z.eqb k (Z.of_nat h)) eqn:E.
      * apply Z.eqb_eq in E. subst k. rewrite Nat2Z.id, Nat.eqb_refl.
        rewrite count_or_0_id. reflexivity.
      * destruct (Z.to_nat k =? h) eqn:E'; [|reflexivity].
        apply Nat.eqb_eq in E'. apply Z.eqb_neq in E. lia.
    + apply Hin. lia.
    + rewrite Z2Nat.id by lia.
      destruct (lookup Z.eqb k table) as [v|] eqn:El; [|reflexivity].
      exfalso. apply Hnotin.
      apply (lookup_keys Z.eqb); [exact Z_eqb_spec | eauto].
Qed.

Lemma usagePatterns_of_snapshot (tz : Z) (sn tf : num -> string)
    (app : option (list Session)) (pre : option (list Response))
    (demo : option (list Demographic)) (dateRange : DateRange)
    (clock : nat -> Z) :
  usagePatterns (run (useAdvancedAnalytics tz sn tf app pre demo dateRange)
                     clock)
  = usagePatterns_of tz (or_empty app).
Proof. destruct dateRange; reflexivity. Qed.

(** X17.  The hourly chart of the dashboard has 24 bars, and they add up
    to the number of sessions with a timestamp among those the hook
    received: no session is lost between the table of the hook, keyed by
    the hours that occur, and the array of the chart. *)
Theorem hourlyPattern_total (tz : Z) (sn tf : num -> string)
    (app : option (list Session)) (pre : option (list Response))
    (demo : option (list Demographic)) (dateRange : DateRange)
    (clock : nat -> Z) :
  let analytics :=
    run (useAdvancedAnalytics tz sn tf app pre demo dateRange) clock in
  length (hourlyPattern analytics) = 24
  /\ list_sum (hourlyPattern analytics)
     = length (filter has_timestamp (or_empty app)).
Proof.
  intros analytics. split; [reflexivity|].
  unfold hourlyPattern, analytics. rewrite usagePatterns_of_snapshot.
  unfold usagePatterns_of. rewrite usage_fold_hourly.
  cbn [hourlyDistribution].
  destruct (hour_fold_facts tz (or_empty app) [] (count_table_nil 0 23))
    as [Ht Hs].
  rewrite (hourly_lookup_total _ Ht), Hs. reflexivity.
Qed.

Local Close Scope nat_scope.

(* ================================================================== *)
(** * Further properties: the filters of the dashboard *)
(* ================================================================== *)

Local Open Scope Z_scope.

(** The calendar conversions are inverse to each other. *)
Lemma days_from_civil_from_days (z : Z) :
  let '(y, m, d) := civil_from_days z in days_from_civil y m d = z.
Proof.
  unfold civil_from_days, days_from_civil.
  set (z' := z + 719468).
  set (era := z' / 146097).
  set (doe := z' - era * 146097).
  assert (Hdoe : 0 <= doe < 146097).
  { unfold doe, era. Z.to_euclidean_division_equations. lia. }
  set (yoe := (doe - doe / 1460 + doe / 36524 - doe / 146096) / 365).
  assert (Hyoe : 0 <= yoe <= 399).
  { unfold yoe. Z.to_euclidean_division_equations. lia. }
  set (doy := doe - (365 * yoe + yoe / 4 - yoe / 100)).
  assert (Hdoy : 0 <= doy <= 365).
  { unfold doy, yoe. Z.to_euclidean_division_equations. lia. }
  set (mp := (5 * doy + 2) / 153).
  assert (Hmp : 0 <= mp <= 11).
  { unfold mp. Z.to_euclidean_division_equations. lia. }
  destruct (mp <? 10) eqn:E.
  - apply Z.ltb_lt in E.
    replace (mp + 3 <=? 2) with false by (symmetry; apply Z.leb_gt; lia).
    replace (2 <? mp + 3) with true by (symmetry; apply Z.ltb_lt; lia).
    replace (mp + 3 - 3) with mp by lia.
    replace ((yoe + era * 400) / 400) with era
      by (Z.to_euclidean_division_equations; lia).
    replace (yoe + era * 400 - era * 400) with yoe by lia.
    unfold doy, doe, z'. lia.
  - apply Z.ltb_ge in E.
    replace (mp - 9 <=? 2) with true by (symmetry; apply Z.leb_le; lia).
    replace (2 <? mp - 9) with false by (symmetry; apply Z.ltb_ge; lia).
    replace (mp - 9 + 9) with mp by lia.
    replace (yoe + era * 400 + 1 - 1) with (yoe + era * 400) by lia.
    replace ((yoe + era * 400) / 400) with era
      by (Z.to_euclidean_division_equations; lia).
    replace (yoe + era * 400 - era * 400) with yoe by lia.
    unfold doy, doe, z'. lia.
Qed.

(** For the ranges of 7, 30 and 90 days the cutoff is the reading of the
    clock less the length of the range. *)
Lemma cutoffDate_of_days (tz : Z) (dateRange : DateRange) (now days : Z) :
  dateRange <> today ->
  periodDays dateRange = DaysN days ->
  cutoffDate tz dateRange now = Some (now - days * 24 * 60 * 60 * 1000).
Proof.
  destruct dateRange; cbn [cutoffDate periodDays]; intros Ht Hd;
    try discriminate; try congruence; injection Hd as <-; reflexivity.
Qed.

Local Close Scope Z_scope.
Local Open Scope nat_scope.

(** [l'] is [l] with some rows removed: the rows kept stay in order and
    none is added. *)
Definition filtered_from {A : Type} (l l' : list A) : Prop :=
  exists keep, l' = filter keep l.

Lemma filtered_from_refl {A : Type} (l : list A) : filtered_from l l.
Proof.
  exists (fun _ => true). induction l as [|a l IH]; simpl; congruence.
Qed.

Lemma filter_filter {A : Type} (f g : A -> bool) (l : list A) :
  filter f (filter g l) = filter (fun a => g a && f a) l.
Proof.
  induction l as [|a l IH]; simpl; [reflexivity|].
  destruct (g a); simpl; [destruct (f a)|]; rewrite IH; reflexivity.
Qed.

Lemma filtered_from_filter {A : Type} (f : A -> bool) (l l' : list A) :
  filtered_from l l' -> filtered_from l (filter f l').
Proof. intros [k ->]. eexists. apply filter_filter. Qed.

Lemma filtered_from_trans {A : Type} (l l' l'' : list A) :
  filtered_from l l' -> filtered_from l' l'' -> filtered_from l l''.
Proof. intros H [k ->]. apply filtered_from_filter, H. Qed.

(** Componentwise on the three arrays. *)
Definition narrowed (data data' : FilteredData) : Prop :=
  filtered_from (fd_appUsage data) (fd_appUsage data')
  /\ filtered_from (fd_pretest data) (fd_pretest data')
  /\ filtered_from (fd_demographics data) (fd_demographics data').

Lemma narrowed_refl (data : FilteredData) : narrowed data data.
Proof. repeat split; apply filtered_from_refl. Qed.

Lemma narrowed_trans (a b c : FilteredData) :
  narrowed a b -> narrowed b c -> narrowed a c.
Proof.
  intros (H1 & H2 & H3) (K1 & K2 & K3).
  repeat split; eapply filtered_from_trans; eassumption.
Qed.

Ltac narrow :=
  repeat match goal with
         | |- narrowed _ (if ?b then _ else _) => destruct b
         | |- narrowed _ (match ?l with _ => _ end) => destruct l
         | |- narrowed ?d ?d => apply narrowed_refl
         | |- narrowed _ _ =>
             repeat split; cbn [fd_appUsage fd_pretest fd_demographics];
             first [apply filtered_from_refl
                   | apply filtered_from_filter, filtered_from_refl]
         end.

Lemma later_filters_narrow (tz : Z) (sn : num -> string)
    (ns : string -> num) (demographicFilter participantFilter : string)
    (filters : Filters) (data : FilteredData) :
  narrowed data
    (engagementFiltering filters
       (sessionTypeFiltering filters
          (deviceTypeFiltering filters
             (genderFiltering filters
                (ageRangeFiltering ns filters
                   (sessionDurationFiltering filters
                      (customDateRangeFiltering filters
                         (participantFiltering participantFilter
                            (demographicFiltering sn demographicFilter
                               data))))))))).
Proof.
  repeat (eapply narrowed_trans;
          [|match goal with
            | |- narrowed _ (engagementFiltering _ _) =>
                unfold engagementFiltering
            | |- narrowed _ (sessionTypeFiltering _ _) =>
                unfold sessionTypeFiltering
            | |- narrowed _ (deviceTypeFiltering _ _) =>
                unfold deviceTypeFiltering
            | |- narrowed _ (genderFiltering _ _) =>
                unfold genderFiltering, of_participants
            | |- narrowed _ (ageRangeFiltering _ _ _) =>
                unfold ageRangeFiltering, of_participants
            | |- narrowed _ (sessionDurationFiltering _ _) =>
                unfold sessionDurationFiltering
            | |- narrowed _ (customDateRangeFiltering _ _) =>
                unfold customDateRangeFiltering, between
            | |- narrowed _ (participantFiltering _ _) =>
                unfold participantFiltering
            | |- narrowed _ (demographicFiltering _ _ _) =>
                unfold demographicFiltering, of_participants
            end; narrow]).
  apply narrowed_refl.
Qed.

Lemma filtered_from_Forall {A : Type} (P : A -> Prop) (l l' : list A) :
  filtered_from l l' -> Forall P l -> Forall P l'.
Proof.
  intros [k ->] H. apply Forall_forall. intros a Ha.
  apply filter_In in Ha. rewrite Forall_forall in H. apply H, Ha.
Qed.

(** The row was created at [c] or later. *)
Definition created_since {A : Type} (created : A -> option Z) (c : Z)
    (item : A) : Prop :=
  exists t, created item = Some t /\ (c <= t)%Z.

Lemma since_Forall {A : Type} (created : A -> option Z) (c : Z)
    (rows : list A) :
  Forall (created_since created c) (since created c rows).
Proof.
  apply Forall_forall. intros a Ha. apply filter_In in Ha.
  destruct Ha as [_ Ha]. unfold created_since.
  destruct (created a) as [t|]; [|discriminate].
  exists t. split; [reflexivity | apply Z.leb_le, Ha].
Qed.

Lemma run_filteredData (tz : Z) (sn : num -> string) (ns : string -> num)
    (app : option (list UsageRow)) (pre : option (list Response))
    (demo : option (list DemographicRow)) (dateRange : DateRange)
    (demographicFilter participantFilter : string) (filters : Filters)
    (clock : nat -> Z) (t : nat) :
  exists dated,
    filteredData tz sn ns app pre demo dateRange demographicFilter
                 participantFilter filters clock t
    = (engagementFiltering filters
         (sessionTypeFiltering filters
            (deviceTypeFiltering filters
               (genderFiltering filters
                  (ageRangeFiltering ns filters
                     (sessionDurationFiltering filters
                        (customDateRangeFiltering filters
                           (participantFiltering participantFilter
                              (demographicFiltering sn demographicFilter
                                 dated)))))))),
       match dateRange with all => t | _ => S t end)
    /\ narrowed {| fd_appUsage := or_empty app;
                   fd_pretest := or_empty pre;
                   fd_demographics := or_empty demo |}
                dated
    /\ forall c,
         cutoffDate tz dateRange (clock t) = Some c ->
         Forall (created_since row_created c) (fd_appUsage dated)
         /\ Forall (created_since response_created_at c) (fd_pretest dated)
         /\ Forall (created_since demographic_created_at c)
                   (fd_demographics dated).
Proof.
  unfold filteredData, dateFiltering, bind, ret, new_Date.
  destruct dateRange; cbn [cutoffDate]; eexists;
    (split; [reflexivity|]); (split; [unfold since; narrow|]);
    intros c Hc; try discriminate;
    cbn [fd_appUsage fd_pretest fd_demographics];
    injection Hc as <-; repeat split; apply since_Forall.
Qed.

(** X18.  The filters of the dashboard only remove rows: each of the
    three arrays handed to the hook is the loaded array with some rows
    filtered out, in the original order; and when a range other than
    ['all'] is selected, every row that is left was created at the cutoff
    of the range or later. *)
Theorem filteredData_narrows (tz : Z) (sn : num -> string)
    (ns : string -> num)
    (app : option (list UsageRow)) (pre : option (list Response))
    (demo : option (list DemographicRow)) (dateRange : DateRange)
    (demographicFilter participantFilter : string) (filters : Filters)
    (clock : nat -> Z) :
  let filtered :=
    run (filteredData tz sn ns app pre demo dateRange demographicFilter
                      participantFilter filters) clock in
  narrowed {| fd_appUsage := or_empty app;
              fd_pretest := or_empty pre;
              fd_demographics := or_empty demo |}
           filtered
  /\ forall c,
       cutoffDate tz dateRange (clock 0) = Some c ->
       Forall (created_since row_created c) (fd_appUsage filtered)
       /\ Forall (created_since response_created_at c) (fd_pretest filtered)
       /\ Forall (created_since demographic_created_at c)
                 (fd_demographics filtered).
Proof.
  intros filtered. unfold filtered, run.
  destruct (run_filteredData tz sn ns app pre demo dateRange
              demographicFilter participantFilter filters clock 0)
    as [dated (-> & Hn & Hc)].
  cbn [fst].
  pose proof (later_filters_narrow tz sn ns demographicFilter
                participantFilter filters dated) as Hl.
  split; [eapply narrowed_trans; eassumption|].
  intros c E. destruct (Hc c E) as (H1 & H2 & H3).
  destruct Hl as (L1 & L2 & L3).
  repeat split; eapply filtered_from_Forall; eassumption.
Qed.

Lemma previous_sessions_nil (now days : Z) (dateRange : DateRange)
    (sessions : list Session) :
  periodDays dateRange = DaysN days ->
  Forall (created_since created_at (now - days * 24 * 60 * 60 * 1000)%Z)
         sessions ->
  previous_sessions now dateRange sessions = [].
Proof.
  intros Hd Hall. unfold previous_sessions. rewrite Hd.
  induction Hall as [|s l [t [Ht Hle]] _ IH]; [reflexivity|].
  cbn [filter]. rewrite Ht.
  replace (t <? now - days * 24 * 60 * 60 * 1000)%Z with false
    by (symmetry; apply Z.ltb_ge; exact Hle).
  rewrite andb_false_r. exact IH.
Qed.

Lemma comparison_trend_0 : comparison_trend (Fin 0) = stable.
Proof.
  unfold comparison_trend. simpl.
  destruct (Rlt_dec 5 0); [exfalso; lra|].
  destruct (Rlt_dec 0 (- 5)); [exfalso; lra | reflexivity].
Qed.

(** The part of a snapshot that compares with the previous period shows
    no previous data and no change. *)
Definition no_comparison (analytics : Snapshot) : Prop :=
  let previous_period := previousPeriod (sessionAnalytics analytics) in
  let comparison := periodComparison analytics in
  let metrics := comparisonMetrics (summary analytics) in
  previous_count previous_period = 0
  /\ previous_mean previous_period = Fin 0
  /\ previous_median previous_period = Fin 0
  /\ change previous_period = {| change_count := Fin 0; change_mean := Fin 0 |}
  /\ previous (pc_sessions comparison) = Fin 0
  /\ comparison_change (pc_sessions comparison) = Fin 0
  /\ trend (pc_sessions comparison) = stable
  /\ previous (pc_duration comparison) = Fin 0
  /\ comparison_change (pc_duration comparison) = Fin 0
  /\ trend (pc_duration comparison) = stable
  /\ participants_previous (pc_participants comparison) = 0
  /\ participants_change (pc_participants comparison) = Fin 0
  /\ sessionChange metrics = Fin 0
  /\ durationChange metrics = Fin 0
  /\ participantChange metrics = Fin 0.

Lemma snapshot_without_previous (tz : Z) (sn tf : num -> string)
    (cur : list Session) (pre : list Response) (demo : list Demographic)
    (dateRange : DateRange) :
  no_comparison (snapshot_of tz sn tf cur [] pre demo dateRange).
Proof.
  unfold no_comparison.
  cbn [snapshot_of sessionAnalytics periodComparison summary
       comparisonMetrics sessionChange durationChange participantChange
       periodComparison_of pc_sessions pc_duration pc_participants
       previous comparison_change trend participants_previous
       participants_change sessionAnalytics_of previousPeriod
       previous_count previous_mean previous_median change change_count
       change_mean].
  change (sessionDurations []) with (@nil num).
  change (participantCount []) with 0.
  cbn [length mean]. rewrite comparison_trend_0.
  repeat split; reflexivity.
Qed.

(** The item was created at a time from [lo] up to, not including,
    [hi]. *)
Definition created_within {A : Type} (created : A -> option Z) (lo hi : Z)
    (item : A) : Prop :=
  exists t, created item = Some t /\ (lo <= t < hi)%Z.

(** X19.  On the dashboard the hook sees no previous period under the
    ranges ['7d'], ['30d'] and ['90d'].  The dashboard has already
    removed every row older than its cutoff, its reading of the clock
    less the length of the range, before it calls the hook; the hook
    takes as previous the rows older than its own, later reading of the
    clock less the same length.  So unless a loaded row was created in
    the sliver between these two instants, the snapshot records no
    previous session and participant and reports every change as 0 and
    ['stable'], whatever the data.  (The range ['today'], whose cutoff is
    a local midnight, is left out.) *)
Theorem dashboard_previous_period_empty (tz : Z) (sn : num -> string)
    (ns : string -> num) (tf : num -> string)
    (app : option (list UsageRow)) (pre : option (list Response))
    (demo : option (list DemographicRow)) (dateRange : DateRange)
    (demographicFilter participantFilter : string) (filters : Filters)
    (clock : nat -> Z) (days : Z) :
  dateRange <> today ->
  periodDays dateRange = DaysN days ->
  Forall (fun row =>
            ~ created_within row_created
                (clock 0%nat - days * 24 * 60 * 60 * 1000)%Z
                (clock 1%nat - days * 24 * 60 * 60 * 1000)%Z row)
         (or_empty app) ->
  no_comparison
    (run (dashboard_analytics tz sn ns tf app pre demo dateRange
                              demographicFilter participantFilter filters)
         clock).
Proof.
  intros Htoday Ed Hsliver. unfold run, dashboard_analytics, bind.
  destruct (run_filteredData tz sn ns app pre demo dateRange
              demographicFilter participantFilter filters clock 0)
    as [dated (-> & [Hn _] & Hc)].
  cbn [fd_appUsage] in Hn.
  rewrite useAdvancedAnalytics_at. cbn [or_empty].
  set (kept := fd_appUsage _).
  assert (Hkept : filtered_from (fd_appUsage dated) kept)
    by apply (later_filters_narrow tz sn ns demographicFilter
                participantFilter filters dated).
  assert (Hidx : match dateRange with all => 0 | _ => 1 end = 1)
    by (destruct dateRange; cbn [periodDays] in Ed; congruence).
  rewrite Hidx.
  destruct (Hc _ (cutoffDate_of_days tz dateRange (clock 0) days Htoday Ed))
    as (Hrows & _ & _).
  rewrite (previous_sessions_nil (clock 1) days dateRange
             (map row_session kept) Ed).
  - apply snapshot_without_previous.
  - apply Forall_map.
    pose proof (filtered_from_Forall _ _ _ Hkept Hrows) as Hsince.
    pose proof (filtered_from_Forall _ _ _ Hkept
                  (filtered_from_Forall _ _ _ Hn Hsliver)) as Hout.
    rewrite Forall_forall in *. intros item Hin.
    destruct (Hsince item Hin) as [t [Ht Hle]].
    exists t. split; [exact Ht|].
    destruct (Z_lt_ge_dec t (clock 1%nat - days * 24 * 60 * 60 * 1000)%Z)
      as [Hlt|Hge]; [|lia].
    exfalso. apply (Hout item Hin). exists t. split; [exact Ht | lia].
Qed.

(** Witness: the last 7 days, the dashboard reads the clock at day 20 and
    the hook one millisecond later; one row created at day 19. *)
Lemma dashboard_previous_period_empty_witness :
  let filters :=
    {| sessionDuration := {| range_min := None; range_max := None |};
       ageRange := {| range_min := None; range_max := None |};
       gender := []; deviceType := []; sessionType := [];
       engagement := "all"%string;
       customDateRange := {| range_start := None; range_end := None |} |} in
  let row :=
    {| row_session := {| participant_number := Some "P1"%string;
                         duration_minutes := Some (Fin 5);
                         created_at := Some (19 * 86400000)%Z |};
       session_duration := None; device_type := None;
       session_type := None |} in
  let clock := fun n : nat => (20 * 86400000 + Z.of_nat n)%Z in
  d7 <> today
  /\ periodDays d7 = DaysN 7
  /\ (clock 0%nat < clock 1%nat)%Z
  /\ no_comparison
       (run (dashboard_analytics 0%Z (fun _ => EmptyString) (fun _ => NaN)
               (fun _ => EmptyString) (Some [row]) None None d7
               "all"%string "all"%string filters)
            clock).
Proof.
  intros filters row clock.
  assert (H : d7 <> today) by discriminate.
  split; [exact H|]. split; [reflexivity|]. split; [reflexivity|].
  apply (dashboard_previous_period_empty 0%Z (fun _ => EmptyString)
           (fun _ => NaN) (fun _ => EmptyString) (Some [row]) None None d7
           "all"%string "all"%string filters clock 7%Z H eq_refl).
  cbn [or_empty]. apply Forall_cons; [|apply Forall_nil].
  intros [t [Ht Hr]]. cbn in Ht. injection Ht as <-.
  unfold clock in Hr. cbn in Hr. lia.
Defined.

(* ================================================================== *)
(** * Further properties: the summary *)
(* ================================================================== *)

Local Open Scope nat_scope.

(** The non-empty participant numbers of the sessions, in order. *)
Definition participant_names (sessions : list Session) : list string :=
  flat_map (fun p => match p with Some s => [s] | None => [] end)
           (filter truthy_string (map participant_number sessions)).

Lemma participant_names_In (sessions : list Session) (p : string) :
  In p (participant_names sessions)
  <-> filter (session_by p) sessions <> [].
Proof.
  unfold participant_names.
  induction sessions as [|s l IH]; [simpl; tauto|].
  cbn [map filter]. unfold session_by at 1.
  destruct (participant_number s) as [q|] eqn:Eq.
  - destruct (truthy_string (Some q)) eqn:Et.
    + cbn [flat_map app In]. rewrite andb_true_r.
      destruct (String.eqb q p) eqn:E.
      * apply String.eqb_eq in E. split; [discriminate | auto].
      * rewrite IH. split; [intros [->|H]; [|exact H] | auto].
        rewrite String.eqb_refl in E. discriminate.
    + rewrite andb_false_r. exact IH.
  - cbn [truthy_string]. exact IH.
Qed.

Lemma participant_names_length (sessions : list Session) :
  length (participant_names sessions) <= length sessions.
Proof.
  unfold participant_names. induction sessions as [|s l IH]; [simpl; lia|].
  cbn [map filter length].
  destruct (truthy_string (participant_number s)) eqn:E; [|lia].
  destruct (participant_number s); [|discriminate].
  cbn [flat_map app length]. lia.
Qed.

Lemma participantCount_engagement (sessions : list Session) :
  participantCount sessions
  = length (fold_left engagement_step sessions []).
Proof.
  destruct (engagement_fold_facts sessions) as [Hnd Hent].
  unfold participantCount. fold (participant_names sessions).
  rewrite <- (length_map fst (fold_left engagement_step sessions [])).
  apply Permutation_length, NoDup_Permutation;
    [apply NoDup_nodup | exact Hnd |].
  intros p. rewrite nodup_In, participant_names_In.
  rewrite (lookup_keys String.eqb) by exact String_eqb_spec.
  specialize (Hent p).
  destruct (lookup String.eqb p (fold_left engagement_step sessions []))
    as [e|]; cbn [engagement_entry] in Hent.
  - split; [eauto | intros _; apply Hent].
  - rewrite Hent. split; [congruence | intros [v Hv]; discriminate].
Qed.

Lemma participantCount_le (sessions : list Session) :
  participantCount sessions <= length sessions.
Proof.
  unfold participantCount. fold (participant_names sessions).
  etransitivity; [|apply participant_names_length].
  apply NoDup_incl_length; [apply NoDup_nodup|].
  intros p Hp. apply nodup_In in Hp. exact Hp.
Qed.

Lemma sessionDurations_length (sessions : list Session) :
  length (sessionDurations sessions) <= length sessions.
Proof.
  induction sessions as [|s l IH]; [simpl; lia|].
  rewrite sessionDurations_cons, length_app. cbn [length].
  destruct (duration_minutes s) as [d|]; [destruct (ngt d (Fin 0))|];
    simpl; lia.
Qed.

Lemma completeness_fraction (k n : nat) :
  k <= n ->
  exists q, ndiv (of_nat k) (nmax2 (of_nat n) (Fin 1)) = Fin q
            /\ (0 <= q <= 1)%R.
Proof.
  intros Hkn. unfold of_nat. cbn [nmax2 nlt].
  pose proof (pos_INR k) as Hk. apply le_INR in Hkn.
  destruct (Rlt_dec (INR n) 1) as [Hlt|Hge].
  - rewrite ndiv_Fin by lra. eexists. split; [reflexivity|].
    destruct n as [|n]; [|rewrite S_INR in Hlt; pose proof (pos_INR n); lra].
    simpl in Hkn. lra.
  - rewrite ndiv_Fin by lra. eexists. split; [reflexivity|].
    assert (Hn : (0 < INR n)%R) by lra. split.
    + apply Rmult_le_pos; [exact Hk|]. left. apply Rinv_0_lt_compat, Hn.
    + apply (Rmult_le_reg_r (INR n)); [exact Hn|].
      unfold Rdiv. rewrite Rmult_assoc, Rinv_l by lra. lra.
Qed.


Local Open Scope R_scope.

(** The statistics of a numeric field of the pretest are in order. *)
Definition ordered_numericStats (st : NumericStats) : Prop :=
  values st <> []
  /\ num_le (ns_min st) (ns_median st)
  /\ num_le (ns_median st) (ns_max st)
  /\ num_le (ns_min st) (ns_mean st)
  /\ num_le (ns_mean st) (ns_max st)
  /\ num_le (Fin 0) (ns_standardDeviation st).

Lemma numericStats_of_ordered (vs : list num) :
  collected vs -> ordered_numericStats (numericStats_of vs).
Proof.
  intros [Hne Hfin]. destruct (finite_list_inv vs Hfin) as [rs ->].
  assert (Hrs : rs <> []) by (intros ->; apply Hne; reflexivity).
  unfold ordered_numericStats, numericStats_of.
  cbn [values ns_min ns_median ns_max ns_mean ns_standardDeviation].
  split; [exact Hne|].
  rewrite median_as_percentile.
  destruct (percentile_within rs 50 Hrs) as [H1 H2]; [lra|].
  destruct (mean_within rs Hrs) as [H3 H4].
  repeat split; try assumption.
  rewrite standardDeviation_Fin. cbn [num_le]. apply sqrt_pos.
Qed.

Lemma numeric_fields_collected (responses : list Response) :
  finite_responses responses ->
  forall acc,
    Forall (fun e => collected (snd e)) (or_empty (acc_numericFields acc)) ->
    Forall (fun e => collected (snd e))
           (or_empty (acc_numericFields
              (fold_left
                 (fun acc response =>
                    fold_left pretest_entry (response_fields response) acc)
                 responses acc))).
Proof.
  induction 1 as [|r responses Hr _ IH]; intros acc Hacc; [exact Hacc|].
  cbn [fold_left]. apply IH. apply pretest_fields_collected; assumption.
Qed.

(** X21.  In the pretest analysis of responses whose numbers are whole
    numbers every numeric field has at least one value, and its
    statistics are in order: the median and the mean lie between the
    minimum and the maximum, and the standard deviation is not negative.
    (The sum of whole numbers is exact and the division that gives the
    mean rounds monotonically; on fractions such as 12.7 the rounded mean
    can fall below the minimum.) *)
Theorem pretest_numericFields_ordered (responses : list Response) :
  whole_responses responses ->
  Forall (fun field => ordered_numericStats (snd field))
         (or_empty (numericFields (pretestAnalysis_of responses))).
Proof.
  intros Hwhole. pose proof (whole_responses_finite _ Hwhole) as H.
  unfold pretestAnalysis_of. cbn [numericFields].
  pose proof (numeric_fields_collected responses H
                {| acc_booleanFields := None; acc_numericFields := None |}
                (Forall_nil _)) as Hacc.
  destruct (acc_numericFields _) as [fields|]; [|constructor].
  cbn [option_map or_empty] in *.
  induction Hacc as [|[field vs] fields Hvs _ IH]; [constructor|].
  cbn [map]. constructor; [|exact IH].
  cbn [snd] in *. apply numericStats_of_ordered, Hvs.
Qed.

(** Witness: two responses with the scores 3 and 7. *)
Lemma pretest_numericFields_ordered_witness :
  let responses :=
    [{| response_created_at := None;
        response_fields := [("score"%string, JNum (Fin 3))] |};
     {| response_created_at := None;
        response_fields := [("score"%string, JNum (Fin 7))] |}] in
  whole_responses responses
  /\ Forall (fun field => ordered_numericStats (snd field))
            (or_empty (numericFields (pretestAnalysis_of responses))).
Proof.
  intros responses.
  assert (W : forall z, (Z.abs z <= 2 ^ 20)%Z -> whole_number (Fin (IZR z)))
    by exact whole_IZR.
  assert (H : whole_responses responses).
  { apply Forall_cons;
      [apply Forall_cons; [apply (W 3%Z); discriminate | apply Forall_nil]|].
    apply Forall_cons;
      [apply Forall_cons; [apply (W 7%Z); discriminate | apply Forall_nil]|].
    apply Forall_nil. }
  split; [exact H|].
  exact (pretest_numericFields_ordered responses H).
Defined.
